(** * Aventora chatbot embedding: the message bridge of the web component

    A shallow embedding of [public/aventora-chat.js] (the [AventoraChat]
    custom element) and of the command part of [widget/widget-ui.js].
    Further modules embed the loader [public/widget.js], the way the
    widget UI opens its panel and loads the chatbot, the loader of the
    widget UI, and the token and config endpoints of [server.js].

    The component is single-threaded and event driven.  Every handler of
    the source becomes a function on an explicit component state; what the
    handlers do to the outside world (messages posted to the iframe, custom
    events dispatched on [window], network requests, file reads and timers
    that are still in flight) is recorded in logs carried by that state.
    Asynchronous functions are cut at their [await]s: the part that runs
    before the answer arrives and the part that runs after it are separate
    functions, so that other handlers can be interleaved between them.

    Strings are byte strings holding UTF-8 text, as Rocq string literals
    are. *)

From Stdlib Require Import String Ascii List Bool Arith Lia.
From Stdlib Require DecimalString DecimalNat.
Import ListNotations.
Open Scope string_scope.

(* ================================================================== *)
(** ** JavaScript values *)

Module Js.

(** The values that travel through the component: option fields, parsed
    JSON bodies and [postMessage] payloads.  An object is the association
    list of its own properties; a key is looked up from the left.  A [File]
    keeps the two properties a receiver can read, its name and MIME type. *)
#[warnings="-register-all"]
Inductive value : Type :=
| VUndefined
| VNull
| VBool (b : bool)
| VStr (s : string)
| VFile (name type : string)
| VObj (fields : list (string * value)).

(** ToBoolean. *)
Definition truthy (v : value) : bool :=
  match v with
  | VUndefined | VNull => false
  | VBool b => b
  | VStr s => negb (s =? "")
  | VFile _ _ | VObj _ => true
  end.

(** [a || b]. *)
Definition or_else (a b : value) : value := if truthy a then a else b.

(** [typeof v === 'object'] (which holds of [null]). *)
Definition typeof_object (v : value) : bool :=
  match v with
  | VNull | VFile _ _ | VObj _ => true
  | _ => false
  end.

(** [v instanceof File]. *)
Definition instanceof_File (v : value) : bool :=
  match v with VFile _ _ => true | _ => false end.

(** [v === true]. *)
Definition is_true (v : value) : bool :=
  match v with VBool true => true | _ => false end.

(** [v === 'lit'] for a string literal. *)
Definition is_str (lit : string) (v : value) : bool :=
  match v with VStr s => s =? lit | _ => false end.

Fixpoint lookup (k : string) (fs : list (string * value)) : value :=
  match fs with
  | [] => VUndefined
  | (k', v) :: rest => if k =? k' then v else lookup k rest
  end.

(** [v.k] for the property names this program reads ([type], [error],
    [details], [token], [chatbotBaseUrl], [autoSend], [file]).  [None] is
    the TypeError of reading a property of [null] or [undefined]. *)
Definition get (v : value) (k : string) : option value :=
  match v with
  | VUndefined | VNull => None
  | VObj fs => Some (lookup k fs)
  | VFile _ t => Some (if k =? "type" then VStr t else VUndefined)
  | VBool _ | VStr _ => Some VUndefined
  end.

(** ToString, as a template literal and [new Error(v)] apply it. *)
Definition toString (v : value) : string :=
  match v with
  | VUndefined => "undefined"
  | VNull => "null"
  | VBool true => "true"
  | VBool false => "false"
  | VStr s => s
  | VFile _ _ => "[object File]"
  | VObj _ => "[object Object]"
  end.

(** The message of the TypeError raised by [v.k] on [null] or [undefined]
    (V8's wording). *)
Definition typeError_message (v : value) (k : string) : string :=
  "Cannot read properties of " ++ toString v ++ " (reading '" ++ k ++ "')".

End Js.

(* ================================================================== *)
(** ** Text helpers: [includes], [split], [slice(-2)], [join] *)

Module Text.

(** [s.startsWith(p)]. *)
Fixpoint starts_with (p s : string) : bool :=
  match p with
  | EmptyString => true
  | String a p' =>
      match s with
      | String b s' => (a =? b)%char && starts_with p' s'
      | EmptyString => false
      end
  end.

(** [hay.includes(needle)]. *)
Fixpoint includes (needle hay : string) : bool :=
  starts_with needle hay ||
  match hay with
  | EmptyString => false
  | String _ rest => includes needle rest
  end.

(** [s.split('.')]: never empty; the empty string gives one empty part. *)
Fixpoint split_dot (s : string) : list string :=
  match s with
  | EmptyString => [""]
  | String c rest =>
      if (c =? ".")%char then "" :: split_dot rest
      else match split_dot rest with
           | part :: parts => String c part :: parts
           | [] => [String c ""]
           end
  end.

(** [parts.slice(-2)]. *)
Definition slice_last2 (parts : list string) : list string :=
  skipn (length parts - 2) parts.

(** [parts.join('.')]. *)
Definition join_dot (parts : list string) : string := String.concat "." parts.

Definition nl : string := String (ascii_of_nat 10) "".
Definition dq : string := String (ascii_of_nat 34) "".

Fixpoint spaces (n : nat) : string :=
  match n with O => "" | S k => String " " (spaces k) end.

(** One line of a template literal: a line break, the indentation, the text. *)
Definition line (indent : nat) (s : string) : string := nl ++ spaces indent ++ s.

(** [ name="v"] inside a tag. *)
Definition attr (name v : string) : string := " " ++ name ++ "=" ++ dq ++ v ++ dq.

Fixpoint count_char (c : ascii) (s : string) : nat :=
  match s with
  | EmptyString => 0
  | String d rest => (if (d =? c)%char then 1 else 0) + count_char c rest
  end.

End Text.

(* ================================================================== *)
(** ** The DOM's text-node round trip *)

Module Html.

Definition xC2 : ascii := ascii_of_nat 194.
Definition xA0 : ascii := ascii_of_nat 160.

(** [div.textContent = text; return div.innerHTML]: the serialisation of one
    text node by the HTML fragment serialisation algorithm, which replaces
    [&], [<], [>] and U+00A0 and copies every other character.  In UTF-8
    the byte C2 only ever opens a two-byte character, so the bytes C2 A0
    are U+00A0 and nothing else. *)
Fixpoint escapeHtml (text : string) : string :=
  match text with
  | EmptyString => ""
  | String c rest =>
      if (c =? "&")%char then "&amp;" ++ escapeHtml rest
      else if (c =? "<")%char then "&lt;" ++ escapeHtml rest
      else if (c =? ">")%char then "&gt;" ++ escapeHtml rest
      else match rest with
           | String c2 rest2 =>
               if (c =? xC2)%char && (c2 =? xA0)%char
               then "&nbsp;" ++ escapeHtml rest2
               else String c (escapeHtml rest)
           | EmptyString => String c ""
           end
  end.

(** Whether [escapeHtml] reads [c] followed by [rest] as U+00A0. *)
Definition nbsp_at (c : ascii) (rest : string) : bool :=
  match rest with
  | String c2 _ => (c =? xC2)%char && (c2 =? xA0)%char
  | EmptyString => false
  end.

(** A character reference the serialiser writes, without its [&]. *)
Definition entity_follows (s : string) : bool :=
  Text.starts_with "amp;" s || Text.starts_with "lt;" s ||
  Text.starts_with "gt;" s || Text.starts_with "nbsp;" s.

(** Markup text in which no [<] or [>] stands and every [&] opens one of
    the serialiser's character references. *)
Fixpoint inert (s : string) : bool :=
  match s with
  | EmptyString => true
  | String c rest =>
      negb (c =? "<")%char && negb (c =? ">")%char &&
      (if (c =? "&")%char then entity_follows rest else true) &&
      inert rest
  end.

Fixpoint drop (n : nat) (s : string) : string :=
  match n, s with
  | S k, String _ rest => drop k rest
  | _, _ => s
  end.

(** What an HTML parser reads back from [inert] text: the four character
    references are decoded, everything else is copied.  [fuel] bounds the
    number of characters read. *)
Fixpoint decode_fuel (fuel : nat) (s : string) : string :=
  match fuel with
  | O => ""
  | S k =>
      match s with
      | EmptyString => ""
      | String c rest =>
          if (c =? "&")%char then
            if Text.starts_with "amp;" rest then String "&" (decode_fuel k (drop 4 rest))
            else if Text.starts_with "lt;" rest then String "<" (decode_fuel k (drop 3 rest))
            else if Text.starts_with "gt;" rest then String ">" (decode_fuel k (drop 3 rest))
            else if Text.starts_with "nbsp;" rest
                 then String xC2 (String xA0 (decode_fuel k (drop 5 rest)))
            else String c (decode_fuel k rest)
          else String c (decode_fuel k rest)
      end
  end.

Definition decode (s : string) : string := decode_fuel (String.length s) s.

End Html.

(* ================================================================== *)
(** ** The browser functions the component calls *)

(** What the embedding takes from the browser without modelling it:
    [postMessage] either delivers or throws (a payload that cannot be cloned,
    a target origin that is not [*] or a URL), [new URL(u).origin] either
    parses or throws, and [encodeURIComponent] escapes a string. *)
Record Platform : Type := {
  postMessage_accepts : Js.value -> string -> bool;
  url_origin : string -> option string;
  encodeURIComponent : string -> string
}.

(** The answer to a [fetch] followed by [response.json()]. *)
Inductive JsonBody : Type :=
| BadJson (message : string)      (* response.json() rejects with this message *)
| Json (data : Js.value).

Inductive FetchOutcome : Type :=
| NetworkError (message : string) (* fetch rejects *)
| Response (ok : bool) (body : JsonBody).

(** [window.location], as far as [getChatbotUrl] reads it. *)
Record Location : Type := { hostname : string; port : string }.

(* ================================================================== *)
(** ** public/aventora-chat.js *)

Module AventoraChat.

Import Js Text.

Record Config : Type := {
  tenant : string;
  language : string;
  tokenApiUrl : string;
  chatbotUrl : string
}.

(** The second argument of [sendMessage] and [setQuestion]; a property that
    was left out is [VUndefined]. *)
Record Options : Type := { opt_autoSend : value; opt_file : value }.

(** The object [sendMessage] builds and [sendToIframe] receives. *)
Record Message : Type := { text : string; autoSend : value; file : value }.

(** [this.iframe]: its [src] and whether [contentWindow] is non-null, which
    it is while the iframe stands in the panel of a component that stands
    in the document. *)
Record Iframe : Type := { src : string; contentWindow : bool }.

(** The children of [.iframe-container]: markup written through
    [innerHTML], or the iframe element. *)
Inductive Content : Type :=
| Markup (html : string)
| IframeChild.

(** [.chat-panel]: its inline [display] and whether it carries class [open]. *)
Record Panel : Type := { display : string; open_class : bool }.

(** The [detail] of a dispatched CustomEvent. *)
Inductive Detail : Type :=
| DInstance                                   (* { instance: this } *)
| DSent (text : string) (options : Options)   (* { text, options } *)
| DData (data : value).                       (* the inbound payload *)

(** The component: the fields the constructor sets, the shadow-tree
    elements [render] keeps, and the logs of what the handlers did.
    [connected] is [this.isConnected] as the handlers can meet it: the
    browser sets it before it calls [connectedCallback] and clears it before
    it calls [disconnectedCallback], so it also tells whether
    [messageHandler] is registered on [window]. *)
Record State : Type := {
  config : Config;
  token : value;
  loading : bool;
  error : option string;
  isOpen : bool;
  isMinimized : bool;
  iframe : option Iframe;
  iframeReady : bool;
  pendingMessages : list Message;
  chatbotOrigin : string;
  chatPanel : option Panel;
  launcherButton : option string;        (* its inline display *)
  iframeContainer : option Content;
  posted : list (value * string);        (* postMessage(message, targetOrigin) *)
  events : list (string * Detail);       (* window.dispatchEvent *)
  fetches : list string;                 (* fetch(url) *)
  readers : list Message;                (* FileReader reads in flight *)
  timers : list (string * Options);      (* setQuestion's setTimeout callbacks *)
  connected : bool                       (* the element stands in the document *)
}.

Definition set_token (x : Js.value) (s : State) : State :=
  {| config := config s; token := x; loading := loading s; error := error s; isOpen :=
     isOpen s; isMinimized := isMinimized s; iframe := iframe s; iframeReady := iframeReady
     s; pendingMessages := pendingMessages s; chatbotOrigin := chatbotOrigin s; chatPanel :=
     chatPanel s; launcherButton := launcherButton s; iframeContainer := iframeContainer s;
     posted := posted s; events := events s; fetches := fetches s; readers := readers s;
     timers := timers s;
     connected := connected s |}.

Definition set_loading (x : bool) (s : State) : State :=
  {| config := config s; token := token s; loading := x; error := error s; isOpen := isOpen
     s; isMinimized := isMinimized s; iframe := iframe s; iframeReady := iframeReady s;
     pendingMessages := pendingMessages s; chatbotOrigin := chatbotOrigin s; chatPanel :=
     chatPanel s; launcherButton := launcherButton s; iframeContainer := iframeContainer s;
     posted := posted s; events := events s; fetches := fetches s; readers := readers s;
     timers := timers s;
     connected := connected s |}.

Definition set_error (x : option string) (s : State) : State :=
  {| config := config s; token := token s; loading := loading s; error := x; isOpen :=
     isOpen s; isMinimized := isMinimized s; iframe := iframe s; iframeReady := iframeReady
     s; pendingMessages := pendingMessages s; chatbotOrigin := chatbotOrigin s; chatPanel :=
     chatPanel s; launcherButton := launcherButton s; iframeContainer := iframeContainer s;
     posted := posted s; events := events s; fetches := fetches s; readers := readers s;
     timers := timers s;
     connected := connected s |}.

Definition set_isOpen (x : bool) (s : State) : State :=
  {| config := config s; token := token s; loading := loading s; error := error s; isOpen :=
     x; isMinimized := isMinimized s; iframe := iframe s; iframeReady := iframeReady s;
     pendingMessages := pendingMessages s; chatbotOrigin := chatbotOrigin s; chatPanel :=
     chatPanel s; launcherButton := launcherButton s; iframeContainer := iframeContainer s;
     posted := posted s; events := events s; fetches := fetches s; readers := readers s;
     timers := timers s;
     connected := connected s |}.

Definition set_isMinimized (x : bool) (s : State) : State :=
  {| config := config s; token := token s; loading := loading s; error := error s; isOpen :=
     isOpen s; isMinimized := x; iframe := iframe s; iframeReady := iframeReady s;
     pendingMessages := pendingMessages s; chatbotOrigin := chatbotOrigin s; chatPanel :=
     chatPanel s; launcherButton := launcherButton s; iframeContainer := iframeContainer s;
     posted := posted s; events := events s; fetches := fetches s; readers := readers s;
     timers := timers s;
     connected := connected s |}.

Definition set_iframe (x : option Iframe) (s : State) : State :=
  {| config := config s; token := token s; loading := loading s; error := error s; isOpen :=
     isOpen s; isMinimized := isMinimized s; iframe := x; iframeReady := iframeReady s;
     pendingMessages := pendingMessages s; chatbotOrigin := chatbotOrigin s; chatPanel :=
     chatPanel s; launcherButton := launcherButton s; iframeContainer := iframeContainer s;
     posted := posted s; events := events s; fetches := fetches s; readers := readers s;
     timers := timers s;
     connected := connected s |}.

Definition set_iframeReady (x : bool) (s : State) : State :=
  {| config := config s; token := token s; loading := loading s; error := error s; isOpen :=
     isOpen s; isMinimized := isMinimized s; iframe := iframe s; iframeReady := x;
     pendingMessages := pendingMessages s; chatbotOrigin := chatbotOrigin s; chatPanel :=
     chatPanel s; launcherButton := launcherButton s; iframeContainer := iframeContainer s;
     posted := posted s; events := events s; fetches := fetches s; readers := readers s;
     timers := timers s;
     connected := connected s |}.

Definition set_pendingMessages (x : list Message) (s : State) : State :=
  {| config := config s; token := token s; loading := loading s; error := error s; isOpen :=
     isOpen s; isMinimized := isMinimized s; iframe := iframe s; iframeReady := iframeReady
     s; pendingMessages := x; chatbotOrigin := chatbotOrigin s; chatPanel := chatPanel s;
     launcherButton := launcherButton s; iframeContainer := iframeContainer s; posted :=
     posted s; events := events s; fetches := fetches s; readers := readers s; timers := timers s;
     connected := connected s |}.

Definition set_chatbotOrigin (x : string) (s : State) : State :=
  {| config := config s; token := token s; loading := loading s; error := error s; isOpen :=
     isOpen s; isMinimized := isMinimized s; iframe := iframe s; iframeReady := iframeReady
     s; pendingMessages := pendingMessages s; chatbotOrigin := x; chatPanel := chatPanel s;
     launcherButton := launcherButton s; iframeContainer := iframeContainer s; posted :=
     posted s; events := events s; fetches := fetches s; readers := readers s; timers := timers s;
     connected := connected s |}.

Definition set_chatPanel (x : option Panel) (s : State) : State :=
  {| config := config s; token := token s; loading := loading s; error := error s; isOpen :=
     isOpen s; isMinimized := isMinimized s; iframe := iframe s; iframeReady := iframeReady
     s; pendingMessages := pendingMessages s; chatbotOrigin := chatbotOrigin s; chatPanel :=
     x; launcherButton := launcherButton s; iframeContainer := iframeContainer s; posted :=
     posted s; events := events s; fetches := fetches s; readers := readers s; timers := timers s;
     connected := connected s |}.

Definition set_launcherButton (x : option string) (s : State) : State :=
  {| config := config s; token := token s; loading := loading s; error := error s; isOpen :=
     isOpen s; isMinimized := isMinimized s; iframe := iframe s; iframeReady := iframeReady
     s; pendingMessages := pendingMessages s; chatbotOrigin := chatbotOrigin s; chatPanel :=
     chatPanel s; launcherButton := x; iframeContainer := iframeContainer s; posted :=
     posted s; events := events s; fetches := fetches s; readers := readers s; timers := timers s;
     connected := connected s |}.

Definition set_iframeContainer (x : option Content) (s : State) : State :=
  {| config := config s; token := token s; loading := loading s; error := error s; isOpen :=
     isOpen s; isMinimized := isMinimized s; iframe := iframe s; iframeReady := iframeReady
     s; pendingMessages := pendingMessages s; chatbotOrigin := chatbotOrigin s; chatPanel :=
     chatPanel s; launcherButton := launcherButton s; iframeContainer := x; posted := posted
     s; events := events s; fetches := fetches s; readers := readers s; timers := timers s;
     connected := connected s |}.

Definition set_posted (x : list (Js.value * string)) (s : State) : State :=
  {| config := config s; token := token s; loading := loading s; error := error s; isOpen :=
     isOpen s; isMinimized := isMinimized s; iframe := iframe s; iframeReady := iframeReady
     s; pendingMessages := pendingMessages s; chatbotOrigin := chatbotOrigin s; chatPanel :=
     chatPanel s; launcherButton := launcherButton s; iframeContainer := iframeContainer s;
     posted := x; events := events s; fetches := fetches s; readers := readers s; timers := timers s;
     connected := connected s |}.

Definition set_events (x : list (string * Detail)) (s : State) : State :=
  {| config := config s; token := token s; loading := loading s; error := error s; isOpen :=
     isOpen s; isMinimized := isMinimized s; iframe := iframe s; iframeReady := iframeReady
     s; pendingMessages := pendingMessages s; chatbotOrigin := chatbotOrigin s; chatPanel :=
     chatPanel s; launcherButton := launcherButton s; iframeContainer := iframeContainer s;
     posted := posted s; events := x; fetches := fetches s; readers := readers s; timers := timers s;
     connected := connected s |}.

Definition set_fetches (x : list string) (s : State) : State :=
  {| config := config s; token := token s; loading := loading s; error := error s; isOpen :=
     isOpen s; isMinimized := isMinimized s; iframe := iframe s; iframeReady := iframeReady
     s; pendingMessages := pendingMessages s; chatbotOrigin := chatbotOrigin s; chatPanel :=
     chatPanel s; launcherButton := launcherButton s; iframeContainer := iframeContainer s;
     posted := posted s; events := events s; fetches := x; readers := readers s; timers := timers s;
     connected := connected s |}.

Definition set_readers (x : list Message) (s : State) : State :=
  {| config := config s; token := token s; loading := loading s; error := error s; isOpen :=
     isOpen s; isMinimized := isMinimized s; iframe := iframe s; iframeReady := iframeReady
     s; pendingMessages := pendingMessages s; chatbotOrigin := chatbotOrigin s; chatPanel :=
     chatPanel s; launcherButton := launcherButton s; iframeContainer := iframeContainer s;
     posted := posted s; events := events s; fetches := fetches s; readers := x; timers := timers s;
     connected := connected s |}.

Definition set_timers (x : list (string * Options)) (s : State) : State :=
  {| config := config s; token := token s; loading := loading s; error := error s; isOpen :=
     isOpen s; isMinimized := isMinimized s; iframe := iframe s; iframeReady := iframeReady
     s; pendingMessages := pendingMessages s; chatbotOrigin := chatbotOrigin s; chatPanel :=
     chatPanel s; launcherButton := launcherButton s; iframeContainer := iframeContainer s;
     posted := posted s; events := events s; fetches := fetches s; readers := readers s;
     timers := x; connected := connected s |}.

Definition set_connected (x : bool) (s : State) : State :=
  {| config := config s; token := token s; loading := loading s; error := error s; isOpen :=
     isOpen s; isMinimized := isMinimized s; iframe := iframe s; iframeReady := iframeReady
     s; pendingMessages := pendingMessages s; chatbotOrigin := chatbotOrigin s; chatPanel :=
     chatPanel s; launcherButton := launcherButton s; iframeContainer := iframeContainer s;
     posted := posted s; events := events s; fetches := fetches s; readers := readers s;
     timers := timers s; connected := x |}.

Definition set_file (x : value) (m : Message) : Message :=
  {| text := text m; autoSend := autoSend m; file := x |}.

(** [window.dispatchEvent(new CustomEvent(name, { detail }))]. *)
Definition dispatch (name : string) (d : Detail) (s : State) : State :=
  set_events (events s ++ [(name, d)]) s.

(** [this.iframeContainer.innerHTML = html]: the old children, the iframe
    among them, leave the tree. *)
Definition detach (f : Iframe) : Iframe := {| src := src f; contentWindow := false |}.

Definition set_innerHTML (html : string) (s : State) : State :=
  set_iframeContainer (Some (Markup html)) (set_iframe (option_map detach (iframe s)) s).

(* ------------------------------------------------------------------ *)
(** *** Rendering *)

Definition loading_state_html : string :=
  "<div" ++ attr "class" "loading-state" ++ ">Loading chatbot...</div>".

Definition error_state_html (message : string) : string :=
  "<div" ++ attr "class" "error-state" ++ ">Error: " ++ Html.escapeHtml message ++ "</div>".

(** [this.error] as [escapeHtml] sees it: [textContent = null] leaves the
    element empty. *)
Definition error_text (e : option string) : string :=
  match e with Some m => m | None => "" end.

(** [this.error ? ... : ...]. *)
Definition error_truthy (e : option string) : bool :=
  match e with Some m => negb (m =? "") | None => false end.

(** The two interpolations of [getHTML] and the text around them inside
    [.iframe-container]. *)
Definition container_inner (s : State) : string :=
  line 14 (if loading s then loading_state_html else "") ++
  line 14 (if error_truthy (error s) then error_state_html (error_text (error s)) else "") ++
  line 12 "".

Definition getHTML (s : State) : string :=
  line 8 ("<div" ++ attr "class" "widget-container" ++ ">") ++
  line 10 ("<button" ++ attr "class" "launcher-button" ++ attr "aria-label" "Open chatbot"
           ++ attr "title" "Open chatbot" ++ ">") ++
  line 12 "💬" ++
  line 10 "</button>" ++
  line 10 ("<div" ++ attr "class" "chat-panel" ++ ">") ++
  line 12 ("<button" ++ attr "class" "minimize-button" ++ attr "aria-label" "Minimize chatbot"
           ++ attr "title" "Minimize" ++ ">−</button>") ++
  line 12 ("<div" ++ attr "class" "iframe-container" ++ ">") ++
  container_inner s ++
  "</div>" ++
  line 10 "</div>" ++
  line 8 "</div>" ++
  line 6 "".

Definition updateLoadingState (s : State) : State :=
  match iframeContainer s with
  | Some _ => set_innerHTML loading_state_html s
  | None => s
  end.

Definition updateErrorState (s : State) : State :=
  match iframeContainer s with
  | Some _ => set_innerHTML (error_state_html (error_text (error s))) s
  | None => s
  end.

(** The constructor followed by [init]: the fields, then [render], which
    finds the three elements of its own markup and hides the panel.  The
    browser has not called [connectedCallback] yet. *)
Definition construct (c : Config) : State :=
  let s0 :=
    {| config := c; token := VNull; loading := true; error := None;
       isOpen := false; isMinimized := true; iframe := None; iframeReady := false;
       pendingMessages := []; chatbotOrigin := "*";
       chatPanel := None; launcherButton := None; iframeContainer := None;
       posted := []; events := []; fetches := []; readers := []; timers := [];
       connected := false |} in
  set_chatPanel (Some {| display := "none"; open_class := false |})
    (set_launcherButton (Some "")
       (set_iframeContainer (Some (Markup (container_inner s0))) s0)).

(* ------------------------------------------------------------------ *)
(** *** The message bridge *)

Definition has_contentWindow (s : State) : bool :=
  match iframe s with
  | Some f => contentWindow f
  | None => false
  end.

(** The four message shapes [sendToIframe] builds for one message. *)
Definition message_shapes (m : Message) : list value :=
  [ VObj [("type", VStr "chatbot_message"); ("message", VStr (text m));
          ("autoSend", autoSend m); ("file", file m)];
    VObj [("type", VStr "send_message"); ("text", VStr (text m));
          ("autoSend", autoSend m); ("file", file m)];
    VObj [("type", VStr "set_question"); ("question", VStr (text m));
          ("autoSend", autoSend m); ("file", file m)];
    VObj [("type", VStr "openChatbot"); ("question", VStr (text m));
          ("autoSend", autoSend m); ("file", file m)] ].

Section WithPlatform.

Variable pf : Platform.

(** [messages.forEach(msg => contentWindow.postMessage(msg, origin))] inside
    the [try]: the first call that throws ends the loop.  The result is the
    log of delivered messages and whether the loop ran to its end. *)
Fixpoint post_each (origin : string) (shapes : list value) (log : list (value * string))
  : list (value * string) * bool :=
  match shapes with
  | [] => (log, true)
  | sh :: rest =>
      if postMessage_accepts pf sh origin
      then post_each origin rest (log ++ [(sh, origin)])
      else (log, false)
  end.

Definition sendToIframe (s : State) (message : Message) : State * bool :=
  if negb (has_contentWindow s) then
    (set_pendingMessages (pendingMessages s ++ [message]) s, false)
  else
    let '(log, ok) := post_each (chatbotOrigin s) (message_shapes message) (posted s) in
    (set_posted log s, ok).

(** [forEach] visits the elements the array had when the loop began; what
    [sendToIframe] pushes meanwhile lands behind them on the same array and
    is discarded with it by the assignment that follows the loop. *)
Definition processPendingMessages (s : State) : State :=
  if (0 <? length (pendingMessages s))%nat && iframeReady s then
    set_pendingMessages []
      (fold_left (fun st msg => fst (sendToIframe st msg)) (pendingMessages s) s)
  else s.

(** [this.iframe.onload]. *)
Definition iframe_onload (s : State) : State :=
  dispatch "aventora:iframe-ready" DInstance
    (processPendingMessages (set_iframeReady true s)).

(** [this.iframe.onerror]. *)
Definition iframe_onerror (s : State) : State :=
  updateErrorState (set_error (Some "Failed to load chatbot") s).

(** [data] is a truthy object here, so reading [data.type] cannot throw. *)
Definition is_ready_message (data : value) : bool :=
  match get data "type" with
  | Some t => is_str "chatbot_ready" t || is_str "flutter_ready" t
  | None => false
  end.

Definition handleIframeMessage (s : State) (data : value) : State :=
  let s1 :=
    if is_ready_message data then
      dispatch "aventora:ready" DInstance
        (processPendingMessages (set_iframeReady true s))
    else s in
  dispatch "aventora:message" (DData data) s1.

(** A [message] event on [window]. *)
Record MessageEvent : Type := { origin : string; data : value }.

(** [this.messageHandler]. *)
Definition messageHandler (s : State) (event : MessageEvent) : State :=
  if negb (chatbotOrigin s =? "*") && negb (origin event =? chatbotOrigin s) then s
  else if truthy (data event) && typeof_object (data event)
       then handleIframeMessage s (data event)
       else s.

(* ------------------------------------------------------------------ *)
(** *** The public commands *)

Definition make_message (txt : string) (options : Options) : Message :=
  {| text := txt;
     autoSend := or_else (opt_autoSend options) (VBool false);
     file := or_else (opt_file options) VNull |}.

(** With a [File] the call starts the read and returns; the read's [onload]
    is [reader_onload]. *)
Definition sendMessage (s : State) (txt : string) (options : Options) : State :=
  let message := make_message txt options in
  if instanceof_File (file message) then
    set_readers (readers s ++ [message]) s
  else
    dispatch "aventora:message-sent" (DSent txt options) (fst (sendToIframe s message)).

Fixpoint remove_nth {A : Type} (i : nat) (l : list A) : list A :=
  match i, l with
  | _, [] => []
  | O, _ :: rest => rest
  | S k, x :: rest => x :: remove_nth k rest
  end.

(** [reader.onload] of the [i]-th read in flight, [result] being
    [e.target.result], the data URL. *)
Definition reader_onload (s : State) (i : nat) (result : string) : State :=
  match nth_error (readers s) i with
  | Some message =>
      fst (sendToIframe (set_readers (remove_nth i (readers s)) s)
                        (set_file (VStr result) message))
  | None => s
  end.

Definition open (s : State) : State :=
  match chatPanel s with
  | Some _ =>
      let s1 := set_chatPanel (Some {| display := "block"; open_class := true |}) s in
      let s2 := set_isMinimized false (set_isOpen true s1) in
      let s3 := match launcherButton s2 with
                | Some _ => set_launcherButton (Some "none") s2
                | None => s2
                end in
      dispatch "aventora:opened" DInstance s3
  | None => s
  end.

Definition close (s : State) : State :=
  match chatPanel s with
  | Some _ =>
      let s1 := set_chatPanel (Some {| display := "none"; open_class := false |}) s in
      let s2 := set_isMinimized true (set_isOpen false s1) in
      let s3 := match launcherButton s2 with
                | Some _ => set_launcherButton (Some "flex") s2
                | None => s2
                end in
      dispatch "aventora:closed" DInstance s3
  | None => s
  end.

(** [{ ...options, autoSend: options.autoSend || false }]. *)
Definition with_autoSend_default (options : Options) : Options :=
  {| opt_autoSend := or_else (opt_autoSend options) (VBool false);
     opt_file := opt_file options |}.

(** [setQuestion] opens the panel and arms the 500 ms timer. *)
Definition setQuestion (s : State) (txt : string) (options : Options) : State :=
  let s1 := open s in
  set_timers (timers s1 ++ [(txt, with_autoSend_default options)]) s1.

(** The callback of the [i]-th armed timer. *)
Definition timer_fire (s : State) (i : nat) : State :=
  match nth_error (timers s) i with
  | Some (txt, options) => sendMessage (set_timers (remove_nth i (timers s)) s) txt options
  | None => s
  end.

(* ------------------------------------------------------------------ *)
(** *** Resolving the chatbot URL *)

(** The derivation [getChatbotUrl] falls back to. *)
Definition fallbackUrl (loc : Location) (tenant_id : string) : string :=
  let host := hostname loc in
  if includes "localhost" host || includes "127.0.0.1" host then
    let p := if port loc =? "" then "3000" else port loc in
    if (host =? "localhost") || (host =? "127.0.0.1")
    then "http://localhost:" ++ p
    else "http://" ++ tenant_id ++ ".localhost:" ++ p
  else
    let parts := split_dot host in
    if (2 <=? length parts)%nat
    then "https://" ++ tenant_id ++ "." ++ join_dot (slice_last2 parts)
    else "https://" ++ tenant_id ++ ".aventora.app".

(** What the [try] block of [getChatbotUrl] returns, if it returns. *)
Definition config_answer (cfg : FetchOutcome) : option value :=
  match cfg with
  | NetworkError _ => None
  | Response false _ => None
  | Response true (BadJson _) => None
  | Response true (Json d) =>
      match get d "chatbotBaseUrl" with
      | Some u => if truthy u then Some u else None
      | None => None
      end
  end.

(** [cfg] is the answer the config endpoint gives if it is asked. *)
Definition getChatbotUrl (s : State) (cfg : FetchOutcome) (loc : Location) : State * value :=
  if negb (chatbotUrl (config s) =? "") then (s, VStr (chatbotUrl (config s)))
  else
    let s1 := set_fetches (fetches s ++ ["/api/config"]) s in
    match config_answer cfg with
    | Some u => (s1, u)
    | None => (s1, VStr (fallbackUrl loc (tenant (config s))))
    end.

(* ------------------------------------------------------------------ *)
(** *** Fetching the token and creating the iframe *)

Definition iframe_src (base : value) (tok : value) (lang : string) : string :=
  toString base ++ "/autoconnect?token=" ++ encodeURIComponent pf (toString tok)
  ++ "&lang=" ++ encodeURIComponent pf lang.

(** [createIframe] after [await this.getChatbotUrl()].  [appendChild] puts
    the iframe into the shadow tree; it gets a content window there only
    if the host element stands in the document at that moment. *)
Definition createIframe_resume (s : State) (cfg : FetchOutcome) (loc : Location) : State :=
  let '(s1, base) := getChatbotUrl s cfg loc in
  let s2 := set_chatbotOrigin
              (match url_origin pf (toString base) with
               | Some o => o
               | None => "*"
               end) s1 in
  let f := {| src := iframe_src base (token s2) (language (config s2));
              contentWindow := false |} in
  let s3 := set_iframe (Some f) s2 in
  match iframeContainer s3 with
  | Some _ =>
      set_iframeContainer (Some IframeChild)
        (set_iframe (Some {| src := src f; contentWindow := connected s3 |})
           (set_innerHTML "" s3))
  | None => s3
  end.

Definition createIframe (s : State) (cfg : FetchOutcome) (loc : Location) : State :=
  if negb (truthy (token s)) then s else createIframe_resume s cfg loc.

(** [fetchToken] up to [await fetch(...)]. *)
Definition fetchToken_begin (s : State) : State :=
  let s1 := updateLoadingState (set_error None (set_loading true s)) in
  set_fetches (fetches s1 ++ [tokenApiUrl (config s1)]) s1.

(** [connectedCallback], which the browser calls when the element has
    been put into a document: [fetchToken] runs up to its first [await]
    and [setupMessageListener] registers the handler.  An iframe left from
    an earlier stay is thrown out of the panel by [updateLoadingState]. *)
Definition connectedCallback (s : State) : State :=
  fetchToken_begin (set_connected true s).

(** [disconnectedCallback], which the browser calls when the element has
    been taken out of its document: [removeMessageListener] runs, and an
    iframe in the panel loses its content window with the document. *)
Definition disconnectedCallback (s : State) : State :=
  set_iframe (option_map detach (iframe s)) (set_connected false s).

(** The [catch] block. *)
Definition fetchToken_catch (message : string) (s : State) : State :=
  updateErrorState (set_loading false (set_error (Some message) s)).

(** The message of the error thrown for a response that is not ok. *)
Definition error_response_message (body : JsonBody) : string :=
  let errorData :=
    match body with
    | BadJson _ => VObj [("error", VStr "Failed to generate token")]
    | Json d => d
    end in
  match get errorData "error", get errorData "details" with
  | Some e, Some d =>
      toString (or_else (or_else e d) (VStr "Failed to generate chatbot token"))
  | _, _ => typeError_message errorData "error"
  end.

(** [fetchToken] from the answer of the token endpoint up to the call of
    [createIframe]; the flag tells whether that call was reached. *)
Definition fetchToken_settle (s : State) (tok : FetchOutcome) : State * bool :=
  match tok with
  | NetworkError m => (fetchToken_catch m s, false)
  | Response false body => (fetchToken_catch (error_response_message body) s, false)
  | Response true (BadJson m) => (fetchToken_catch m s, false)
  | Response true (Json d) =>
      match get d "token" with
      | Some t => (set_loading false (set_token t s), true)
      | None => (fetchToken_catch (typeError_message d "token") s, false)
      end
  end.

(** One run of [fetchToken] with nothing else happening meanwhile. *)
Definition fetchToken (s : State) (tok cfg : FetchOutcome) (loc : Location) : State :=
  let '(s1, reached) := fetchToken_settle (fetchToken_begin s) tok in
  if reached then createIframe s1 cfg loc else s1.

End WithPlatform.

End AventoraChat.

(* ================================================================== *)
(** ** widget/widget-ui.js: the commands of [AventoraWidgetUIInstance] *)

Module WidgetUI.

Import Js.

(** The [setTimeout] callbacks the commands arm. *)
Inductive Timer : Type :=
| TFocusTest                                        (* setupIframeCommunication, 1000 ms *)
| TRetrySendMessage (text : string) (options : AventoraChat.Options)
| TRetrySetQuestion (text : string) (options : AventoraChat.Options).

(** The fields the commands read and write.  [sendToFlutter] is absent
    until [setupIframeCommunication] has run; once defined it keeps the
    origin that call computed. *)
Record State : Type := {
  iframe : option AventoraChat.Iframe;
  chatbotBaseUrl : option string;
  sendToFlutter : option string;
  listeners : nat;                       (* message listeners added to window *)
  posted : list (value * string);
  timers : list Timer
}.

Definition set_posted (x : list (value * string)) (s : State) : State :=
  {| iframe := iframe s; chatbotBaseUrl := chatbotBaseUrl s; sendToFlutter := sendToFlutter s;
     listeners := listeners s; posted := x; timers := timers s |}.

Definition set_timers (x : list Timer) (s : State) : State :=
  {| iframe := iframe s; chatbotBaseUrl := chatbotBaseUrl s; sendToFlutter := sendToFlutter s;
     listeners := listeners s; posted := posted s; timers := x |}.

Section WithPlatform.

Variable pf : Platform.

Definition setupIframeCommunication (s : State) (base : string) : State :=
  let chatbotOrigin := match url_origin pf base with Some o => o | None => "*" end in
  {| iframe := iframe s; chatbotBaseUrl := chatbotBaseUrl s;
     sendToFlutter := Some chatbotOrigin;
     listeners := S (listeners s); posted := posted s;
     timers := timers s ++ [TFocusTest] |}.

(** [this.sendToFlutter(message)], [targetOrigin] being the origin the
    closure keeps. *)
Definition call_sendToFlutter (targetOrigin : string) (s : State) (message : value)
  : State * bool :=
  match iframe s with
  | Some f =>
      if AventoraChat.contentWindow f then
        if postMessage_accepts pf message targetOrigin
        then (set_posted (posted s ++ [(message, targetOrigin)]) s, true)
        else (s, false)
      else (s, false)
  | None => (s, false)
  end.

(** The messages [sendMessage] hands to [sendToFlutter] once it is defined. *)
Definition sendMessage_shapes (text : string) (options : AventoraChat.Options) : list value :=
  if is_true (AventoraChat.opt_autoSend options) then
    [ VObj [("type", VStr "send_message"); ("text", VStr text); ("autoSend", VBool true)];
      VObj [("type", VStr "chatbot_message"); ("message", VStr text); ("autoSend", VBool true)] ]
  else
    [ VObj [("type", VStr "set_question"); ("question", VStr text); ("autoSend", VBool false)] ].

Definition setQuestion_shapes (text : string) (options : AventoraChat.Options) : list value :=
  [ VObj [("type", VStr "set_question"); ("question", VStr text);
          ("autoSend", VBool (is_true (AventoraChat.opt_autoSend options)))] ].

(** The branch both commands share while [sendToFlutter] is absent. *)
Definition not_ready (s : State) (retry : Timer) : State * bool :=
  match iframe s, chatbotBaseUrl s with
  | Some _, Some base =>
      if negb (base =? "") then
        let s1 := setupIframeCommunication s base in
        (set_timers (timers s1 ++ [retry]) s1, false)
      else (s, false)
  | _, _ => (s, false)
  end.

Definition send_all (targetOrigin : string) (s : State) (shapes : list value) : State :=
  fold_left (fun st msg => fst (call_sendToFlutter targetOrigin st msg)) shapes s.

Definition sendMessage (s : State) (text : string) (options : AventoraChat.Options)
  : State * bool :=
  match sendToFlutter s with
  | None => not_ready s (TRetrySendMessage text options)
  | Some targetOrigin => (send_all targetOrigin s (sendMessage_shapes text options), true)
  end.

Definition setQuestion (s : State) (text : string) (options : AventoraChat.Options)
  : State * bool :=
  match sendToFlutter s with
  | None => not_ready s (TRetrySetQuestion text options)
  | Some targetOrigin => (send_all targetOrigin s (setQuestion_shapes text options), true)
  end.

(** The callback of the [i]-th armed timer: the communication test sends
    [focus_input]; a retry calls its command again if [sendToFlutter] is
    defined by then. *)
Definition timer_fire (s : State) (i : nat) : State :=
  match nth_error (timers s) i with
  | None => s
  | Some t =>
      let s0 := set_timers (AventoraChat.remove_nth i (timers s)) s in
      match t, sendToFlutter s0 with
      | TFocusTest, Some o =>
          fst (call_sendToFlutter o s0 (VObj [("type", VStr "focus_input")]))
      | TRetrySendMessage text options, Some _ => fst (sendMessage s0 text options)
      | TRetrySetQuestion text options, Some _ => fst (setQuestion s0 text options)
      | _, None => s0
      end
  end.

End WithPlatform.

End WidgetUI.

(* ================================================================== *)
(** ** public/widget.js: the loader of the web component *)

Module Loader.

Import Js Text.

(** [a || b] on two results of [getAttribute], each [null] or a string. *)
Definition or_attr (a b : option string) : option string :=
  match a with
  | None | Some EmptyString => b
  | Some _ => a
  end.

(** [getAttribute(name) || 'fallback']. *)
Definition attr_or (a : option string) (fallback : string) : string :=
  match a with
  | None | Some EmptyString => fallback
  | Some x => x
  end.

(** ToBoolean of [null] or a string. *)
Definition truthy_attr (a : option string) : bool :=
  match a with
  | None | Some EmptyString => false
  | Some _ => true
  end.

(** ToString of [null] or a string, as [setAttribute] applies it. *)
Definition attr_string (a : option string) : string :=
  match a with
  | None => "null"
  | Some x => x
  end.

(** [s.replace(pat, rep)] for a string pattern and a replacement without
    [$]: the first occurrence is replaced. *)
Fixpoint replace_first (pat rep s : string) : string :=
  if starts_with pat s then rep ++ Html.drop (String.length pat) s
  else match s with
       | EmptyString => EmptyString
       | String c rest => String c (replace_first pat rep rest)
       end.

(** The loader's [config] object. *)
Record Config : Type := {
  tenant : option string;
  bot : option string;
  theme : string;
  position : string;
  language : string;
  tokenApiUrl : string;
  chatbotUrl : option string;
  widgetUrl : string
}.

(** The [config] read from the script element: [data] is its
    [getAttribute] and [src] its [src] property. *)
Definition read_config (data : string -> option string) (src : string) : Config :=
  {| tenant := or_attr (data "data-tenant") (data "data-domain");
     bot := data "data-bot";
     theme := attr_or (data "data-theme") "auto";
     position := attr_or (data "data-position") "bottom-right";
     language := attr_or (data "data-language") "en";
     tokenApiUrl := attr_or (data "data-token-api-url") "/api/chatbot-token";
     chatbotUrl := data "data-chatbot-url";
     widgetUrl :=
       attr_or (data "data-widget-url")
         (if src =? "" then "https://cdn.aventora.ai/aventora-chat.js"
          else replace_first "widget.js" "aventora-chat.js" src) |}.

(* ------------------------------------------------------------------ *)
(** *** The [aventora-chat] element as the loader meets it *)

(** An [aventora-chat] element: its content attributes and the component
    the constructor built. *)
Record Element : Type := {
  attributes : list (string * string);
  component : AventoraChat.State
}.

Fixpoint getAttribute (attrs : list (string * string)) (name : string) : option string :=
  match attrs with
  | [] => None
  | (k, v) :: rest => if k =? name then Some v else getAttribute rest name
  end.

Fixpoint set_attribute (name v : string) (attrs : list (string * string))
  : list (string * string) :=
  match attrs with
  | [] => [(name, v)]
  | (k, x) :: rest =>
      if k =? name then (k, v) :: rest else (k, x) :: set_attribute name v rest
  end.

(** The [config] the constructor of [AventoraChat] reads from the
    attributes the element has at that moment. *)
Definition constructor_config (attrs : list (string * string)) : AventoraChat.Config :=
  {| AventoraChat.tenant := attr_or (getAttribute attrs "tenant") "";
     AventoraChat.language := attr_or (getAttribute attrs "language") "en";
     AventoraChat.tokenApiUrl :=
       attr_or (getAttribute attrs "token-api-url") "/api/chatbot-token";
     AventoraChat.chatbotUrl := attr_or (getAttribute attrs "chatbot-url") "" |}.

(** [document.createElement('aventora-chat')] once the element is defined:
    the constructor runs on an element that has no attribute yet. *)
Definition createElement : Element :=
  {| attributes := []; component := AventoraChat.construct (constructor_config []) |}.

Definition set_config (c : AventoraChat.Config) (s : AventoraChat.State) : AventoraChat.State :=
  {| AventoraChat.config := c;
     AventoraChat.token := AventoraChat.token s;
     AventoraChat.loading := AventoraChat.loading s;
     AventoraChat.error := AventoraChat.error s;
     AventoraChat.isOpen := AventoraChat.isOpen s;
     AventoraChat.isMinimized := AventoraChat.isMinimized s;
     AventoraChat.iframe := AventoraChat.iframe s;
     AventoraChat.iframeReady := AventoraChat.iframeReady s;
     AventoraChat.pendingMessages := AventoraChat.pendingMessages s;
     AventoraChat.chatbotOrigin := AventoraChat.chatbotOrigin s;
     AventoraChat.chatPanel := AventoraChat.chatPanel s;
     AventoraChat.launcherButton := AventoraChat.launcherButton s;
     AventoraChat.iframeContainer := AventoraChat.iframeContainer s;
     AventoraChat.posted := AventoraChat.posted s;
     AventoraChat.events := AventoraChat.events s;
     AventoraChat.fetches := AventoraChat.fetches s;
     AventoraChat.readers := AventoraChat.readers s;
     AventoraChat.timers := AventoraChat.timers s;
     AventoraChat.connected := AventoraChat.connected s |}.

(** [observedAttributes]. *)
Definition observedAttributes : list string := ["tenant"; "theme"; "position"; "language"].

Definition observed (name : string) : bool :=
  existsb (fun a => a =? name) observedAttributes.

(** [attributeChangedCallback] for a new value that is a string.  Of the
    keys it can write, [tenant] and [language] are fields of the component's
    [config] as kept here; [theme] and [position] only restyle. *)
Definition attributeChangedCallback (name : string) (oldValue : option string)
    (newValue : string) (s : AventoraChat.State) : AventoraChat.State :=
  let same := match oldValue with
              | Some o => o =? newValue
              | None => false
              end in
  if same then s
  else
    let c := AventoraChat.config s in
    if name =? "tenant" then
      set_config {| AventoraChat.tenant := newValue;
                    AventoraChat.language := AventoraChat.language c;
                    AventoraChat.tokenApiUrl := AventoraChat.tokenApiUrl c;
                    AventoraChat.chatbotUrl := AventoraChat.chatbotUrl c |} s
    else if name =? "language" then
      set_config {| AventoraChat.tenant := AventoraChat.tenant c;
                    AventoraChat.language := newValue;
                    AventoraChat.tokenApiUrl := AventoraChat.tokenApiUrl c;
                    AventoraChat.chatbotUrl := AventoraChat.chatbotUrl c |} s
    else s.

(** [element.setAttribute(name, v)]: the browser calls
    [attributeChangedCallback] for an observed attribute only. *)
Definition setAttribute (name v : string) (e : Element) : Element :=
  {| attributes := set_attribute name v (attributes e);
     component :=
       if observed name
       then attributeChangedCallback name (getAttribute (attributes e) name) v (component e)
       else component e |}.

(** [document.body.appendChild(widget)]: the browser calls
    [connectedCallback]. *)
Definition connectedCallback (e : Element) : Element :=
  {| attributes := attributes e;
     component := AventoraChat.connectedCallback (component e) |}.

(* ------------------------------------------------------------------ *)
(** *** [window.AventoraChatbot] and [createWidget] *)

(** An entry of [_queue]: the method and its arguments. *)
Inductive Call : Type :=
| SendMessage (text : string) (options : AventoraChat.Options)
| SetQuestion (text : string) (options : AventoraChat.Options)
| Open
| Close.

(** The page: the three fields of [window.AventoraChatbot], the [src] of
    the document's script elements, and the first [aventora-chat] element
    of the document.  [_instance], once set, is that element. *)
Record Page : Type := {
  _ready : bool;
  _instance : bool;
  _queue : list Call;
  scripts : list string;
  widget : option Element
}.

Definition set_widget (w : Element) (p : Page) : Page :=
  {| _ready := _ready p; _instance := _instance p; _queue := _queue p;
     scripts := scripts p; widget := Some w |}.

Definition set_component (s : AventoraChat.State) (e : Element) : Element :=
  {| attributes := attributes e; component := s |}.

(** [loadComponent]. *)
Definition loadComponent (config : Config) (p : Page) : Page :=
  if existsb (includes "aventora-chat.js") (scripts p) then p
  else {| _ready := _ready p; _instance := _instance p; _queue := _queue p;
          scripts := scripts p ++ [widgetUrl config]; widget := widget p |}.

Section WithPlatform.

Variable pf : Platform.

(** [instance[item.method].apply(instance, item.args)]. *)
Definition invoke (s : AventoraChat.State) (c : Call) : AventoraChat.State :=
  match c with
  | SendMessage text options => AventoraChat.sendMessage pf s text options
  | SetQuestion text options => AventoraChat.setQuestion s text options
  | Open => AventoraChat.open s
  | Close => AventoraChat.close s
  end.

(** A method of [window.AventoraChatbot]. *)
Definition api (p : Page) (c : Call) : Page :=
  if _ready p && _instance p then
    match widget p with
    | Some w => set_widget (set_component (invoke (component w) c) w) p
    | None => p
    end
  else
    {| _ready := _ready p; _instance := _instance p; _queue := _queue p ++ [c];
       scripts := scripts p; widget := widget p |}.

(** The element [createWidget] creates when the document has none. *)
Definition new_widget (config : Config) : Element :=
  let w1 := setAttribute "tenant" (attr_string (tenant config)) createElement in
  let w2 := if truthy_attr (bot config)
            then setAttribute "bot" (attr_string (bot config)) w1 else w1 in
  let w3 := setAttribute "theme" (theme config) w2 in
  let w4 := setAttribute "position" (position config) w3 in
  let w5 := setAttribute "language" (language config) w4 in
  let w6 := setAttribute "token-api-url" (tokenApiUrl config) w5 in
  let w7 := if truthy_attr (chatbotUrl config)
            then setAttribute "chatbot-url" (attr_string (chatbotUrl config)) w6 else w6 in
  connectedCallback w7.

(** [createWidget]: the element is found or created, the queued calls are
    replayed on it and [aventora:ready] is dispatched on [window]. *)
Definition createWidget (config : Config) (p : Page) : Page :=
  let w := match widget p with
           | Some w => w
           | None => new_widget config
           end in
  let replayed := fold_left invoke (_queue p) (component w) in
  {| _ready := true; _instance := true; _queue := [];
     scripts := scripts p;
     widget := Some (set_component
                       (AventoraChat.dispatch "aventora:ready" AventoraChat.DInstance replayed)
                       w) |}.

End WithPlatform.

End Loader.

(* ================================================================== *)
(** ** widget/widget-ui.js: opening the panel and loading the chatbot *)

Module WidgetInstance.

Import Js.

(** The children of [#flutter-container]: the loading markup [render]
    writes, the error text [showError] writes, or the iframe. *)
Inductive Container : Type :=
| LoadingState
| ErrorState (message : string)
| FrameChild.

(** The instance: the command part [WidgetUI.State], the fields the
    constructor sets, the panel and the launcher, and what is in flight:
    the requests sent, whether the promise of [loadFlutterApp] is pending,
    the [setTimeout(focusInput)] callbacks still armed, and the retries
    [setFile] has armed. *)
Record Instance : Type := {
  ui : WidgetUI.State;
  language : value;                 (* this.config.language *)
  token : value;
  isOpen : bool;
  isLoading : bool;
  flutterAppLoaded : bool;
  panel_open : bool;                (* chatPanel carries class [open] *)
  launcher_display : string;
  flutterContainer : Container;
  fetches : list string;
  events : list string;             (* window.dispatchEvent *)
  load_pending : bool;
  focus_timers : nat;
  file_retries : list (value * AventoraChat.Options)   (* setFile's retry timers *)
}.

Definition set_ui (x : WidgetUI.State) (s : Instance) : Instance :=
  {| ui := x; language := language s; token := token s; isOpen := isOpen s;
     isLoading := isLoading s; flutterAppLoaded := flutterAppLoaded s;
     panel_open := panel_open s; launcher_display := launcher_display s;
     flutterContainer := flutterContainer s; fetches := fetches s; events := events s;
     load_pending := load_pending s; focus_timers := focus_timers s;
     file_retries := file_retries s |}.

Definition set_token (x : value) (s : Instance) : Instance :=
  {| ui := ui s; language := language s; token := x; isOpen := isOpen s;
     isLoading := isLoading s; flutterAppLoaded := flutterAppLoaded s;
     panel_open := panel_open s; launcher_display := launcher_display s;
     flutterContainer := flutterContainer s; fetches := fetches s; events := events s;
     load_pending := load_pending s; focus_timers := focus_timers s;
     file_retries := file_retries s |}.

Definition set_isLoading (x : bool) (s : Instance) : Instance :=
  {| ui := ui s; language := language s; token := token s; isOpen := isOpen s;
     isLoading := x; flutterAppLoaded := flutterAppLoaded s;
     panel_open := panel_open s; launcher_display := launcher_display s;
     flutterContainer := flutterContainer s; fetches := fetches s; events := events s;
     load_pending := load_pending s; focus_timers := focus_timers s;
     file_retries := file_retries s |}.

Definition set_flutterAppLoaded (x : bool) (s : Instance) : Instance :=
  {| ui := ui s; language := language s; token := token s; isOpen := isOpen s;
     isLoading := isLoading s; flutterAppLoaded := x;
     panel_open := panel_open s; launcher_display := launcher_display s;
     flutterContainer := flutterContainer s; fetches := fetches s; events := events s;
     load_pending := load_pending s; focus_timers := focus_timers s;
     file_retries := file_retries s |}.

Definition set_flutterContainer (x : Container) (s : Instance) : Instance :=
  {| ui := ui s; language := language s; token := token s; isOpen := isOpen s;
     isLoading := isLoading s; flutterAppLoaded := flutterAppLoaded s;
     panel_open := panel_open s; launcher_display := launcher_display s;
     flutterContainer := x; fetches := fetches s; events := events s;
     load_pending := load_pending s; focus_timers := focus_timers s;
     file_retries := file_retries s |}.

Definition set_load_pending (x : bool) (s : Instance) : Instance :=
  {| ui := ui s; language := language s; token := token s; isOpen := isOpen s;
     isLoading := isLoading s; flutterAppLoaded := flutterAppLoaded s;
     panel_open := panel_open s; launcher_display := launcher_display s;
     flutterContainer := flutterContainer s; fetches := fetches s; events := events s;
     load_pending := x; focus_timers := focus_timers s;
     file_retries := file_retries s |}.

Definition set_focus_timers (x : nat) (s : Instance) : Instance :=
  {| ui := ui s; language := language s; token := token s; isOpen := isOpen s;
     isLoading := isLoading s; flutterAppLoaded := flutterAppLoaded s;
     panel_open := panel_open s; launcher_display := launcher_display s;
     flutterContainer := flutterContainer s; fetches := fetches s; events := events s;
     load_pending := load_pending s; focus_timers := x; file_retries := file_retries s |}.

Definition set_file_retries (x : list (value * AventoraChat.Options)) (s : Instance)
  : Instance :=
  {| ui := ui s; language := language s; token := token s; isOpen := isOpen s;
     isLoading := isLoading s; flutterAppLoaded := flutterAppLoaded s;
     panel_open := panel_open s; launcher_display := launcher_display s;
     flutterContainer := flutterContainer s; fetches := fetches s; events := events s;
     load_pending := load_pending s; focus_timers := focus_timers s;
     file_retries := x |}.

(** The panel, the launcher and [isOpen], which [open] and [close] write
    together. *)
Definition show (opened : bool) (display : string) (s : Instance) : Instance :=
  {| ui := ui s; language := language s; token := token s; isOpen := opened;
     isLoading := isLoading s; flutterAppLoaded := flutterAppLoaded s;
     panel_open := opened; launcher_display := display;
     flutterContainer := flutterContainer s; fetches := fetches s; events := events s;
     load_pending := load_pending s; focus_timers := focus_timers s;
     file_retries := file_retries s |}.

Definition dispatch (event : string) (s : Instance) : Instance :=
  {| ui := ui s; language := language s; token := token s; isOpen := isOpen s;
     isLoading := isLoading s; flutterAppLoaded := flutterAppLoaded s;
     panel_open := panel_open s; launcher_display := launcher_display s;
     flutterContainer := flutterContainer s; fetches := fetches s;
     events := events s ++ [event];
     load_pending := load_pending s; focus_timers := focus_timers s;
     file_retries := file_retries s |}.

(** [this.iframe] and [this.chatbotBaseUrl], which live in the command
    part. *)
Definition set_iframe (f : option AventoraChat.Iframe) (base : option string)
    (u : WidgetUI.State) : WidgetUI.State :=
  {| WidgetUI.iframe := f; WidgetUI.chatbotBaseUrl := base;
     WidgetUI.sendToFlutter := WidgetUI.sendToFlutter u;
     WidgetUI.listeners := WidgetUI.listeners u;
     WidgetUI.posted := WidgetUI.posted u; WidgetUI.timers := WidgetUI.timers u |}.

(** The instance after the constructor and [initialize]. *)
Definition new_instance (lang : value) : Instance :=
  {| ui := {| WidgetUI.iframe := None; WidgetUI.chatbotBaseUrl := None;
              WidgetUI.sendToFlutter := None; WidgetUI.listeners := 0;
              WidgetUI.posted := []; WidgetUI.timers := [] |};
     language := lang; token := VNull; isOpen := false; isLoading := false;
     flutterAppLoaded := false; panel_open := false; launcher_display := "";
     flutterContainer := LoadingState; fetches := []; events := [];
     load_pending := false; focus_timers := 0; file_retries := [] |}.

(** [showError]: the container is emptied, which takes an iframe that
    stood in it out of the document, and the message becomes the text of a
    new [div]. *)
Definition showError (message : string) (s : Instance) : Instance :=
  set_flutterContainer (ErrorState message)
    (set_ui (set_iframe (option_map AventoraChat.detach (WidgetUI.iframe (ui s)))
                        (WidgetUI.chatbotBaseUrl (ui s)) (ui s)) s).

(** What the promise of [getChatbotBaseUrl] resolves to; [None] when it
    rejects.  The status of the response is not looked at. *)
Definition getChatbotBaseUrl (cfg : FetchOutcome) : option value :=
  match cfg with
  | NetworkError _ => None
  | Response _ (BadJson _) => None
  | Response _ (Json d) =>
      match get d "chatbotBaseUrl" with
      | Some u => if truthy u then Some u else None
      | None => None
      end
  end.

(** What the promise of [getToken] resolves to; [None] when it rejects. *)
Definition getToken (tok : FetchOutcome) : option value :=
  match tok with
  | NetworkError _ => None
  | Response false _ => None
  | Response true (BadJson _) => None
  | Response true (Json d) => get d "token"
  end.

(** [loadFlutterApp] up to [Promise.all]: both requests are sent. *)
Definition loadFlutterApp (s : Instance) : Instance :=
  if isLoading s then s
  else
    {| ui := ui s; language := language s; token := token s; isOpen := isOpen s;
       isLoading := true; flutterAppLoaded := flutterAppLoaded s;
       panel_open := panel_open s; launcher_display := launcher_display s;
       flutterContainer := flutterContainer s;
       fetches := fetches s ++ ["/api/config"; "/api/chatbot-token"];
       events := events s;
       load_pending := true; focus_timers := focus_timers s;
     file_retries := file_retries s |}.

Definition open (s : Instance) : Instance :=
  let s1 := show true "none" s in
  dispatch "aventora:widget:opened"
    (if negb (flutterAppLoaded s1) then loadFlutterApp s1
     else set_focus_timers (S (focus_timers s1)) s1).

Definition close (s : Instance) : Instance :=
  dispatch "aventora:widget:closed" (show false "flex" s).

(** The [keydown] listener of [attachEventListeners], for the Escape key. *)
Definition escapeHandler (s : Instance) : Instance :=
  if isOpen s then close s else s.

Section WithPlatform.

Variable pf : Platform.

(** [loadFlutterAppViaIframe].  The base URL and the token enter the
    template literal and [encodeURIComponent] through ToString; every later
    use of [this.chatbotBaseUrl] is a truth test or a ToString, so the field
    keeps the string.  The iframe has a content window once it stands in
    the container: the panel belongs to the root element, which the loader
    appended to [document.body] and which this code never removes. *)
Definition loadFlutterAppViaIframe (s : Instance) (chatbotBaseUrl tok : value)
    (lang : string) : Instance :=
  let f := {| AventoraChat.src :=
                toString chatbotBaseUrl ++ "/autoconnect?token="
                ++ encodeURIComponent pf (toString tok)
                ++ "&lang=" ++ encodeURIComponent pf lang;
              AventoraChat.contentWindow := true |} in
  set_flutterContainer FrameChild
    (set_ui (set_iframe (Some f) (Some (toString chatbotBaseUrl)) (ui s)) s).

(** The two callbacks of the promise of [loadFlutterApp], [cfg] and [tok]
    being the answers to the two requests. *)
Definition loadFlutterApp_settle (s : Instance) (cfg tok : FetchOutcome) : Instance :=
  if negb (load_pending s) then s
  else
    let s0 := set_load_pending false s in
    match getChatbotBaseUrl cfg, getToken tok with
    | Some chatbotBaseUrl, Some t =>
        let s1 := set_token t
                    (set_ui (set_iframe (WidgetUI.iframe (ui s0))
                                        (Some (toString chatbotBaseUrl)) (ui s0)) s0) in
        loadFlutterAppViaIframe s1 chatbotBaseUrl t
          (toString (or_else (language s1) (VStr "en")))
    | _, _ =>
        set_isLoading false (showError "Failed to load chatbot. Please try again." s0)
    end.

(** [iframe.onload], which the browser calls on an iframe that stands in
    the document. *)
Definition iframe_onload (s : Instance) : Instance :=
  match WidgetUI.iframe (ui s), WidgetUI.chatbotBaseUrl (ui s) with
  | Some f, Some base =>
      if AventoraChat.contentWindow f then
        let s1 := set_ui (WidgetUI.setupIframeCommunication pf (ui s) base) s in
        let s2 := set_isLoading false (set_flutterAppLoaded true s1) in
        set_focus_timers (S (S (focus_timers s2))) s2
      else s
  | _, _ => s
  end.

(** [iframe.onerror]. *)
Definition iframe_onerror (s : Instance) : Instance :=
  set_isLoading false
    (showError "Failed to load chatbot. Please check that the chatbot server is running." s).

Definition focusInput (s : Instance) : Instance :=
  match WidgetUI.sendToFlutter (ui s) with
  | Some targetOrigin =>
      set_ui (WidgetUI.send_all pf targetOrigin (ui s)
                [ VObj [("type", VStr "focus_input")];
                  VObj [("type", VStr "click_input")] ]) s
  | None => s
  end.

(** A [setTimeout(focusInput)] callback fires. *)
Definition focus_timer_fire (s : Instance) : Instance :=
  match focus_timers s with
  | O => s
  | S k => focusInput (set_focus_timers k s)
  end.

(** A timer of the command part fires. *)
Definition timer_fire (s : Instance) (i : nat) : Instance :=
  set_ui (WidgetUI.timer_fire pf (ui s) i) s.

Definition sendMessage (s : Instance) (text : string) (options : AventoraChat.Options)
  : Instance * bool :=
  let '(u, r) := WidgetUI.sendMessage pf (ui s) text options in (set_ui u s, r).

Definition setQuestion (s : Instance) (text : string) (options : AventoraChat.Options)
  : Instance * bool :=
  let '(u, r) := WidgetUI.setQuestion pf (ui s) text options in (set_ui u s, r).

(** The message [setFile] hands to [sendToFlutter]. *)
Definition setFile_shape (fileId : value) (options : AventoraChat.Options) : value :=
  VObj [("type", VStr "set_file"); ("file", fileId);
        ("autoSend", VBool (is_true (AventoraChat.opt_autoSend options)))].

Definition setFile (s : Instance) (fileId : value) (options : AventoraChat.Options)
  : Instance * bool :=
  match WidgetUI.sendToFlutter (ui s) with
  | None =>
      match WidgetUI.iframe (ui s), WidgetUI.chatbotBaseUrl (ui s) with
      | Some _, Some base =>
          if negb (base =? "") then
            (set_file_retries (file_retries s ++ [(fileId, options)])
               (set_ui (WidgetUI.setupIframeCommunication pf (ui s) base) s), false)
          else (s, false)
      | _, _ => (s, false)
      end
  | Some targetOrigin =>
      (set_ui (fst (WidgetUI.call_sendToFlutter pf targetOrigin (ui s)
                      (setFile_shape fileId options))) s, true)
  end.

(** The retry of the [i]-th [setFile] that armed one. *)
Definition file_retry_fire (s : Instance) (i : nat) : Instance :=
  match nth_error (file_retries s) i with
  | None => s
  | Some (fileId, options) =>
      let s0 := set_file_retries (AventoraChat.remove_nth i (file_retries s)) s in
      match WidgetUI.sendToFlutter (ui s0) with
      | Some _ => fst (setFile s0 fileId options)
      | None => s0
      end
  end.

End WithPlatform.

End WidgetInstance.

(* ================================================================== *)
(** ** The loader of the widget UI ([AventoraWidgetLoader]) *)

Module WidgetLoader.

Import Js.

(** A counter inside a template literal: its decimal digits. *)
Definition decimal (n : nat) : string :=
  DecimalString.NilEmpty.string_of_uint (Nat.to_uint n).

(** The loop that picks the id of the root element.  [ids] are the ids of
    the elements of the document, so [getElementById(rootId)] finds one
    exactly when [rootId] is among them; [fuel] bounds the number of
    tests. *)
Fixpoint rootId_loop (fuel : nat) (ids : list string) (rootId : string) (counter : nat)
  : option string :=
  match fuel with
  | O => None
  | S k =>
      if existsb (String.eqb rootId) ids
      then rootId_loop k ids ("aventora-widget-root-" ++ decimal (S counter)) (S counter)
      else Some rootId
  end.

Definition rootId (ids : list string) : option string :=
  rootId_loop (S (length ids)) ids "aventora-widget-root" 0.

(** The two fields of the loader's [config] that [loadConfig] writes, and
    its [configLoaded] flag. *)
Record State : Type := {
  apiBase : value;
  chatbotBaseUrl : value;
  configLoaded : bool;
  fetches : list string
}.

(** [getAttribute(name) || null]. *)
Definition attr_or_null (a : option string) : value :=
  match a with
  | None | Some EmptyString => VNull
  | Some x => VStr x
  end.

(** The state after the loader has read the script element. *)
Definition init (data : string -> option string) : State :=
  {| apiBase := attr_or_null (data "data-api-base");
     chatbotBaseUrl := attr_or_null (data "data-chatbot-base-url");
     configLoaded := false; fetches := [] |}.

(** [loadConfig] up to [fetch]. *)
Definition loadConfig (s : State) : State :=
  if configLoaded s then s
  else {| apiBase := apiBase s; chatbotBaseUrl := chatbotBaseUrl s;
          configLoaded := false; fetches := fetches s ++ ["/api/config"] |}.

(** [if (!config.apiBase) config.apiBase = 'https://api.aventora.ai'],
    then [configLoaded = true]: the end of both callbacks. *)
Definition finish (apiBase0 chatbotBaseUrl0 : value) (s : State) : State :=
  {| apiBase := if truthy apiBase0 then apiBase0 else VStr "https://api.aventora.ai";
     chatbotBaseUrl := chatbotBaseUrl0;
     configLoaded := true; fetches := fetches s |}.

(** The callbacks of [loadConfig], [cfg] being the answer of the config
    endpoint. *)
Definition loadConfig_settle (s : State) (cfg : FetchOutcome) : State :=
  match cfg with
  | Response true (Json data) =>
      match get data "apiBaseUrl", get data "chatbotBaseUrl" with
      | Some a, Some b =>
          finish (if truthy a then a else apiBase s)
                 (if truthy b then b else chatbotBaseUrl s) s
      | _, _ => finish (apiBase s) (chatbotBaseUrl s) s
      end
  | _ => finish (apiBase s) (chatbotBaseUrl s) s
  end.

End WidgetLoader.

(* ================================================================== *)
(** ** server.js: the token endpoint and the config endpoint *)

Module Server.

Import Js.

(** A JavaScript string as the sequence of its UTF-16 code units, which
    is what [length] counts and [substring] cuts.  The API key is kept in
    this form because the endpoint measures and slices it; a slice may end
    between the two halves of a surrogate pair. *)
Definition units : Type := list nat.

(** The code units of ASCII text. *)
Definition units_of (s : string) : units := map nat_of_ascii (list_ascii_of_string s).

(** [process.env]: a variable is a string or is not set. *)
Record Env : Type := {
  DOMAIN_CHATBOT_API_KEY : option units;
  DOMAIN_CHATBOT_API_URL : option string;
  CHATBOT_BASE_URL : option string
}.

(** [process.env.X || 'fallback']. *)
Definition env_or (x : option string) (fallback : string) : string :=
  match x with
  | None | Some EmptyString => fallback
  | Some v => v
  end.

Definition domainChatbotApiUrl (env : Env) : string :=
  env_or (DOMAIN_CHATBOT_API_URL env) "https://api.aventora.ai".

(** The body of the answer of [GET /api/config]. *)
Definition api_config (env : Env) : value :=
  VObj [ ("chatbotBaseUrl",
          match CHATBOT_BASE_URL env with
          | None | Some EmptyString => VNull
          | Some u => VStr u
          end);
         ("apiBaseUrl", VStr (domainChatbotApiUrl env)) ].

(** [k.substring(0, 8)]. *)
Definition first8 (k : units) : units := firstn 8 k.

(** [k.substring(k.length - 4)]. *)
Definition last4 (k : units) : units := skipn (length k - 4) k.

(** The key as the endpoint shows it. *)
Definition apiKeyPrefix (key : units) : units :=
  if (12 <? length key)%nat
  then (first8 key ++ units_of "..." ++ last4 key)%list
  else units_of "***".

(** The answer of the Domain Chatbot API: [text] is what
    [tokenResponse.text()] gives and [parsed] what [tokenResponse.json()]
    gives. *)
Inductive Upstream : Type :=
| UpNetworkError (message : string)
| UpResponse (status : nat) (text : string) (parsed : JsonBody).

(** [tokenResponse.ok]. *)
Definition ok (status : nat) : bool := (200 <=? status)%nat && (status <=? 299)%nat.

(** The request the endpoint sends to the Domain Chatbot API, with the
    trimmed key it was built from. *)
Record TokenRequest : Type := {
  domainApiKey : units;
  apiEndpoint : string;
  authorization : units;
  language : value
}.

(** The four answers of [POST /api/chatbot-token]. *)
Inductive Reply : Type :=
| NotConfigured
    (* 500 { error: 'Chatbot service not configured. ...', hint } *)
| GenerationFailed (status : nat) (details hint apiUrl : string) (keyPrefix : units)
    (* status { error: 'Failed to generate chatbot token', details, hint,
                debug: { apiUrl, apiKeyPrefix, statusCode } } *)
| Generated (token expires_at : value)
    (* 200 { token, expires_at } *)
| InternalError (message : string).
    (* 500 { error: 'Internal server error', message } *)

Definition status_of (r : Reply) : nat :=
  match r with
  | NotConfigured => 500
  | GenerationFailed status _ _ _ _ => status
  | Generated _ _ => 200
  | InternalError _ => 500
  end.

(** A top-level property of the body of the answer; [JSON.stringify]
    leaves an [undefined] property out, and reading a property that is not
    there gives [undefined].  [None] stands for [debug], an object that
    holds a number. *)
Definition body_field (r : Reply) (k : string) : option value :=
  match r with
  | NotConfigured =>
      if k =? "error" then
        Some (VStr "Chatbot service not configured. Please set DOMAIN_CHATBOT_API_KEY environment variable.")
      else if k =? "hint" then Some (VStr "Get your API key from the Aventora Admin Panel")
      else Some VUndefined
  | GenerationFailed _ details hint _ _ =>
      if k =? "error" then Some (VStr "Failed to generate chatbot token")
      else if k =? "details" then Some (VStr details)
      else if k =? "hint" then Some (VStr hint)
      else if k =? "debug" then None
      else Some VUndefined
  | Generated token expires_at =>
      if k =? "token" then Some token
      else if k =? "expires_at" then Some expires_at
      else Some VUndefined
  | InternalError message =>
      if k =? "error" then Some (VStr "Internal server error")
      else if k =? "message" then Some (VStr message)
      else Some VUndefined
  end.

Definition hint_for (status : nat) : string :=
  if (status =? 401)%nat then
    "API key is invalid, expired, or revoked. Check: 1) Key is correct (no extra spaces), 2) Key exists in production database, 3) Key is active (not revoked), 4) Key has not expired, 5) Using correct API URL for production"
  else
    "Verify your DOMAIN_CHATBOT_API_KEY is correct and has token generation permissions".

Section WithTrim.

(** [String.prototype.trim]. *)
Variable trim : units -> units.

(** The handler up to its [fetch]: the answer it returns at once, or the
    request it sends.  [body] is [req.body]. *)
Definition token_request (env : Env) (body : value) : Reply + TokenRequest :=
  match get body "language" with
  | None =>
      inl (InternalError ("Cannot destructure property 'domain' of 'req.body' as it is "
                          ++ toString body ++ "."))
  | Some l =>
      match DOMAIN_CHATBOT_API_KEY env with
      | None | Some [] => inl NotConfigured
      | Some key =>
          inr {| domainApiKey := trim key;
                 apiEndpoint := domainChatbotApiUrl env ++ "/auth/api/v1/tokens/generate";
                 authorization := (units_of "Bearer " ++ trim key)%list;
                 language := match l with VUndefined => VStr "en" | _ => l end |}
      end
  end.

(** The handler from the answer of the Domain Chatbot API on. *)
Definition token_response (env : Env) (key : units) (up : Upstream) : Reply :=
  match up with
  | UpNetworkError message => InternalError message
  | UpResponse status text parsed =>
      if ok status then
        match parsed with
        | BadJson message => InternalError message
        | Json tokenData =>
            match get tokenData "token", get tokenData "expires_at" with
            | Some token, Some expires_at => Generated token expires_at
            | _, _ => InternalError (typeError_message tokenData "token")
            end
        end
      else
        GenerationFailed status text (hint_for status) (domainChatbotApiUrl env)
          (apiKeyPrefix key)
  end.

(** [POST /api/chatbot-token], [up] being the answer the Domain Chatbot API
    gives if it is asked. *)
Definition chatbot_token (env : Env) (body : value) (up : Upstream) : Reply :=
  match token_request env body with
  | inl reply => reply
  | inr request => token_response env (domainApiKey request) up
  end.

End WithTrim.

End Server.

(* ================================================================== *)
(** * Vocabulary of the properties *)

Import Js Text Html AventoraChat.
Local Open Scope list_scope.

(** A platform on which every [postMessage] is delivered and a URL without
    a path is its own origin; used where a property is evaluated. *)
Definition lenient : Platform :=
  {| postMessage_accepts := fun _ _ => true;
     url_origin := fun u => Some u;
     encodeURIComponent := fun x => x |}.

Definition demo_config : Config :=
  {| tenant := "demo"; language := "en";
     tokenApiUrl := "/api/chatbot-token"; chatbotUrl := "" |}.

(** The component as [connectedCallback] finds it: constructed, and put
    into the document by the browser. *)
Definition mounted (c : Config) : State := set_connected true (construct c).

Definition no_options : Options := {| opt_autoSend := VUndefined; opt_file := VUndefined |}.

(** What the remote side receives for the messages [ms], in order: the four
    shapes of the first, then the four shapes of the second, and so on. *)
Definition deliveries (o : string) (ms : list Message) : list (value * string) :=
  flat_map (fun m => map (fun sh => (sh, o)) (message_shapes m)) ms.

(** [postMessage] throws for none of the shapes of [m]. *)
Definition accepted (pf : Platform) (o : string) (m : Message) : Prop :=
  Forall (fun sh => postMessage_accepts pf sh o = true) (message_shapes m).

(** The commands [ms] issued one after the other. *)
Definition send_each (pf : Platform) (s : State) (ms : list Message) : State :=
  fold_left (fun st msg => fst (sendToIframe pf st msg)) ms s.

(** The two signals that set [iframeReady]. *)
Inductive ReadySignal : Type :=
| FrameLoad
| RemoteReady (data : value).

Definition ready_signal (pf : Platform) (sig : ReadySignal) (s : State) : State :=
  match sig with
  | FrameLoad => iframe_onload pf s
  | RemoteReady d => handleIframeMessage pf s d
  end.

Definition well_formed_signal (sig : ReadySignal) : Prop :=
  match sig with
  | FrameLoad => True
  | RemoteReady d => is_ready_message d = true
  end.

(** A ready message that reaches the window while the token request is
    still in flight; [chatbotOrigin] is still ["*"] then. *)
Definition early_ready : MessageEvent :=
  {| origin := "https://elsewhere.example";
     data := VObj [("type", VStr "flutter_ready")] |}.

Definition token_ok : FetchOutcome :=
  Response true (Json (VObj [("token", VStr "t1"); ("expires_at", VStr "2025-01-01T00:00:00Z")])).

Definition config_ok : FetchOutcome :=
  Response true (Json (VObj [("chatbotBaseUrl", VStr "https://demo.aventora.app");
                             ("apiBaseUrl", VNull)])).

Definition example_location : Location := {| hostname := "www.example.com"; port := "" |}.

(** The caller's [autoSend] option: left out, or a boolean. *)
Definition autoSend_option (a : option bool) : value :=
  match a with
  | None => VUndefined
  | Some b => VBool b
  end.

Definition requested (a : option bool) : bool :=
  match a with
  | Some b => b
  | None => false
  end.

(** The protocol's submit instruction: the shape's [autoSend] field is
    [true]. *)
Definition instructs_submit (shape : value) : bool :=
  match get shape "autoSend" with
  | Some v => is_true v
  | None => false
  end.

Definition carries_autoSend (b : bool) (shape : value) : Prop :=
  get shape "autoSend" = Some (VBool b) /\ instructs_submit shape = b.

Definition bad_key : FetchOutcome :=
  Response false (Json (VObj [("error", VStr "bad key")])).

(** [event.data && typeof event.data === 'object']. *)
Definition nonnull_object (v : value) : bool :=
  match v with
  | VFile _ _ | VObj _ => true
  | _ => false
  end.

(** The host the claimed rule asks for when the host name has two labels or
    more: the tenant in front of the last two labels. *)
Definition claimed_subdomain (host tenant_id : string) : string :=
  (tenant_id ++ "." ++ join_dot (slice_last2 (split_dot host)))%string.

Definition file_field (shape : value) : option value := get shape "file".

(** Whether a posted shape carries a [File] object. *)
Definition shape_has_File (shape : value) : bool :=
  match file_field shape with
  | Some v => instanceof_File v
  | None => false
  end.

(** No [File] object waits in the queue and none was posted. *)
Definition no_File_in_bridge (s : State) : Prop :=
  Forall (fun m => instanceof_File (file m) = false) (pendingMessages s) /\
  Forall (fun p => shape_has_File (fst p) = false) (posted s).

(** What can happen to a component: the calls of the host page and the
    callbacks the browser runs.  The token is requested when the browser
    connects the element ([TokenRequested] is [connectedCallback]), and a
    window message reaches [messageHandler] only while the element is
    connected, which is while the handler is registered. *)
Inductive Event : Type :=
| CallSendMessage (txt : string) (options : Options)
| CallSetQuestion (txt : string) (options : Options)
| CallOpen
| CallClose
| TimerFires (i : nat)
| ReaderLoads (i : nat) (result : string)
| WindowMessage (event : MessageEvent)
| FrameLoads
| FrameFails
| TokenRequested
| TokenAnswered (tok : FetchOutcome)
| IframeRequested (cfg : FetchOutcome) (loc : Location)
| Disconnected.

Definition step (pf : Platform) (s : State) (e : Event) : State :=
  match e with
  | CallSendMessage txt options => sendMessage pf s txt options
  | CallSetQuestion txt options => setQuestion s txt options
  | CallOpen => open s
  | CallClose => close s
  | TimerFires i => timer_fire pf s i
  | ReaderLoads i result => reader_onload pf s i result
  | WindowMessage event => if connected s then messageHandler pf s event else s
  | FrameLoads => iframe_onload pf s
  | FrameFails => iframe_onerror s
  | TokenRequested => connectedCallback s
  | TokenAnswered tok => fst (fetchToken_settle s tok)
  | IframeRequested cfg loc => createIframe pf s cfg loc
  | Disconnected => disconnectedCallback s
  end.

Definition run (pf : Platform) (s : State) (es : list Event) : State :=
  fold_left (step pf) es s.

(** [sendMessage] calls, as events and as the messages they build. *)
Definition commands (cmds : list (string * Options)) : list Event :=
  map (fun c => CallSendMessage (fst c) (snd c)) cmds.

Definition messages_of (cmds : list (string * Options)) : list Message :=
  map (fun c => make_message (fst c) (snd c)) cmds.

Definition without_File (c : string * Options) : Prop :=
  instanceof_File (file (make_message (fst c) (snd c))) = false.

Arguments message_shapes : simpl never.
Arguments deliveries : simpl never.

Arguments error_state_html : simpl never.
Arguments loading_state_html : simpl never.

(* ------------------------------------------------------------------ *)
(** ** Vocabulary of the further properties *)

(** What the page shows of the component: the two flags, the panel and the
    launcher. *)
Definition panel_view (s : State) : bool * bool * option Panel * option string :=
  (isOpen s, isMinimized s, chatPanel s, launcherButton s).

(** The flags, the panel and the launcher tell the same story: the panel is
    displayed and carries class [open] exactly when [isOpen] holds,
    [isMinimized] is the opposite flag, and the launcher is hidden exactly
    while the panel is open. *)
Definition panel_consistent (s : State) : Prop :=
  isMinimized s = negb (isOpen s) /\
  (exists p, chatPanel s = Some p /\ open_class p = isOpen s /\
             display p = (if isOpen s then "block" else "none")%string) /\
  (exists d, launcherButton s = Some d /\
             (isOpen s = true -> d = "none"%string) /\
             (isOpen s = false -> d <> "none"%string)).

(** The source of the iframe [createIframe] builds. *)
Definition autoconnect_url (pf : Platform) (base tok lang : string) : string :=
  (base ++ "/autoconnect?token=" ++ encodeURIComponent pf tok
   ++ "&lang=" ++ encodeURIComponent pf lang)%string.

(** Text that [escapeHtml] has nothing to replace in. *)
Fixpoint plain_text (s : string) : bool :=
  match s with
  | EmptyString => true
  | String c rest =>
      negb (c =? "&")%char && negb (c =? "<")%char && negb (c =? ">")%char &&
      negb (nbsp_at c rest) && plain_text rest
  end.

(** What happens on a page of the loader while nothing calls
    [createWidget]: [loadComponent] runs (on load, or through [init]) and
    the host calls the methods of [window.AventoraChatbot]. *)
Inductive LoaderEvent : Type :=
| LoadComponent
| ApiCall (c : Loader.Call).

Definition loader_step (pf : Platform) (config : Loader.Config) (p : Loader.Page)
    (e : LoaderEvent) : Loader.Page :=
  match e with
  | LoadComponent => Loader.loadComponent config p
  | ApiCall c => Loader.api pf p c
  end.

Fixpoint calls_of (es : list LoaderEvent) : list Loader.Call :=
  match es with
  | [] => []
  | LoadComponent :: rest => calls_of rest
  | ApiCall c :: rest => c :: calls_of rest
  end.

(** The element [createWidget] works on: the one of the document, or a new
    one. *)
Definition widget_of (config : Loader.Config) (p : Loader.Page) : Loader.Element :=
  match Loader.widget p with
  | Some w => w
  | None => Loader.new_widget config
  end.

(** A script tag that names its own token endpoint and chatbot URL, and
    the page right after the loader has run. *)
Definition custom_loader_config : Loader.Config :=
  {| Loader.tenant := Some "demo"; Loader.bot := None;
     Loader.theme := "auto"; Loader.position := "bottom-right";
     Loader.language := "fr";
     Loader.tokenApiUrl := "https://shop.example/token";
     Loader.chatbotUrl := Some "https://bot.example";
     Loader.widgetUrl := "https://cdn.aventora.ai/aventora-chat.js" |}.

Definition fresh_page : Loader.Page :=
  {| Loader._ready := false; Loader._instance := false; Loader._queue := [];
     Loader.scripts := ["https://cdn.aventora.ai/widget.js"];
     Loader.widget := None |}.

(** A page whose author included the component script beside the loader
    and wrote the element into the document. *)
Definition page_with_component_script : Loader.Page :=
  {| Loader._ready := false; Loader._instance := false; Loader._queue := [];
     Loader.scripts := ["/widget.js"; "/aventora-chat.js"];
     Loader.widget := Some Loader.createElement |}.

(** What can happen to an instance of the widget UI: the calls of the host
    page and the callbacks the browser runs. *)
Inductive WidgetEvent : Type :=
| WOpen
| WClose
| WEscape
| WSendMessage (text : string) (options : Options)
| WSetQuestion (text : string) (options : Options)
| WFocusInput
| WTimer (i : nat)
| WFocusTimer
| WSettled (cfg tok : FetchOutcome)
| WFrameLoads
| WFrameFails
| WSetFile (fileId : value) (options : Options)
| WFileRetry (i : nat).

Definition widget_step (pf : Platform) (s : WidgetInstance.Instance) (e : WidgetEvent)
  : WidgetInstance.Instance :=
  match e with
  | WOpen => WidgetInstance.open s
  | WClose => WidgetInstance.close s
  | WEscape => WidgetInstance.escapeHandler s
  | WSendMessage text options => fst (WidgetInstance.sendMessage pf s text options)
  | WSetQuestion text options => fst (WidgetInstance.setQuestion pf s text options)
  | WFocusInput => WidgetInstance.focusInput pf s
  | WTimer i => WidgetInstance.timer_fire pf s i
  | WFocusTimer => WidgetInstance.focus_timer_fire pf s
  | WSettled cfg tok => WidgetInstance.loadFlutterApp_settle pf s cfg tok
  | WFrameLoads => WidgetInstance.iframe_onload pf s
  | WFrameFails => WidgetInstance.iframe_onerror s
  | WSetFile fileId options => fst (WidgetInstance.setFile pf s fileId options)
  | WFileRetry i => WidgetInstance.file_retry_fire pf s i
  end.

Definition widget_run (pf : Platform) (s : WidgetInstance.Instance) (es : list WidgetEvent)
  : WidgetInstance.Instance :=
  fold_left (widget_step pf) es s.

(** The events that end a load: the promise of [loadFlutterApp] settles,
    or the iframe reports its load or its failure. *)
Definition ends_load (e : WidgetEvent) : bool :=
  match e with
  | WSettled _ _ | WFrameLoads | WFrameFails => true
  | _ => false
  end.

Definition is_settled (e : WidgetEvent) : bool :=
  match e with
  | WSettled _ _ => true
  | _ => false
  end.

(** The panel, the launcher and [isOpen] of the widget UI agree. *)
Definition widget_panel_consistent (s : WidgetInstance.Instance) : Prop :=
  WidgetInstance.panel_open s = WidgetInstance.isOpen s /\
  (WidgetInstance.isOpen s = true -> WidgetInstance.launcher_display s = "none"%string) /\
  (WidgetInstance.isOpen s = false -> WidgetInstance.launcher_display s <> "none"%string).

(** What [postMessage] receives for [shapes] sent to [o], in order. *)
Definition sent_to (o : string) (shapes : list value) : list (value * string) :=
  map (fun sh => (sh, o)) shapes.

(** The command part of a widget UI whose iframe stands in the panel while
    its [onload] has not run yet. *)
Definition framed_widget : WidgetUI.State :=
  {| WidgetUI.iframe := Some {| src := "https://demo.aventora.app/autoconnect";
                                contentWindow := true |};
     WidgetUI.chatbotBaseUrl := Some "https://demo.aventora.app";
     WidgetUI.sendToFlutter := None; WidgetUI.listeners := 0;
     WidgetUI.posted := []; WidgetUI.timers := [] |}.

(** The ids the loader of the widget UI tries for its root, in order. *)
Definition root_candidate (n : nat) : string :=
  match n with
  | O => "aventora-widget-root"
  | S _ => "aventora-widget-root-" ++ WidgetLoader.decimal n
  end.

(** [CHATBOT_BASE_URL], if it is set to something. *)
Definition configured_base (env : Server.Env) : option string :=
  match Server.CHATBOT_BASE_URL env with
  | None | Some EmptyString => None
  | Some u => Some u
  end.

(** The answer a browser gets from [GET /api/config]. *)
Definition config_reply (env : Server.Env) : FetchOutcome :=
  Response true (Json (Server.api_config env)).

(** The object a browser parses from the body of a token reply: it has
    the top-level properties of the body. *)
Definition client_reads (r : Server.Reply) (d : value) : Prop :=
  forall k v, Server.body_field r k = Some v -> get d k = Some v.

(** The answer a browser gets from [POST /api/chatbot-token] when it
    parses the body of [r] as [d]. *)
Definition token_reply (r : Server.Reply) (d : value) : FetchOutcome :=
  Response (Server.ok (Server.status_of r)) (Json d).

(** The [error] property of a token reply that is not a token. *)
Definition reply_error (r : Server.Reply) : string :=
  match r with
  | Server.NotConfigured =>
      "Chatbot service not configured. Please set DOMAIN_CHATBOT_API_KEY environment variable."
  | Server.GenerationFailed _ _ _ _ _ => "Failed to generate chatbot token"
  | Server.Generated _ _ => ""
  | Server.InternalError _ => "Internal server error"
  end.

(** An environment that differs from [env] in the key only. *)
Definition with_key (k : Server.units) (env : Server.Env) : Server.Env :=
  {| Server.DOMAIN_CHATBOT_API_KEY := Some k;
     Server.DOMAIN_CHATBOT_API_URL := Server.DOMAIN_CHATBOT_API_URL env;
     Server.CHATBOT_BASE_URL := Server.CHATBOT_BASE_URL env |}.

(** Two trimmed keys the mask cannot tell apart: both have at most twelve
    code units, or both have more and the same first eight and last four. *)
Definition same_mask (a b : Server.units) : Prop :=
  (length a <= 12 /\ length b <= 12) \/
  (12 < length a /\ 12 < length b /\
   Server.first8 a = Server.first8 b /\ Server.last4 a = Server.last4 b).

(** An environment in which no variable is set. *)
Definition no_key_env : Server.Env :=
  {| Server.DOMAIN_CHATBOT_API_KEY := None; Server.DOMAIN_CHATBOT_API_URL := None;
     Server.CHATBOT_BASE_URL := None |}.

(** Two keys, as code units.  The second holds [U+00E9], one code unit
    that UTF-8 writes in two bytes. *)
Definition long_key : Server.units := Server.units_of "avk_live_0123456789abcdef_prod".
Definition other_long_key : Server.units :=
  Server.units_of "avk_live" ++ [233; 233; 233; 233; 233] ++ Server.units_of "prod".
Definition twelve_unit_key : Server.units := Server.units_of "abcdefgh" ++ 233 :: Server.units_of "xyz".

(* ================================================================== *)
(** * Properties *)

Lemma deliveries_cons (o : string) (m : Message) (ms : list Message) :
  deliveries o (m :: ms) = map (fun sh => (sh, o)) (message_shapes m) ++ deliveries o ms.
Proof. reflexivity. Qed.

Lemma deliveries_one (o : string) (m : Message) :
  deliveries o [m] = map (fun sh => (sh, o)) (message_shapes m).
Proof. rewrite deliveries_cons. apply app_nil_r. Qed.

Lemma deliveries_app (o : string) (ms ms' : list Message) :
  deliveries o (ms ++ ms') = deliveries o ms ++ deliveries o ms'.
Proof. apply flat_map_app. Qed.

Section Bridge.

Variable pf : Platform.

Lemma post_each_accepted (o : string) (shapes : list value) :
  Forall (fun sh => postMessage_accepts pf sh o = true) shapes ->
  forall log, post_each pf o shapes log = (log ++ map (fun sh => (sh, o)) shapes, true).
Proof.
  induction 1 as [|sh rest Hsh _ IH]; intros log; simpl.
  - now rewrite app_nil_r.
  - rewrite Hsh, IH, <- app_assoc. reflexivity.
Qed.

Lemma post_each_extends (o : string) (shapes : list value) :
  forall log, exists delta,
    fst (post_each pf o shapes log) = log ++ delta /\
    incl delta (map (fun sh => (sh, o)) shapes).
Proof.
  induction shapes as [|sh rest IH]; intros log; simpl.
  - exists []. split; [now rewrite app_nil_r | apply incl_nil_l].
  - destruct (postMessage_accepts pf sh o).
    + destruct (IH (log ++ [(sh, o)])) as [delta [E I]].
      exists ((sh, o) :: delta). split.
      * rewrite E, <- app_assoc. reflexivity.
      * apply incl_cons; [now left | now apply incl_tl].
    + exists []. split; [now rewrite app_nil_r | apply incl_nil_l].
Qed.

(** Without a content window the command goes to the back of the queue and
    nothing else changes. *)
Lemma sendToIframe_detached (s : State) (m : Message) :
  has_contentWindow s = false ->
  sendToIframe pf s m = (set_pendingMessages (pendingMessages s ++ [m]) s, false).
Proof. intros H. unfold sendToIframe. now rewrite H. Qed.

(** With a content window the four shapes are posted at once. *)
Lemma sendToIframe_attached (s : State) (m : Message) :
  has_contentWindow s = true ->
  accepted pf (chatbotOrigin s) m ->
  sendToIframe pf s m = (set_posted (posted s ++ deliveries (chatbotOrigin s) [m]) s, true).
Proof.
  intros H A. unfold sendToIframe. rewrite H. simpl negb. cbv iota.
  rewrite (post_each_accepted _ _ A). now rewrite deliveries_one.
Qed.

Lemma send_each_cons (s : State) (m : Message) (ms : list Message) :
  send_each pf s (m :: ms) = send_each pf (fst (sendToIframe pf s m)) ms.
Proof. reflexivity. Qed.

Lemma send_each_detached (ms : list Message) :
  forall s, has_contentWindow s = false ->
  send_each pf s ms = set_pendingMessages (pendingMessages s ++ ms) s.
Proof.
  induction ms as [|m ms IH]; intros s H.
  - rewrite app_nil_r. now destruct s.
  - rewrite send_each_cons, (sendToIframe_detached s m H). cbn [fst].
    rewrite IH by exact H. cbn. now rewrite <- app_assoc.
Qed.

Lemma send_each_attached (ms : list Message) :
  forall s, has_contentWindow s = true ->
  Forall (accepted pf (chatbotOrigin s)) ms ->
  send_each pf s ms = set_posted (posted s ++ deliveries (chatbotOrigin s) ms) s.
Proof.
  induction ms as [|m ms IH]; intros s H A.
  - cbn. rewrite app_nil_r. now destruct s.
  - inversion A as [|? ? Am Ams]; subst.
    rewrite send_each_cons, (sendToIframe_attached s m H Am). cbn [fst].
    rewrite IH by (cbn; assumption).
    rewrite (deliveries_cons _ m ms), deliveries_one. cbn. now rewrite <- app_assoc.
Qed.

(** A flush into an attached iframe posts the queue in order and empties it. *)
Lemma processPendingMessages_attached (s : State) :
  iframeReady s = true ->
  has_contentWindow s = true ->
  Forall (accepted pf (chatbotOrigin s)) (pendingMessages s) ->
  processPendingMessages pf s =
  set_pendingMessages []
    (set_posted (posted s ++ deliveries (chatbotOrigin s) (pendingMessages s)) s).
Proof.
  intros R H A. unfold processPendingMessages. rewrite R.
  destruct (pendingMessages s) as [|m ms] eqn:Q.
  - simpl. rewrite app_nil_r. destruct s; simpl in *. now subst.
  - simpl Nat.ltb. cbv iota. simpl andb. cbv iota.
    fold (send_each pf s (m :: ms)).
    now rewrite send_each_attached.
Qed.

(** A flush with no content window pushes every queued command behind the
    ones being visited and then drops the whole array. *)
Lemma processPendingMessages_detached (s : State) :
  iframeReady s = true ->
  has_contentWindow s = false ->
  processPendingMessages pf s = set_pendingMessages [] s.
Proof.
  intros R H. unfold processPendingMessages. rewrite R.
  destruct (pendingMessages s) as [|m ms] eqn:Q.
  - simpl. destruct s; simpl in *. now subst.
  - simpl Nat.ltb. cbv iota. simpl andb. cbv iota.
    fold (send_each pf s (m :: ms)).
    rewrite send_each_detached by exact H. now destruct s.
Qed.

(** A ready message that is let through while no content window is
    attached empties the queue and posts nothing. *)
Lemma ready_message_without_iframe (s : State) (event : MessageEvent) :
  has_contentWindow s = false ->
  chatbotOrigin s = "*"%string \/ origin event = chatbotOrigin s ->
  truthy (data event) && typeof_object (data event) = true ->
  is_ready_message (data event) = true ->
  pendingMessages (messageHandler pf s event) = [] /\
  posted (messageHandler pf s event) = posted s.
Proof.
  intros H O D R. unfold messageHandler.
  replace (negb (chatbotOrigin s =? "*")%string
           && negb (origin event =? chatbotOrigin s)%string) with false.
  - rewrite D. unfold handleIframeMessage. rewrite R.
    rewrite (processPendingMessages_detached (set_iframeReady true s) eq_refl H).
    split; reflexivity.
  - destruct O as [O|O]; rewrite O.
    + reflexivity.
    + rewrite String.eqb_refl. now rewrite andb_false_r.
Qed.

(** Whatever the state, the queue is empty after a ready signal. *)
Lemma ready_signal_empties_queue (sig : ReadySignal) (s : State) :
  well_formed_signal sig ->
  pendingMessages (ready_signal pf sig s) = [].
Proof.
  assert (E : forall s', iframeReady s' = true ->
              pendingMessages (processPendingMessages pf s') = []).
  { intros s' R. unfold processPendingMessages. rewrite R.
    destruct (pendingMessages s') eqn:Q; simpl; [exact Q | reflexivity]. }
  destruct sig as [|d]; simpl; intros W.
  - unfold iframe_onload. simpl. now apply E.
  - unfold handleIframeMessage. rewrite W. simpl. now apply E.
Qed.

(** A ready signal that finds the queue empty posts nothing. *)
Lemma ready_signal_on_empty_queue (sig : ReadySignal) (s : State) :
  pendingMessages s = [] ->
  posted (ready_signal pf sig s) = posted s /\
  pendingMessages (ready_signal pf sig s) = [].
Proof.
  intros Q.
  assert (E : forall s', pendingMessages s' = [] -> processPendingMessages pf s' = s').
  { intros s' Q'. unfold processPendingMessages. now rewrite Q'. }
  destruct sig as [|d]; simpl.
  - unfold iframe_onload. rewrite E by (simpl; exact Q). simpl. auto.
  - unfold handleIframeMessage. destruct (is_ready_message d).
    + rewrite E by (simpl; exact Q). simpl. auto.
    + simpl. auto.
Qed.

(** A ready signal that finds the iframe attached posts the queue in order,
    empties it, and leaves the iframe and the target origin as they were. *)
Lemma ready_signal_attached (sig : ReadySignal) (s : State) :
  well_formed_signal sig ->
  has_contentWindow s = true ->
  Forall (accepted pf (chatbotOrigin s)) (pendingMessages s) ->
  posted (ready_signal pf sig s) =
    posted s ++ deliveries (chatbotOrigin s) (pendingMessages s) /\
  pendingMessages (ready_signal pf sig s) = [] /\
  has_contentWindow (ready_signal pf sig s) = true /\
  chatbotOrigin (ready_signal pf sig s) = chatbotOrigin s.
Proof.
  intros W H A.
  assert (E : processPendingMessages pf (set_iframeReady true s) =
              set_pendingMessages []
                (set_posted (posted s ++ deliveries (chatbotOrigin s) (pendingMessages s))
                   (set_iframeReady true s))).
  { exact (processPendingMessages_attached (set_iframeReady true s) eq_refl H A). }
  destruct sig as [|d]; cbn [ready_signal].
  - unfold iframe_onload. rewrite E. cbn. auto.
  - unfold handleIframeMessage. cbn in W. rewrite W, E. cbn. auto.
Qed.

Lemma run_app (s : State) (es es' : list Event) :
  run pf s (es ++ es') = run pf (run pf s es) es'.
Proof. apply fold_left_app. Qed.

(** Commands issued while no content window is attached wait in the queue
    in the order of the calls; only the event log grows besides. *)
Lemma commands_queue_while_detached (cmds : list (string * Options)) :
  Forall without_File cmds ->
  forall s, has_contentWindow s = false ->
  exists ev, run pf s (commands cmds)
             = set_events ev (set_pendingMessages (pendingMessages s ++ messages_of cmds) s).
Proof.
  induction 1 as [|[txt o] cmds F _ IH]; intros s H.
  - exists (events s). cbn. rewrite app_nil_r. now destruct s.
  - unfold run, commands. cbn [map fold_left step fst snd].
    unfold sendMessage at 1. unfold without_File in F. cbn [fst snd] in F. rewrite F.
    rewrite (sendToIframe_detached s _ H). cbn [fst].
    set (s1 := dispatch _ _ _).
    destruct (IH s1 H) as [ev E]. unfold run, commands in E. rewrite E.
    exists ev. subst s1. destruct s. cbn. now rewrite <- app_assoc.
Qed.

(** [createIframe] with a token and a rendered panel puts the iframe into
    the panel, where it has a content window exactly if the element is
    connected, and leaves the bridge as it was. *)
Lemma createIframe_attaches (s : State) (cfg : FetchOutcome) (loc : Location) :
  truthy (token s) = true ->
  iframeContainer s <> None ->
  has_contentWindow (createIframe pf s cfg loc) = connected s /\
  pendingMessages (createIframe pf s cfg loc) = pendingMessages s /\
  posted (createIframe pf s cfg loc) = posted s.
Proof.
  intros T N. unfold createIframe. rewrite T. cbn [negb]. unfold createIframe_resume.
  assert (G : iframeContainer (fst (getChatbotUrl s cfg loc)) = iframeContainer s /\
              pendingMessages (fst (getChatbotUrl s cfg loc)) = pendingMessages s /\
              posted (fst (getChatbotUrl s cfg loc)) = posted s /\
              connected (fst (getChatbotUrl s cfg loc)) = connected s).
  { unfold getChatbotUrl.
    destruct (negb (chatbotUrl (config s) =? "")%string); [|destruct (config_answer cfg)];
      repeat split. }
  destruct (getChatbotUrl s cfg loc) as [s1 base]. cbn [fst] in G.
  destruct G as [G1 [G2 [G3 G4]]]. rewrite <- G1 in N. rewrite <- G2, <- G3, <- G4.
  destruct s1 as [c tk ld er io im ifr rdy q org cp lb ic po ev fe rd tm cn].
  cbn in *. destruct ic; [|contradiction]. cbn. auto.
Qed.

(** The ordinary course of events: the component is connected, commands
    are issued while the token is being fetched, the token arrives, the
    iframe is created and loads.  Then every command has been posted once,
    in the order of the calls, and the queue is empty. *)
Lemma queued_commands_delivered_on_load
      (c : Config) (cmds : list (string * Options)) (d t : value)
      (cfg : FetchOutcome) (loc : Location) :
  Forall without_File cmds ->
  get d "token" = Some t -> truthy t = true ->
  (forall o, Forall (accepted pf o) (messages_of cmds)) ->
  let waiting := run pf (construct c) (TokenRequested :: commands cmds) in
  let loaded := run pf waiting [TokenAnswered (Response true (Json d));
                                IframeRequested cfg loc; FrameLoads] in
  pendingMessages waiting = messages_of cmds /\ posted waiting = [] /\
  has_contentWindow loaded = true /\
  posted loaded = deliveries (chatbotOrigin loaded) (messages_of cmds) /\
  pendingMessages loaded = [].
Proof.
  intros F D T A. cbv zeta.
  change (TokenRequested :: commands cmds) with ([TokenRequested] ++ commands cmds).
  rewrite run_app.
  set (s1 := run pf (construct c) [TokenRequested]).
  assert (H1 : has_contentWindow s1 = false) by reflexivity.
  destruct (commands_queue_while_detached cmds F s1 H1) as [ev E]. rewrite E.
  set (s2 := set_events ev _).
  assert (Q2 : pendingMessages s2 = messages_of cmds) by reflexivity.
  assert (P2 : posted s2 = []) by reflexivity.
  split; [exact Q2|]. split; [exact P2|].
  unfold run. cbn [fold_left step]. unfold fetchToken_settle. rewrite D. cbn [fst].
  set (s3 := set_loading false (set_token t s2)).
  destruct (createIframe_attaches s3 cfg loc T) as [H4 [Q4 P4]]; [discriminate|].
  change (connected s3) with true in H4.
  set (s4 := createIframe pf s3 cfg loc) in *.
  destruct (ready_signal_attached FrameLoad s4 I H4) as [P5 [Q5 [H5 O5]]].
  { rewrite Q4. apply A. }
  cbn [ready_signal] in *. rewrite H5, Q5, O5, P5, Q4, P4. auto.
Qed.

End Bridge.

(** C1 (evaluated where the code departs from it).  The element is
    connected and its token request is in flight; [sendMessage] queues a
    command; a [flutter_ready] message arrives before any iframe exists.
    The flush it triggers re-queues the command on the array that is then
    replaced by an empty one: nothing is posted, and when the iframe later
    loads the queue is empty, so the command is never delivered. *)
Theorem queued_command_lost_by_early_ready (pf : Platform) :
  let mounted := [TokenRequested] in
  let queued := mounted ++ [CallSendMessage "hello" no_options] in
  let signalled := queued ++ [WindowMessage early_ready] in
  let loaded := signalled ++ [TokenAnswered token_ok;
                              IframeRequested config_ok example_location;
                              FrameLoads] in
  let after := run pf (construct demo_config) in
  (has_contentWindow (after mounted) = false /\
   pendingMessages (after queued) = [make_message "hello" no_options]) /\
  (iframeReady (after signalled) = true /\
   pendingMessages (after signalled) = [] /\
   posted (after signalled) = []) /\
  (has_contentWindow (after loaded) = true /\
   iframeReady (after loaded) = true /\
   posted (after loaded) = [] /\
   pendingMessages (after loaded) = []).
Proof. cbv zeta. repeat split; reflexivity. Qed.

(** The two ready signals, in either order: after the first the queue is
    empty, and the second, finding it empty, posts nothing.  When the
    iframe has its content window as the first one arrives (and
    [postMessage] does not throw), the first signal posts every queued
    command once, in order; commands issued between the two signals are
    posted as they are issued; so in the end every command has been posted
    exactly once. *)
Lemma ready_signals_flush_exactly_once
        (pf : Platform) (s : State) (first second : ReadySignal) (between : list Message) :
  well_formed_signal first ->
  well_formed_signal second ->
  let s1 := ready_signal pf first s in
  let s2 := send_each pf s1 between in
  let s3 := ready_signal pf second s2 in
  (pendingMessages s1 = [] /\
   posted (ready_signal pf second s1) = posted s1 /\
   pendingMessages (ready_signal pf second s1) = []) /\
  (has_contentWindow s = true ->
   Forall (accepted pf (chatbotOrigin s)) (pendingMessages s ++ between) ->
   posted s1 = posted s ++ deliveries (chatbotOrigin s) (pendingMessages s) /\
   pendingMessages s2 = [] /\
   posted s3 = posted s2 /\
   pendingMessages s3 = [] /\
   posted s3 = posted s ++ deliveries (chatbotOrigin s) (pendingMessages s ++ between)).
Proof.
  intros W1 W2. cbv zeta. split.
  - pose proof (ready_signal_empties_queue pf first s W1) as Q1.
    destruct (ready_signal_on_empty_queue pf second _ Q1) as [P Q]. auto.
  - intros H A. apply Forall_app in A as [Aq Ab].
    destruct (ready_signal_attached pf first s W1 H Aq) as [P1 [Q1 [H1 O1]]].
    assert (E2 : send_each pf (ready_signal pf first s) between =
                 set_posted (posted (ready_signal pf first s)
                             ++ deliveries (chatbotOrigin (ready_signal pf first s)) between)
                            (ready_signal pf first s)).
    { apply send_each_attached; [exact H1 | now rewrite O1]. }
    rewrite E2.
    set (s2 := set_posted _ (ready_signal pf first s)).
    assert (Q2 : pendingMessages s2 = []) by exact Q1.
    destruct (ready_signal_on_empty_queue pf second s2 Q2) as [P3 Q3].
    repeat split; try assumption.
    rewrite P3. subst s2. cbn [posted set_posted].
    now rewrite P1, O1, deliveries_app, app_assoc.
Qed.

Lemma ready_signals_flush_exactly_once_witness :
  let s := set_pendingMessages [make_message "hi" no_options]
             (fetchToken lenient (construct demo_config) token_ok config_ok example_location) in
  let s1 := ready_signal lenient (RemoteReady (data early_ready)) s in
  pendingMessages s1 = [] /\
  posted (ready_signal lenient FrameLoad s1) = posted s1 /\
  pendingMessages (ready_signal lenient FrameLoad s1) = [].
Proof.
  cbv zeta.
  refine (proj1 (ready_signals_flush_exactly_once lenient _
                   (RemoteReady (data early_ready)) FrameLoad [] _ _)).
  - reflexivity.
  - exact I.
Defined.

(** C2 (evaluated where the code departs from it).  Both ready signals
    occur: a ready message reaches the window while the token request is
    in flight, and the iframe loads later.  Two commands were queued
    before the first signal.  That signal sets the ready flag and flushes
    with no iframe to post to: the queue is emptied and nothing is posted.
    The second signal finds the queue empty.  Both signals are announced,
    and each queued command has been delivered not once but never. *)
Theorem early_ready_signal_discards_the_queue (pf : Platform) :
  let queued := [TokenRequested; CallSendMessage "one" no_options;
                 CallSendMessage "two" no_options] in
  let first := queued ++ [WindowMessage early_ready] in
  let both := first ++ [TokenAnswered token_ok;
                        IframeRequested config_ok example_location;
                        FrameLoads] in
  let after := run pf (construct demo_config) in
  pendingMessages (after queued)
  = [make_message "one" no_options; make_message "two" no_options] /\
  (iframeReady (after first) = true /\
   pendingMessages (after first) = [] /\ posted (after first) = []) /\
  (has_contentWindow (after both) = true /\
   pendingMessages (after both) = [] /\ posted (after both) = []) /\
  map fst (events (after both))
  = ["aventora:message-sent"; "aventora:message-sent"; "aventora:ready";
     "aventora:message"; "aventora:iframe-ready"]%string.
Proof. cbv zeta. repeat split; reflexivity. Qed.

(* ------------------------------------------------------------------ *)
(** ** The [autoSend] flag *)

Lemma or_else_autoSend (a : option bool) :
  or_else (autoSend_option a) (VBool false) = VBool (requested a).
Proof. now destruct a as [[|]|]. Qed.

Lemma message_shapes_autoSend (m : Message) (b : bool) :
  autoSend m = VBool b ->
  forall sh, In sh (message_shapes m) -> carries_autoSend b sh.
Proof.
  intros E sh H. unfold message_shapes in H. cbn in H.
  destruct H as [<-|[<-|[<-|[<-|[]]]]];
    unfold carries_autoSend, instructs_submit; cbn; rewrite E; now destruct b.
Qed.

(** What [sendToIframe] adds to the log is made of shapes of its message. *)
Lemma sendToIframe_posts_shapes (pf : Platform) (s : State) (m : Message) :
  exists delta,
    posted (fst (sendToIframe pf s m)) = posted s ++ delta /\
    forall sh o, In (sh, o) delta -> In sh (message_shapes m) /\ o = chatbotOrigin s.
Proof.
  unfold sendToIframe. destruct (has_contentWindow s); cbn [negb].
  - destruct (post_each_extends pf (chatbotOrigin s) (message_shapes m) (posted s))
      as [delta [E I]].
    destruct (post_each pf (chatbotOrigin s) (message_shapes m) (posted s)) as [log ok].
    cbn in *. exists delta. split; [exact E|].
    intros sh o H. apply I in H. apply in_map_iff in H as [sh' [P Q]].
    inversion P; subst. auto.
  - exists []. cbn. split; [now rewrite app_nil_r | intros ? ? []].
Qed.

Lemma send_all_posts_shapes (pf : Platform) (o : string) (shapes : list value) :
  forall s, exists delta,
    WidgetUI.posted (WidgetUI.send_all pf o s shapes) = WidgetUI.posted s ++ delta /\
    forall sh o', In (sh, o') delta -> In sh shapes.
Proof.
  unfold WidgetUI.send_all.
  induction shapes as [|sh rest IH]; intros s.
  - exists []. cbn. split; [now rewrite app_nil_r | intros ? ? []].
  - cbn [fold_left].
    destruct (IH (fst (WidgetUI.call_sendToFlutter pf o s sh))) as [delta [E I]].
    unfold WidgetUI.call_sendToFlutter in *.
    destruct (WidgetUI.iframe s) as [f|];
      [destruct (contentWindow f); [destruct (postMessage_accepts pf sh o)|]|];
      cbn [fst] in *.
    + exists ((sh, o) :: delta). split.
      * rewrite E. cbn. now rewrite <- app_assoc.
      * intros sh' o' [P|P]; [inversion P; now left | right; eauto].
    + exists delta. split; [exact E | intros; right; eauto].
    + exists delta. split; [exact E | intros; right; eauto].
    + exists delta. split; [exact E | intros; right; eauto].
Qed.

(** C3.  The caller's [autoSend] option being a boolean or left out, every
    shape built for a [sendMessage] or [setQuestion] call, by the web
    component and by the widget UI, carries an [autoSend] field equal to
    the option ([false] when left out), so no shape tells the remote side to
    submit when the option is [false] or absent and every shape does when
    it is [true]; and what a call adds to the log of posted messages
    consists of such shapes. *)
Theorem autoSend_carried_by_every_shape
        (pf : Platform) (txt : string) (a : option bool) (f : value) :
  let options := {| opt_autoSend := autoSend_option a; opt_file := f |} in
  let ok := carries_autoSend (requested a) in
  (forall sh, In sh (message_shapes (make_message txt options)) -> ok sh) /\
  (forall sh, In sh (message_shapes (make_message txt (with_autoSend_default options))) ->
              ok sh) /\
  (forall sh, In sh (WidgetUI.sendMessage_shapes txt options) -> ok sh) /\
  (forall sh, In sh (WidgetUI.setQuestion_shapes txt options) -> ok sh) /\
  (forall s, exists delta,
      posted (sendMessage pf s txt options) = posted s ++ delta /\
      forall sh o, In (sh, o) delta -> ok sh) /\
  (forall s i result, nth_error (readers s) i = Some (make_message txt options) ->
      exists delta,
        posted (reader_onload pf s i result) = posted s ++ delta /\
        forall sh o, In (sh, o) delta -> ok sh) /\
  (forall s, exists delta,
      WidgetUI.posted (fst (WidgetUI.sendMessage pf s txt options)) =
        WidgetUI.posted s ++ delta /\
      forall sh o, In (sh, o) delta -> ok sh) /\
  (forall s, exists delta,
      WidgetUI.posted (fst (WidgetUI.setQuestion pf s txt options)) =
        WidgetUI.posted s ++ delta /\
      forall sh o, In (sh, o) delta -> ok sh).
Proof.
  cbv zeta.
  set (options := {| opt_autoSend := autoSend_option a; opt_file := f |}).
  assert (M : forall sh, In sh (message_shapes (make_message txt options)) ->
                         carries_autoSend (requested a) sh).
  { apply message_shapes_autoSend. cbn. apply or_else_autoSend. }
  assert (U1 : forall sh, In sh (WidgetUI.sendMessage_shapes txt options) ->
                          carries_autoSend (requested a) sh).
  { intros sh H. unfold WidgetUI.sendMessage_shapes in H. cbn in H.
    destruct a as [[|]|]; cbn in H;
      repeat (destruct H as [<-|H]; [now split|]); destruct H. }
  assert (U2 : forall sh, In sh (WidgetUI.setQuestion_shapes txt options) ->
                          carries_autoSend (requested a) sh).
  { intros sh H. unfold WidgetUI.setQuestion_shapes in H. cbn in H.
    destruct a as [[|]|]; cbn in H;
      repeat (destruct H as [<-|H]; [now split|]); destruct H. }
  repeat apply conj.
  - exact M.
  - apply message_shapes_autoSend. cbn. rewrite or_else_autoSend.
    now destruct (requested a).
  - exact U1.
  - exact U2.
  - intros s. unfold sendMessage.
    destruct (instanceof_File (file (make_message txt options))).
    + exists []. cbn. split; [now rewrite app_nil_r | intros ? ? []].
    + destruct (sendToIframe_posts_shapes pf s (make_message txt options)) as [delta [E I]].
      exists delta. split; [exact E|]. intros sh o H. apply M. now apply (I sh o).
  - intros s i result R. unfold reader_onload. rewrite R.
    destruct (sendToIframe_posts_shapes pf (set_readers (remove_nth i (readers s)) s)
                (set_file (VStr result) (make_message txt options))) as [delta [E I]].
    exists delta. split; [exact E|]. intros sh o H.
    apply (message_shapes_autoSend (set_file (VStr result) (make_message txt options))).
    + cbn. apply or_else_autoSend.
    + now apply (I sh o).
  - intros s. unfold WidgetUI.sendMessage.
    destruct (WidgetUI.sendToFlutter s) as [o|].
    + destruct (send_all_posts_shapes pf o (WidgetUI.sendMessage_shapes txt options) s)
        as [delta [E I]].
      exists delta. split; [exact E|]. intros sh o' H. apply U1. now apply (I sh o').
    + exists []. split; [|intros ? ? []]. rewrite app_nil_r.
      unfold WidgetUI.not_ready.
      destruct (WidgetUI.iframe s), (WidgetUI.chatbotBaseUrl s) as [b|];
        try reflexivity. now destruct (negb (b =? "")).
  - intros s. unfold WidgetUI.setQuestion.
    destruct (WidgetUI.sendToFlutter s) as [o|].
    + destruct (send_all_posts_shapes pf o (WidgetUI.setQuestion_shapes txt options) s)
        as [delta [E I]].
      exists delta. split; [exact E|]. intros sh o' H. apply U2. now apply (I sh o').
    + exists []. split; [|intros ? ? []]. rewrite app_nil_r.
      unfold WidgetUI.not_ready.
      destruct (WidgetUI.iframe s), (WidgetUI.chatbotBaseUrl s) as [b|];
        try reflexivity. now destruct (negb (b =? "")).
Qed.

(* ------------------------------------------------------------------ *)
(** ** A token request that is refused *)

Lemma fetchToken_refused (pf : Platform) (s : State) (body : JsonBody)
      (cfg : FetchOutcome) (loc : Location) :
  fetchToken pf s (Response false body) cfg loc =
  fetchToken_catch (error_response_message body) (fetchToken_begin s).
Proof. reflexivity. Qed.

(** The state in which a failed token request leaves the component. *)
Lemma fetchToken_failed_state (s : State) (msg : string) :
  let s' := fetchToken_catch msg (fetchToken_begin s) in
  error s' = Some msg /\ loading s' = false /\
  fetches s' = fetches s ++ [tokenApiUrl (config s)] /\
  iframe s' = match iframeContainer s with
              | Some _ => option_map detach (iframe s)
              | None => iframe s
              end /\
  iframeContainer s' = match iframeContainer s with
                       | Some _ => Some (Markup (error_state_html msg))
                       | None => None
                       end /\
  events s' = events s /\ posted s' = posted s /\
  pendingMessages s' = pendingMessages s /\ iframeReady s' = iframeReady s.
Proof.
  destruct s as [c tk ld er io im ifr rdy q org cp lb ic po ev fe rd tm cn].
  unfold fetchToken_catch, fetchToken_begin, updateErrorState, updateLoadingState.
  destruct ic as [x|]; cbn; repeat split; now destruct ifr.
Qed.

(** C4.  When the token endpoint answers with a status that is not 2xx,
    the message taken from the JSON error body (its [error], else its
    [details], else a generic text; a generic text too when the body is not
    JSON) becomes [this.error] and is shown in the panel as the error
    state; [createIframe] is not reached, so no iframe is created and the
    config endpoint is not asked.  For a 500 answer with body
    [{"error":"bad key"}] the panel shows [Error: bad key]. *)
Theorem token_error_is_surfaced
        (pf : Platform) (s : State) (body : JsonBody) (cfg : FetchOutcome) (loc : Location) :
  let s' := fetchToken pf s (Response false body) cfg loc in
  let shown := fetchToken pf (construct demo_config) bad_key cfg loc in
  (error s' = Some (error_response_message body) /\ loading s' = false) /\
  (iframeContainer s <> None ->
   iframeContainer s' = Some (Markup (error_state_html (error_response_message body)))) /\
  (has_contentWindow s = false -> has_contentWindow s' = false) /\
  (iframe s = None -> iframe s' = None) /\
  (iframe s' = iframe s \/ iframe s' = option_map detach (iframe s)) /\
  fetches s' = fetches s ++ [tokenApiUrl (config s)] /\
  (forall m, error_response_message (BadJson m) = "Failed to generate token"%string) /\
  (forall fs e, lookup "error" fs = VStr e -> e <> ""%string ->
                error_response_message (Json (VObj fs)) = e) /\
  (forall fs d, truthy (lookup "error" fs) = false -> lookup "details" fs = VStr d ->
                d <> ""%string -> error_response_message (Json (VObj fs)) = d) /\
  (forall fs, truthy (lookup "error" fs) = false -> truthy (lookup "details" fs) = false ->
              error_response_message (Json (VObj fs)) = "Failed to generate chatbot token"%string) /\
  (error shown = Some "bad key"%string /\
   iframeContainer shown =
     Some (Markup ("<div class=" ++ dq ++ "error-state" ++ dq ++ ">Error: bad key</div>")%string) /\
   iframe shown = None /\
   fetches shown = ["/api/chatbot-token"%string]).
Proof.
  cbv zeta. rewrite fetchToken_refused.
  assert (T : forall x : string, x <> ""%string -> truthy (VStr x) = true).
  { intros x N. cbn. destruct (String.eqb_spec x ""); [contradiction | reflexivity]. }
  destruct (fetchToken_failed_state s (error_response_message body))
    as [Er [L [Fe [I [C _]]]]].
  repeat apply conj.
  - exact Er.
  - exact L.
  - intros N. rewrite C. destruct (iframeContainer s); [reflexivity | contradiction].
  - unfold has_contentWindow. rewrite I. intros H.
    destruct (iframeContainer s); [|exact H]. now destruct (iframe s).
  - intros H. rewrite I, H. now destruct (iframeContainer s).
  - rewrite I. destruct (iframeContainer s); auto.
  - exact Fe.
  - reflexivity.
  - intros fs e E N. unfold error_response_message. cbn. rewrite E.
    unfold or_else. now rewrite !(T e N).
  - intros fs d F0 E N. unfold error_response_message. cbn.
    unfold or_else at 2. rewrite F0, E. unfold or_else. now rewrite !(T d N).
  - intros fs F1 F2. unfold error_response_message. cbn.
    unfold or_else at 2. rewrite F1. unfold or_else. now rewrite F2.
  - reflexivity.
  - reflexivity.
  - reflexivity.
  - reflexivity.
Qed.

(* ------------------------------------------------------------------ *)
(** ** Inbound messages *)

Lemma nonnull_object_spec (v : value) :
  truthy v && typeof_object v = nonnull_object v.
Proof. destruct v as [| |[|]|x| |]; cbn; try reflexivity. now rewrite andb_false_r. Qed.

(** [sendToIframe] and the flush touch the queue and the log of posted
    messages and nothing else. *)
Lemma sendToIframe_bridge_only (pf : Platform) (s : State) (m : Message) :
  exists q p, fst (sendToIframe pf s m) = set_pendingMessages q (set_posted p s).
Proof.
  unfold sendToIframe. destruct (has_contentWindow s); cbn [negb].
  - destruct (post_each pf (chatbotOrigin s) (message_shapes m) (posted s)) as [log ok].
    exists (pendingMessages s), log. now destruct s.
  - exists (pendingMessages s ++ [m]), (posted s). now destruct s.
Qed.

Lemma send_each_bridge_only (pf : Platform) (ms : list Message) :
  forall s, exists q p, send_each pf s ms = set_pendingMessages q (set_posted p s).
Proof.
  induction ms as [|m ms IH]; intros s.
  - exists (pendingMessages s), (posted s). now destruct s.
  - rewrite send_each_cons.
    destruct (sendToIframe_bridge_only pf s m) as [q [p E]]. rewrite E.
    destruct (IH (set_pendingMessages q (set_posted p s))) as [q' [p' E']]. rewrite E'.
    exists q', p'. reflexivity.
Qed.

Lemma processPendingMessages_bridge_only (pf : Platform) (s : State) :
  exists q p, processPendingMessages pf s = set_pendingMessages q (set_posted p s).
Proof.
  unfold processPendingMessages.
  destruct ((0 <? length (pendingMessages s))%nat && iframeReady s).
  - fold (send_each pf s (pendingMessages s)).
    destruct (send_each_bridge_only pf (pendingMessages s) s) as [q [p E]]. rewrite E.
    exists [], p. reflexivity.
  - exists (pendingMessages s), (posted s). now destruct s.
Qed.

(** Every dispatched inbound message leaves its trace in the event log. *)
Lemma handleIframeMessage_events (pf : Platform) (s : State) (d : value) :
  events (handleIframeMessage pf s d) =
  events s ++ (if is_ready_message d then [("aventora:ready"%string, DInstance)] else [])
           ++ [("aventora:message"%string, DData d)].
Proof.
  unfold handleIframeMessage. destruct (is_ready_message d); cbn.
  - destruct (processPendingMessages_bridge_only pf (set_iframeReady true s)) as [q [p E]].
    rewrite E. cbn. now rewrite <- app_assoc.
  - reflexivity.
Qed.

(** What [messageHandler] lets through: an inbound message is handed to
    [handleIframeMessage] exactly when its origin is [chatbotOrigin] or
    [chatbotOrigin] is ["*"], and its payload is a non-null object; then the
    payload is republished as [aventora:message].  In every other case the
    state, and with it the queue, the ready flag and the log of dispatched
    events, is left as it was, so that a run goes on as if the message had
    never arrived. *)
Lemma inbound_message_filtered (pf : Platform) (s : State) (event : MessageEvent) :
  let origin_ok := (chatbotOrigin s =? "*")%string || (origin event =? chatbotOrigin s)%string in
  let s' := messageHandler pf s event in
  (origin_ok && nonnull_object (data event) = true ->
   s' = handleIframeMessage pf s (data event) /\
   In ("aventora:message"%string, DData (data event)) (events s')) /\
  (origin_ok && nonnull_object (data event) = false -> s' = s) /\
  (s' <> s ->
   (chatbotOrigin s = "*"%string \/ origin event = chatbotOrigin s) /\
   nonnull_object (data event) = true) /\
  (chatbotOrigin s <> "*"%string -> origin event <> chatbotOrigin s ->
   s' = s /\ events s' = events s /\ iframeReady s' = iframeReady s /\
   pendingMessages s' = pendingMessages s /\ posted s' = posted s /\
   forall es, run pf s (WindowMessage event :: es) = run pf s es).
Proof.
  cbv zeta.
  assert (M : messageHandler pf s event =
              if ((chatbotOrigin s =? "*")%string || (origin event =? chatbotOrigin s)%string)
                 && nonnull_object (data event)
              then handleIframeMessage pf s (data event) else s).
  { unfold messageHandler. rewrite nonnull_object_spec.
    destruct (chatbotOrigin s =? "*")%string, (origin event =? chatbotOrigin s)%string;
      cbn; reflexivity. }
  rewrite M. repeat apply conj.
  - intros H. rewrite H. split; [reflexivity|].
    rewrite handleIframeMessage_events. apply in_or_app. right.
    apply in_or_app. right. now left.
  - intros H. now rewrite H.
  - intros N.
    destruct (String.eqb_spec (chatbotOrigin s) "*") as [W|W];
      destruct (String.eqb_spec (origin event) (chatbotOrigin s)) as [O|O];
      destruct (nonnull_object (data event)); cbn in N; auto; contradiction.
  - intros W O.
    assert (E : messageHandler pf s event = s).
    { rewrite M.
      destruct (String.eqb_spec (chatbotOrigin s) "*"); [contradiction|].
      destruct (String.eqb_spec (origin event) (chatbotOrigin s)); [contradiction|].
      reflexivity. }
    rewrite <- M, E. repeat split; try reflexivity.
    intros es. unfold run. cbn [fold_left step]. rewrite E.
    now destruct (connected s).
Qed.

(** C5 (evaluated where the code departs from it).  The element is
    connected and its token request is in flight: no chatbot URL has been
    resolved, none has failed to parse, and there is no iframe, yet
    [chatbotOrigin] still holds the ["*"] the constructor gave it.  A
    ready message from any origin whatever passes the filter: the ready
    flag is set and two events are dispatched.  Once [createIframe] has
    resolved the origin, the same message from elsewhere leaves the
    component as it was. *)
Theorem foreign_message_handled_before_origin_is_resolved
        (pf : Platform) (c : Config) (o : string) :
  let s := run pf (construct c) [TokenRequested] in
  let event := {| origin := o; data := VObj [("type", VStr "flutter_ready")] |} in
  let s' := run pf s [WindowMessage event] in
  let resolved := run lenient (construct demo_config)
                    [TokenRequested; TokenAnswered token_ok;
                     IframeRequested config_ok example_location] in
  (connected s = true /\ iframe s = None /\ chatbotOrigin s = "*"%string /\
   iframeReady s = false /\ events s = []) /\
  (iframeReady s' = true /\
   events s' = [("aventora:ready"%string, DInstance);
                ("aventora:message"%string, DData (data event))]) /\
  (chatbotOrigin resolved = "https://demo.aventora.app"%string /\
   run lenient resolved [WindowMessage early_ready] = resolved).
Proof.
  cbv zeta. split; [repeat split|split; [split; reflexivity|]].
  vm_compute. split; reflexivity.
Qed.

(* ------------------------------------------------------------------ *)
(** ** Resolving the chatbot URL *)

(** C6 (as worded, refuted).  The label rule is not applied to every host
    name with two labels or more: for [app.localhost] and for [127.0.0.1]
    the derived URL is a localhost URL that does not contain the tenant's
    subdomain of the last two labels.  Nor is the derived URL a function of
    host name and tenant alone: for [localhost] it changes with the port of
    the page. *)
Lemma fallback_is_not_the_label_rule :
  (2 <= length (split_dot "app.localhost") /\
   fallbackUrl {| hostname := "app.localhost"; port := "" |} "demo"
     = "http://demo.localhost:3000"%string /\
   includes (claimed_subdomain "app.localhost" "demo")
            (fallbackUrl {| hostname := "app.localhost"; port := "" |} "demo") = false) /\
  (2 <= length (split_dot "127.0.0.1") /\
   fallbackUrl {| hostname := "127.0.0.1"; port := "" |} "demo"
     = "http://localhost:3000"%string /\
   includes (claimed_subdomain "127.0.0.1" "demo")
            (fallbackUrl {| hostname := "127.0.0.1"; port := "" |} "demo") = false) /\
  fallbackUrl {| hostname := "localhost"; port := "" |} "demo"
    <> fallbackUrl {| hostname := "localhost"; port := "8080" |} "demo".
Proof.
  repeat split; try reflexivity; try (cbn; lia). discriminate.
Qed.

Lemma slice_last2_spec (init : list string) (a b : string) :
  slice_last2 (init ++ [a; b]) = [a; b].
Proof.
  unfold slice_last2. rewrite length_app. cbn [length].
  replace (length init + 2 - 2) with (length init) by lia.
  rewrite skipn_app, skipn_all, Nat.sub_diag. reflexivity.
Qed.

(** C6 (amended).  An explicit chatbot URL is returned as it is and nothing
    is fetched.  Without one the config endpoint is asked once; a truthy
    [chatbotBaseUrl] in an ok JSON answer is returned; on a network error, a
    status that is not ok, a body that is not JSON or lacks a truthy
    [chatbotBaseUrl], the URL is derived from the page's host name, its port
    and the tenant: when the host name contains [localhost] or [127.0.0.1],
    [http://localhost:PORT] for exactly these two names and
    [http://TENANT.localhost:PORT] otherwise, the port defaulting to 3000;
    for every other host name, [https://TENANT.] followed by the last two
    labels when there are two or more, and [https://TENANT.aventora.app]
    when there is one. *)
Theorem chatbot_url_resolution (s : State) (cfg : FetchOutcome) (loc : Location) :
  let host := hostname loc in
  let t := tenant (config s) in
  let dev := includes "localhost" host || includes "127.0.0.1" host in
  let p := (if port loc =? "" then "3000" else port loc)%string in
  let r := getChatbotUrl s cfg loc in
  (chatbotUrl (config s) <> ""%string -> r = (s, VStr (chatbotUrl (config s)))) /\
  (chatbotUrl (config s) = ""%string ->
   fetches (fst r) = fetches s ++ ["/api/config"%string] /\
   (forall u, config_answer cfg = Some u -> snd r = u) /\
   (config_answer cfg = None -> snd r = VStr (fallbackUrl loc t))) /\
  ((forall m, config_answer (NetworkError m) = None) /\
   (forall b, config_answer (Response false b) = None) /\
   (forall m, config_answer (Response true (BadJson m)) = None) /\
   (forall fs, truthy (lookup "chatbotBaseUrl" fs) = false ->
               config_answer (Response true (Json (VObj fs))) = None) /\
   (forall fs, truthy (lookup "chatbotBaseUrl" fs) = true ->
               config_answer (Response true (Json (VObj fs)))
               = Some (lookup "chatbotBaseUrl" fs))) /\
  (host = "localhost"%string \/ host = "127.0.0.1"%string ->
   fallbackUrl loc t = ("http://localhost:" ++ p)%string) /\
  (dev = true -> host <> "localhost"%string -> host <> "127.0.0.1"%string ->
   fallbackUrl loc t = ("http://" ++ t ++ ".localhost:" ++ p)%string) /\
  (dev = false -> forall init a b, split_dot host = init ++ [a; b] ->
   fallbackUrl loc t = ("https://" ++ t ++ "." ++ a ++ "." ++ b)%string) /\
  (dev = false -> forall h, split_dot host = [h] ->
   fallbackUrl loc t = ("https://" ++ t ++ ".aventora.app")%string).
Proof.
  cbv zeta. unfold getChatbotUrl. repeat apply conj.
  - intros N. destruct (String.eqb_spec (chatbotUrl (config s)) ""); [contradiction|].
    reflexivity.
  - intros E. rewrite E. cbn. repeat split.
    + now destruct (config_answer cfg).
    + intros u A. now rewrite A.
    + intros A. now rewrite A.
  - reflexivity.
  - reflexivity.
  - reflexivity.
  - intros fs F. cbn. now rewrite F.
  - intros fs F. cbn. now rewrite F.
  - intros [E|E]; unfold fallbackUrl; rewrite E; reflexivity.
  - intros D N1 N2. unfold fallbackUrl. rewrite D.
    destruct (String.eqb_spec (hostname loc) "localhost"); [contradiction|].
    destruct (String.eqb_spec (hostname loc) "127.0.0.1"); [contradiction|].
    reflexivity.
  - intros D init a b E. unfold fallbackUrl. rewrite D, E, slice_last2_spec.
    rewrite length_app. cbn [length].
    replace (2 <=? length init + 2)%nat with true by (symmetry; apply Nat.leb_le; lia).
    reflexivity.
  - intros D h E. unfold fallbackUrl. rewrite D, E. reflexivity.
Qed.

(* ------------------------------------------------------------------ *)
(** ** Events announcing the commands *)

(** [open], [close], [setQuestion] and [sendMessage] without a [File]
    announce themselves. *)
Lemma commands_announced (pf : Platform) (s : State) (txt : string) (options : Options) :
  (chatPanel s <> None ->
   events (open s) = events s ++ [("aventora:opened"%string, DInstance)]) /\
  (chatPanel s <> None ->
   events (setQuestion s txt options) = events s ++ [("aventora:opened"%string, DInstance)]) /\
  (chatPanel s <> None ->
   events (close s) = events s ++ [("aventora:closed"%string, DInstance)]) /\
  (instanceof_File (file (make_message txt options)) = false ->
   events (sendMessage pf s txt options)
   = events s ++ [("aventora:message-sent"%string, DSent txt options)]).
Proof.
  repeat apply conj.
  - intros N. unfold open. destruct (chatPanel s); [|contradiction].
    cbn. now destruct (launcherButton s).
  - intros N. unfold setQuestion, open. destruct (chatPanel s); [|contradiction].
    cbn. now destruct (launcherButton s).
  - intros N. unfold close. destruct (chatPanel s); [|contradiction].
    cbn. now destruct (launcherButton s).
  - intros F. unfold sendMessage. rewrite F. cbn.
    destruct (sendToIframe_bridge_only pf s (make_message txt options)) as [q [p E]].
    now rewrite E.
Qed.

Lemma make_message_File (txt : string) (a : value) (name type : string) :
  make_message txt {| opt_autoSend := a; opt_file := VFile name type |}
  = {| text := txt; autoSend := or_else a (VBool false); file := VFile name type |}.
Proof. reflexivity. Qed.

(** C7 (evaluated where the code departs from it).  A [sendMessage] call
    whose [file] option is a [File] returns after starting the read: it
    dispatches no event, and neither does the read's [onload] when it later
    hands the command to the bridge.  [aventora:message-sent] is never
    dispatched for such a call. *)
Theorem sendMessage_with_File_announces_nothing
        (pf : Platform) (s : State) (txt : string) (a : value) (name type : string) :
  let options := {| opt_autoSend := a; opt_file := VFile name type |} in
  events (sendMessage pf s txt options) = events s /\
  readers (sendMessage pf s txt options) = readers s ++ [make_message txt options] /\
  (forall s' i result, events (reader_onload pf s' i result) = events s') /\
  events (reader_onload lenient
            (sendMessage lenient (construct demo_config) "Here's the file"
               {| opt_autoSend := VBool true; opt_file := VFile "report.pdf" "application/pdf" |})
            0 "data:application/pdf;base64,JVBERi0=") = [].
Proof.
  cbv zeta. repeat apply conj; try reflexivity.
  intros s' i result. unfold reader_onload.
  destruct (nth_error (readers s') i) as [m|]; [|reflexivity].
  destruct (sendToIframe_bridge_only pf (set_readers (remove_nth i (readers s')) s')
              (set_file (VStr result) m)) as [q [p E]].
  now rewrite E.
Qed.

(* ------------------------------------------------------------------ *)
(** ** Files are encoded before they reach the bridge *)

(** The shapes of a message without a [File] carry none. *)
Lemma message_shapes_no_File (m : Message) :
  instanceof_File (file m) = false ->
  forall sh, In sh (message_shapes m) -> shape_has_File sh = false.
Proof.
  intros F sh H. unfold message_shapes in H. cbn in H.
  destruct H as [<-|[<-|[<-|[<-|[]]]]]; exact F.
Qed.

Lemma no_File_same_bridge (s s' : State) :
  pendingMessages s' = pendingMessages s -> posted s' = posted s ->
  no_File_in_bridge s -> no_File_in_bridge s'.
Proof. unfold no_File_in_bridge. intros -> ->. auto. Qed.

Lemma sendToIframe_keeps_no_File (pf : Platform) (s : State) (m : Message) :
  instanceof_File (file m) = false ->
  no_File_in_bridge s -> no_File_in_bridge (fst (sendToIframe pf s m)).
Proof.
  intros F [Q P]. split.
  - unfold sendToIframe. destruct (has_contentWindow s); cbn [negb].
    + now destruct (post_each pf (chatbotOrigin s) (message_shapes m) (posted s)).
    + cbn. apply Forall_app. split; [exact Q | now constructor].
  - destruct (sendToIframe_posts_shapes pf s m) as [delta [E I]]. rewrite E.
    apply Forall_app. split; [exact P|].
    apply Forall_forall. intros [sh o] H. cbn.
    apply (message_shapes_no_File m F). now apply (I sh o).
Qed.

Lemma send_each_keeps_no_File (pf : Platform) (ms : list Message) :
  Forall (fun m => instanceof_File (file m) = false) ms ->
  forall s, no_File_in_bridge s -> no_File_in_bridge (send_each pf s ms).
Proof.
  induction 1 as [|m ms F _ IH]; intros s H; [exact H|].
  rewrite send_each_cons. apply IH. now apply sendToIframe_keeps_no_File.
Qed.

Lemma processPendingMessages_keeps_no_File (pf : Platform) (s : State) :
  no_File_in_bridge s -> no_File_in_bridge (processPendingMessages pf s).
Proof.
  intros H. unfold processPendingMessages.
  destruct ((0 <? length (pendingMessages s))%nat && iframeReady s); [|exact H].
  fold (send_each pf s (pendingMessages s)).
  destruct (send_each_keeps_no_File pf (pendingMessages s) (proj1 H) s H) as [_ P].
  split; [constructor | exact P].
Qed.

Lemma sendMessage_keeps_no_File (pf : Platform) (s : State) (txt : string) (options : Options) :
  no_File_in_bridge s -> no_File_in_bridge (sendMessage pf s txt options).
Proof.
  intros H. unfold sendMessage.
  destruct (instanceof_File (file (make_message txt options))) eqn:F.
  - exact H.
  - apply (no_File_same_bridge (fst (sendToIframe pf s (make_message txt options))));
      try reflexivity.
    now apply sendToIframe_keeps_no_File.
Qed.

Ltac bridge_untouched s :=
  destruct s as [c tk ld er io im ifr rdy q org cp lb ic po ev fe rd tm cn];
  cbn;
  repeat match goal with
         | |- context [match ?x with _ => _ end] => destruct x; cbn
         end;
  reflexivity.

Lemma getChatbotUrl_bridge (s : State) (cfg : FetchOutcome) (loc : Location) :
  pendingMessages (fst (getChatbotUrl s cfg loc)) = pendingMessages s /\
  posted (fst (getChatbotUrl s cfg loc)) = posted s.
Proof.
  unfold getChatbotUrl.
  destruct (negb (chatbotUrl (config s) =? "")%string); [|destruct (config_answer cfg)];
    split; reflexivity.
Qed.

(** The handlers that do not reach the bridge leave the queue and the log
    of posted messages as they were. *)
Lemma bridge_untouched_by (pf : Platform) (s : State) :
  (forall txt o, pendingMessages (setQuestion s txt o) = pendingMessages s /\
                 posted (setQuestion s txt o) = posted s) /\
  (pendingMessages (open s) = pendingMessages s /\ posted (open s) = posted s) /\
  (pendingMessages (close s) = pendingMessages s /\ posted (close s) = posted s) /\
  (pendingMessages (iframe_onerror s) = pendingMessages s /\
   posted (iframe_onerror s) = posted s) /\
  (pendingMessages (fetchToken_begin s) = pendingMessages s /\
   posted (fetchToken_begin s) = posted s) /\
  (forall tok, pendingMessages (fst (fetchToken_settle s tok)) = pendingMessages s /\
               posted (fst (fetchToken_settle s tok)) = posted s) /\
  (forall cfg loc, pendingMessages (createIframe pf s cfg loc) = pendingMessages s /\
                   posted (createIframe pf s cfg loc) = posted s).
Proof.
  repeat match goal with
         | |- _ /\ _ => split
         | |- forall _, _ => intro
         end.
  - unfold setQuestion, open. bridge_untouched s.
  - unfold setQuestion, open. bridge_untouched s.
  - unfold open. bridge_untouched s.
  - unfold open. bridge_untouched s.
  - unfold close. bridge_untouched s.
  - unfold close. bridge_untouched s.
  - unfold iframe_onerror, updateErrorState. bridge_untouched s.
  - unfold iframe_onerror, updateErrorState. bridge_untouched s.
  - unfold fetchToken_begin, updateLoadingState. bridge_untouched s.
  - unfold fetchToken_begin, updateLoadingState. bridge_untouched s.
  - unfold fetchToken_settle, fetchToken_catch, updateErrorState.
    destruct tok as [m|[|] [m|d]]; try destruct (get d "token"); bridge_untouched s.
  - unfold fetchToken_settle, fetchToken_catch, updateErrorState.
    destruct tok as [m|[|] [m|d]]; try destruct (get d "token"); bridge_untouched s.
  - unfold createIframe. destruct (negb (truthy (token s))); [reflexivity|].
    unfold createIframe_resume.
    destruct (getChatbotUrl_bridge s cfg loc) as [G _].
    destruct (getChatbotUrl s cfg loc) as [s1 base]. cbn [fst] in G. rewrite <- G.
    bridge_untouched s1.
  - unfold createIframe. destruct (negb (truthy (token s))); [reflexivity|].
    unfold createIframe_resume.
    destruct (getChatbotUrl_bridge s cfg loc) as [_ G].
    destruct (getChatbotUrl s cfg loc) as [s1 base]. cbn [fst] in G. rewrite <- G.
    bridge_untouched s1.
Qed.

(** Every event keeps [File] objects out of the queue and out of the log of
    posted messages. *)
Lemma step_keeps_no_File (pf : Platform) (s : State) (e : Event) :
  no_File_in_bridge s -> no_File_in_bridge (step pf s e).
Proof.
  intros H.
  destruct (bridge_untouched_by pf s) as [Bq [Bo [Bc [Be [Bb [Bs Bi]]]]]].
  destruct e as [txt o|txt o| | |i|i r|ev| | | |tok|cfg loc|]; cbn [step].
  - now apply sendMessage_keeps_no_File.
  - now apply (no_File_same_bridge s); [apply Bq | apply Bq |].
  - now apply (no_File_same_bridge s); [apply Bo | apply Bo |].
  - now apply (no_File_same_bridge s); [apply Bc | apply Bc |].
  - unfold timer_fire. destruct (nth_error (timers s) i) as [[txt o]|]; [|exact H].
    apply sendMessage_keeps_no_File. exact H.
  - unfold reader_onload. destruct (nth_error (readers s) i) as [m|]; [|exact H].
    apply sendToIframe_keeps_no_File; [reflexivity | exact H].
  - destruct (connected s); [|exact H]. unfold messageHandler.
    destruct (negb (chatbotOrigin s =? "*")%string
              && negb (origin ev =? chatbotOrigin s)%string); [exact H|].
    destruct (truthy (data ev) && typeof_object (data ev)); [|exact H].
    unfold handleIframeMessage. destruct (is_ready_message (data ev)); [|exact H].
    apply (no_File_same_bridge (processPendingMessages pf (set_iframeReady true s)));
      try reflexivity.
    now apply processPendingMessages_keeps_no_File.
  - unfold iframe_onload.
    apply (no_File_same_bridge (processPendingMessages pf (set_iframeReady true s)));
      try reflexivity.
    now apply processPendingMessages_keeps_no_File.
  - now apply (no_File_same_bridge s); [apply Be | apply Be |].
  - unfold connectedCallback.
    destruct (bridge_untouched_by pf (set_connected true s))
      as [_ [_ [_ [_ [[B1 B2] _]]]]].
    apply (no_File_same_bridge s); [exact B1 | exact B2 | exact H].
  - now apply (no_File_same_bridge s); [apply Bs | apply Bs |].
  - now apply (no_File_same_bridge s); [apply Bi | apply Bi |].
  - apply (no_File_same_bridge s); [reflexivity | reflexivity | exact H].
Qed.

Lemma run_keeps_no_File (pf : Platform) (es : list Event) :
  forall s, no_File_in_bridge s -> no_File_in_bridge (run pf s es).
Proof.
  unfold run. induction es as [|e es IH]; intros s H; [exact H|].
  cbn [fold_left]. apply IH. now apply step_keeps_no_File.
Qed.

(** C8.  A [sendMessage] call whose [file] option is a [File] adds nothing
    to the queue and posts nothing: the command only waits on its read.
    When the read completes with the data URL [result], the command that
    is queued (no content window) or whose shapes are posted (content
    window attached) carries the string [result] as its file, not the
    [File].  Whatever the host page and the browser do to a freshly
    constructed component, no [File] object is ever in the queue or among
    the posted messages. *)
Theorem file_is_encoded_before_the_bridge
        (pf : Platform) (s : State) (txt : string) (a : value) (name type : string) :
  let options := {| opt_autoSend := a; opt_file := VFile name type |} in
  let s1 := sendMessage pf s txt options in
  (pendingMessages s1 = pendingMessages s /\ posted s1 = posted s /\
   readers s1 = readers s ++ [make_message txt options] /\
   nth_error (readers s1) (length (readers s)) = Some (make_message txt options)) /\
  (forall s' i result,
     nth_error (readers s') i = Some (make_message txt options) ->
     let encoded := set_file (VStr result) (make_message txt options) in
     let s2 := reader_onload pf s' i result in
     file encoded = VStr result /\ instanceof_File (file encoded) = false /\
     (forall sh, In sh (message_shapes encoded) ->
                 file_field sh = Some (VStr result)) /\
     (has_contentWindow s' = false ->
      pendingMessages s2 = pendingMessages s' ++ [encoded] /\ posted s2 = posted s') /\
     (has_contentWindow s' = true ->
      pendingMessages s2 = pendingMessages s' /\
      exists delta, posted s2 = posted s' ++ delta /\
                    forall sh o, In (sh, o) delta -> In sh (message_shapes encoded)) /\
     (has_contentWindow s' = true -> accepted pf (chatbotOrigin s') encoded ->
      posted s2 = posted s' ++ deliveries (chatbotOrigin s') [encoded]) /\
     readers s2 = remove_nth i (readers s')) /\
  (forall c es, no_File_in_bridge (run pf (construct c) es)).
Proof.
  cbv zeta. split; [|split].
  - unfold sendMessage. rewrite make_message_File. cbn. repeat split.
    rewrite nth_error_app2 by lia. now rewrite Nat.sub_diag.
  - intros s' i result R. unfold reader_onload. rewrite R.
    set (m := set_file (VStr result) _).
    set (s0 := set_readers (remove_nth i (readers s')) s').
    repeat apply conj.
    + reflexivity.
    + reflexivity.
    + intros sh H. unfold message_shapes in H. cbn in H.
      destruct H as [<-|[<-|[<-|[<-|[]]]]]; reflexivity.
    + intros H. rewrite (sendToIframe_detached pf s0 m) by exact H. auto.
    + intros H.
      destruct (sendToIframe_posts_shapes pf s0 m) as [delta [E I]].
      split.
      * unfold sendToIframe. change (has_contentWindow s0) with (has_contentWindow s').
        rewrite H. cbn [negb].
        now destruct (post_each pf (chatbotOrigin s0) (message_shapes m) (posted s0)).
      * exists delta. split; [exact E|]. intros sh o K. now apply (I sh o).
    + intros H A. now rewrite (sendToIframe_attached pf s0 m H A).
    + destruct (sendToIframe_bridge_only pf s0 m) as [q [p E]]. now rewrite E.
  - intros c es. apply run_keeps_no_File. split; constructor.
Qed.

(* ------------------------------------------------------------------ *)
(** ** Commands after a failure *)




(* ------------------------------------------------------------------ *)
(** ** Escaping of error text *)

(** Induction following the two-character look-ahead of [escapeHtml]. *)
Lemma string_pair_ind (P : string -> Prop) :
  P ""%string ->
  (forall c, P (String c "")) ->
  (forall c1 c2 s, P s -> P (String c2 s) -> P (String c1 (String c2 s))) ->
  forall s, P s.
Proof.
  intros H0 H1 H2.
  assert (K : forall s, P s /\ forall c, P (String c s)).
  { induction s as [|c s [A B]].
    - split; [exact H0 | exact H1].
    - split; [apply B | intros c'; apply H2; [exact A | apply B]]. }
  intros s. apply K.
Qed.

Lemma escapeHtml_step (c : ascii) (rest : string) :
  escapeHtml (String c rest) =
  if (c =? "&")%char then ("&amp;" ++ escapeHtml rest)%string
  else if (c =? "<")%char then ("&lt;" ++ escapeHtml rest)%string
  else if (c =? ">")%char then ("&gt;" ++ escapeHtml rest)%string
  else if nbsp_at c rest then ("&nbsp;" ++ escapeHtml (drop 1 rest))%string
  else String c (escapeHtml rest).
Proof.
  destruct rest as [|c2 rest2]; cbn [escapeHtml nbsp_at drop].
  - now destruct (c =? "&")%char, (c =? "<")%char, (c =? ">")%char.
  - reflexivity.
Qed.

Lemma inert_plain (c : ascii) (s : string) :
  (c =? "&")%char = false -> (c =? "<")%char = false -> (c =? ">")%char = false ->
  inert (String c s) = inert s.
Proof. intros A L G. cbn [inert]. now rewrite A, L, G. Qed.

Lemma inert_reference (x : string) :
  inert ("&amp;" ++ x) = inert x /\ inert ("&lt;" ++ x) = inert x /\
  inert ("&gt;" ++ x) = inert x /\ inert ("&nbsp;" ++ x) = inert x.
Proof. repeat split; reflexivity. Qed.

Lemma escapeHtml_inert : forall s, inert (escapeHtml s) = true.
Proof.
  assert (S : forall c rest, inert (escapeHtml rest) = true ->
                             inert (escapeHtml (drop 1 rest)) = true ->
                             inert (escapeHtml (String c rest)) = true).
  { intros c rest IH IH'. rewrite escapeHtml_step.
    destruct (inert_reference (escapeHtml rest)) as [Ra [Rl [Rg _]]].
    destruct (inert_reference (escapeHtml (drop 1 rest))) as [_ [_ [_ Rn]]].
    destruct (c =? "&")%char eqn:A; [now rewrite Ra|].
    destruct (c =? "<")%char eqn:L; [now rewrite Rl|].
    destruct (c =? ">")%char eqn:G; [now rewrite Rg|].
    destruct (nbsp_at c rest); [now rewrite Rn|].
    now rewrite inert_plain. }
  apply string_pair_ind.
  - reflexivity.
  - intros c. now apply S.
  - intros c1 c2 s IH1 IH2. apply S; [exact IH2 | exact IH1].
Qed.

Lemma inert_no_tag_characters : forall s,
  inert s = true -> count_char "<" s = 0 /\ count_char ">" s = 0.
Proof.
  induction s as [|c s IH]; intros H; [now split|].
  cbn [inert] in H. apply andb_prop in H as [H Hs].
  apply andb_prop in H as [H _]. apply andb_prop in H as [L G].
  destruct (IH Hs) as [I1 I2]. cbn [count_char]. rewrite I1, I2.
  destruct (c =? "<")%char, (c =? ">")%char; try discriminate. now split.
Qed.

Lemma decode_fuel_escapeHtml : forall s k,
  String.length (escapeHtml s) <= k -> decode_fuel k (escapeHtml s) = s.
Proof.
  assert (S : forall c rest,
             (forall k, String.length (escapeHtml rest) <= k ->
                        decode_fuel k (escapeHtml rest) = rest) ->
             (forall k, String.length (escapeHtml (drop 1 rest)) <= k ->
                        decode_fuel k (escapeHtml (drop 1 rest)) = drop 1 rest) ->
             forall k, String.length (escapeHtml (String c rest)) <= k ->
                       decode_fuel k (escapeHtml (String c rest)) = String c rest).
  { intros c rest IH IH' k. rewrite escapeHtml_step.
    destruct (c =? "&")%char eqn:A.
    { apply Ascii.eqb_eq in A. subst c. intros H. cbn in H.
      destruct k as [|k]; [lia|]. cbn. f_equal. apply IH. lia. }
    destruct (c =? "<")%char eqn:L.
    { apply Ascii.eqb_eq in L. subst c. intros H. cbn in H.
      destruct k as [|k]; [lia|]. cbn. f_equal. apply IH. lia. }
    destruct (c =? ">")%char eqn:G.
    { apply Ascii.eqb_eq in G. subst c. intros H. cbn in H.
      destruct k as [|k]; [lia|]. cbn. f_equal. apply IH. lia. }
    destruct (nbsp_at c rest) eqn:Nb.
    { destruct rest as [|c2 rest2]; [discriminate|]. cbn [nbsp_at] in Nb.
      apply andb_prop in Nb as [N1 N2].
      apply Ascii.eqb_eq in N1, N2. subst c c2. intros H. cbn in H.
      destruct k as [|k]; [lia|]. cbn. do 2 f_equal. apply (IH' k). cbn. lia. }
    intros H. cbn in H. destruct k as [|k]; [lia|].
    cbn [decode_fuel]. rewrite A. f_equal. apply IH. lia. }
  refine (string_pair_ind
            (fun s => forall k, String.length (escapeHtml s) <= k ->
                                decode_fuel k (escapeHtml s) = s) _ _ _).
  - intros [|k]; reflexivity.
  - intros c. apply S; intros [|k]; reflexivity.
  - intros c1 c2 s IH1 IH2. apply S; [exact IH2 | exact IH1].
Qed.

Lemma count_char_app (c : ascii) (a b : string) :
  count_char c (a ++ b)%string = count_char c a + count_char c b.
Proof. induction a as [|d a IH]; cbn; [reflexivity | rewrite IH; lia]. Qed.

Lemma error_state_html_tags (msg : string) :
  count_char "<" (error_state_html msg) = 2 /\ count_char ">" (error_state_html msg) = 2.
Proof.
  destruct (inert_no_tag_characters _ (escapeHtml_inert msg)) as [L G].
  unfold error_state_html, attr. rewrite !count_char_app, L, G. now split.
Qed.

(** C10.  An error string reaches the panel only through [escapeHtml]:
    [updateErrorState] and [getHTML] both wrap [escapeHtml(this.error)] in
    the error-state element, and a refused token request shows the server's
    message that way.  The escaped text contains no [<] and no [>], each of
    its [&] opens one of the references [&amp;], [&lt;], [&gt;], [&nbsp;],
    and it reads back as the original string; so the markup has exactly the
    tags of its template whatever the error string is. *)
Theorem error_text_is_escaped (s : State) (msg : string) (body : JsonBody) :
  (Html.inert (Html.escapeHtml msg) = true /\
   count_char "<" (Html.escapeHtml msg) = 0 /\
   count_char ">" (Html.escapeHtml msg) = 0 /\
   Html.decode (Html.escapeHtml msg) = msg) /\
  (error_state_html msg
   = ("<div class=" ++ dq ++ "error-state" ++ dq ++ ">Error: "
      ++ Html.escapeHtml msg ++ "</div>")%string /\
   count_char "<" (error_state_html msg) = 2 /\
   count_char ">" (error_state_html msg) = 2) /\
  (iframeContainer s <> None ->
   iframeContainer (updateErrorState s)
   = Some (Markup (error_state_html (error_text (error s))))) /\
  (iframeContainer s <> None ->
   iframeContainer (fetchToken_catch (error_response_message body) (fetchToken_begin s))
   = Some (Markup (error_state_html (error_response_message body)))) /\
  (count_char "<" (getHTML s)
   = 10 + (if loading s then 2 else 0) + (if error_truthy (error s) then 2 else 0) /\
   count_char ">" (getHTML s)
   = 10 + (if loading s then 2 else 0) + (if error_truthy (error s) then 2 else 0)).
Proof.
  destruct (inert_no_tag_characters _ (escapeHtml_inert msg)) as [L G].
  repeat apply conj.
  - apply escapeHtml_inert.
  - exact L.
  - exact G.
  - apply decode_fuel_escapeHtml. lia.
  - unfold error_state_html, attr, dq. cbn. reflexivity.
  - exact (proj1 (error_state_html_tags msg)).
  - exact (proj2 (error_state_html_tags msg)).
  - intros N. unfold updateErrorState. destruct (iframeContainer s); [reflexivity|contradiction].
  - intros N. destruct (fetchToken_failed_state s (error_response_message body))
      as [_ [_ [_ [_ [C _]]]]].
    rewrite C. destruct (iframeContainer s); [reflexivity|contradiction].
  - unfold getHTML, container_inner, line. rewrite !count_char_app.
    destruct (error_state_html_tags (error_text (error s))) as [E _].
    destruct (loading s), (error_truthy (error s)); rewrite ?E; reflexivity.
  - unfold getHTML, container_inner, line. rewrite !count_char_app.
    destruct (error_state_html_tags (error_text (error s))) as [_ E].
    destruct (loading s), (error_truthy (error s)); rewrite ?E; reflexivity.
Qed.

(* ================================================================== *)
(** * Further properties *)

(* ------------------------------------------------------------------ *)
(** ** The panel and the launcher *)

Lemma sendToIframe_panel_view (pf : Platform) (s : State) (m : Message) :
  panel_view (fst (sendToIframe pf s m)) = panel_view s.
Proof.
  destruct (sendToIframe_bridge_only pf s m) as [q [p E]]. now rewrite E.
Qed.

Lemma processPendingMessages_panel_view (pf : Platform) (s : State) :
  panel_view (processPendingMessages pf s) = panel_view s.
Proof.
  destruct (processPendingMessages_bridge_only pf s) as [q [p E]]. now rewrite E.
Qed.

Lemma sendMessage_panel_view (pf : Platform) (s : State) (txt : string) (o : Options) :
  panel_view (sendMessage pf s txt o) = panel_view s.
Proof.
  unfold sendMessage. destruct (instanceof_File (file (make_message txt o))).
  - reflexivity.
  - change (panel_view (fst (sendToIframe pf s (make_message txt o))) = panel_view s).
    apply sendToIframe_panel_view.
Qed.

Lemma messageHandler_panel_view (pf : Platform) (s : State) (ev : MessageEvent) :
  panel_view (messageHandler pf s ev) = panel_view s.
Proof.
  unfold messageHandler.
  destruct (negb (chatbotOrigin s =? "*")%string
            && negb (origin ev =? chatbotOrigin s)%string); [reflexivity|].
  destruct (truthy (data ev) && typeof_object (data ev)); [|reflexivity].
  unfold handleIframeMessage. destruct (is_ready_message (data ev)); [|reflexivity].
  change (panel_view (processPendingMessages pf (set_iframeReady true s)) = panel_view s).
  now rewrite processPendingMessages_panel_view.
Qed.

Lemma fetchToken_begin_panel_view (s : State) :
  panel_view (fetchToken_begin s) = panel_view s.
Proof. unfold fetchToken_begin, updateLoadingState. bridge_untouched s. Qed.

(** Only [open], [close] and [setQuestion] touch the panel. *)
Lemma step_panel_view (pf : Platform) (s : State) (e : Event) :
  match e with
  | CallOpen | CallClose | CallSetQuestion _ _ => True
  | _ => panel_view (step pf s e) = panel_view s
  end.
Proof.
  destruct e as [txt o|txt o| | |i|i r|ev| | | |tok|cfg loc|]; cbn [step]; try exact I.
  - apply sendMessage_panel_view.
  - unfold timer_fire. destruct (nth_error (timers s) i) as [[txt o]|]; [|reflexivity].
    now rewrite sendMessage_panel_view.
  - unfold reader_onload. destruct (nth_error (readers s) i) as [m|]; [|reflexivity].
    now rewrite sendToIframe_panel_view.
  - destruct (connected s); [apply messageHandler_panel_view | reflexivity].
  - unfold iframe_onload.
    change (panel_view (processPendingMessages pf (set_iframeReady true s)) = panel_view s).
    now rewrite processPendingMessages_panel_view.
  - unfold iframe_onerror, updateErrorState. bridge_untouched s.
  - unfold connectedCallback. now rewrite fetchToken_begin_panel_view.
  - unfold fetchToken_settle, fetchToken_catch, updateErrorState.
    destruct tok as [m|[|] [m|d]]; try destruct (get d "token"); bridge_untouched s.
  - unfold createIframe. destruct (negb (truthy (token s))); [reflexivity|].
    unfold createIframe_resume.
    assert (G : panel_view (fst (getChatbotUrl s cfg loc)) = panel_view s).
    { unfold getChatbotUrl.
      destruct (negb (chatbotUrl (config s) =? "")%string); [|destruct (config_answer cfg)];
        reflexivity. }
    destruct (getChatbotUrl s cfg loc) as [s1 base]. cbn [fst] in G. rewrite <- G.
    bridge_untouched s1.
  - reflexivity.
Qed.

Lemma open_consistent (s : State) : panel_consistent s -> panel_consistent (open s).
Proof.
  intros [_ [[p [P _]] [d [L _]]]]. unfold open, panel_consistent. rewrite P. cbn.
  rewrite L. cbn. split; [reflexivity|]. split.
  - eexists. repeat split.
  - exists "none"%string. split; [reflexivity|]. split; [auto | discriminate].
Qed.

Lemma close_consistent (s : State) : panel_consistent s -> panel_consistent (close s).
Proof.
  intros [_ [[p [P _]] [d [L _]]]]. unfold close, panel_consistent. rewrite P. cbn.
  rewrite L. cbn. split; [reflexivity|]. split.
  - eexists. repeat split.
  - exists "flex"%string. split; [reflexivity|]. split; [discriminate | intros _; discriminate].
Qed.

Lemma panel_consistent_same_view (s s' : State) :
  panel_view s' = panel_view s -> panel_consistent s -> panel_consistent s'.
Proof.
  unfold panel_view, panel_consistent. intros E. inversion E as [[E1 E2 E3 E4]].
  now rewrite E1, E2, E3, E4.
Qed.

(** X1.  However the host page and the browser drive a freshly constructed
    component, its panel state stays coherent: [isMinimized] is the
    negation of [isOpen], the panel is displayed with class [open] exactly
    when [isOpen] holds, and the launcher is hidden exactly while the panel
    is open.  Nothing but [open], [close] and [setQuestion] changes what is
    shown. *)
Theorem panel_stays_consistent (pf : Platform) (c : Config) (es : list Event) :
  panel_consistent (run pf (construct c) es) /\
  (forall s txt o, panel_view (sendMessage pf s txt o) = panel_view s) /\
  (forall s event, panel_view (messageHandler pf s event) = panel_view s) /\
  (forall s tok cfg loc, panel_view (fetchToken pf s tok cfg loc) = panel_view s).
Proof.
  split; [|split; [|split]].
  - assert (K : forall es s, panel_consistent s -> panel_consistent (run pf s es)).
    { unfold run. induction es0 as [|e es0 IH]; intros s H; [exact H|].
      cbn [fold_left]. apply IH.
      pose proof (step_panel_view pf s e) as V.
      destruct e; try (now apply (panel_consistent_same_view s)); cbn [step].
      - unfold setQuestion.
        apply (panel_consistent_same_view (open s)); [reflexivity|].
        now apply open_consistent.
      - now apply open_consistent.
      - now apply close_consistent. }
    apply K. unfold panel_consistent, construct. cbn. repeat split.
    + eexists. repeat split.
    + exists ""%string. split; [reflexivity|]. split; [discriminate | intros _; discriminate].
  - apply sendMessage_panel_view.
  - intros s event. apply messageHandler_panel_view.
  - intros s tok cfg loc. unfold fetchToken.
    pose proof (step_panel_view pf (fetchToken_begin s) (TokenAnswered tok)) as V1.
    pose proof (fetchToken_begin_panel_view s) as V0. cbn [step] in V1.
    destruct (fetchToken_settle (fetchToken_begin s) tok) as [s1 reached].
    cbn [fst] in V1. destruct reached; [|now rewrite V1].
    pose proof (step_panel_view pf s1 (IframeRequested cfg loc)) as V2. cbn [step] in V2.
    now rewrite V2, V1.
Qed.

(* ------------------------------------------------------------------ *)
(** ** A token request that succeeds, with and without a token *)

Lemma truthy_nonempty (t : string) : t <> ""%string -> truthy (VStr t) = true.
Proof. intros N. cbn. now destruct (String.eqb_spec t ""). Qed.

(** X2.  When the token endpoint answers ok with a non-empty string token
    and the panel is rendered, the component stores the token, clears the
    loading flag, and puts into the panel an iframe whose source is the
    resolved base URL followed by [/autoconnect?token=TOKEN&lang=LANGUAGE]
    (both escaped).  That iframe has a content window exactly if the
    element stands in the document: on an element that was taken out while
    the token was on its way the iframe is created without one.
    [chatbotOrigin] becomes the origin of the base URL, or ["*"] when the
    URL does not parse.  The queue, the log of posted messages and the
    ready flag are left alone: nothing is flushed before the iframe loads.
    With an explicit chatbot URL only the token endpoint is fetched;
    otherwise the config endpoint is fetched after it. *)
Theorem token_success_creates_iframe
        (pf : Platform) (s : State) (d : value) (t : string)
        (cfg : FetchOutcome) (loc : Location) :
  iframeContainer s <> None ->
  get d "token" = Some (VStr t) ->
  t <> ""%string ->
  let s' := fetchToken pf s (Response true (Json d)) cfg loc in
  let base := toString (snd (getChatbotUrl s cfg loc)) in
  (token s' = VStr t /\ loading s' = false /\ error s' = None) /\
  (iframeContainer s' = Some IframeChild /\
   iframe s' = Some {| src := autoconnect_url pf base t (language (config s));
                       contentWindow := connected s |} /\
   has_contentWindow s' = connected s /\ connected s' = connected s) /\
  chatbotOrigin s' = match url_origin pf base with Some o => o | None => "*"%string end /\
  (pendingMessages s' = pendingMessages s /\ posted s' = posted s /\
   iframeReady s' = iframeReady s /\ events s' = events s) /\
  (chatbotUrl (config s) <> ""%string ->
   fetches s' = fetches s ++ [tokenApiUrl (config s)]) /\
  (chatbotUrl (config s) = ""%string ->
   fetches s' = fetches s ++ [tokenApiUrl (config s); "/api/config"%string]).
Proof.
  intros N G T. cbv zeta.
  pose proof (truthy_nonempty t T) as Tr.
  unfold fetchToken, fetchToken_settle, fetchToken_begin, updateLoadingState.
  destruct s as [c tk ld er io im ifr rdy q org cp lb ic po ev fe rd tm cn].
  cbn in N |- *. destruct ic as [x|]; [|contradiction]. cbn. rewrite G. cbn.
  unfold createIframe. cbn [token set_loading set_token]. rewrite Tr. cbn [negb].
  unfold createIframe_resume, getChatbotUrl, autoconnect_url, iframe_src, has_contentWindow.
  cbn.
  destruct (String.eqb_spec (chatbotUrl c) "") as [E|E]; cbn.
  - destruct (config_answer cfg); cbn;
      (repeat split; try reflexivity; try contradiction;
       intros _; now rewrite <- app_assoc).
  - repeat split; try reflexivity; try contradiction.
Qed.

Lemma token_success_creates_iframe_witness :
  let s' := fetchToken lenient (mounted demo_config) token_ok config_ok example_location in
  let removed := fetchToken lenient (disconnectedCallback (mounted demo_config))
                   token_ok config_ok example_location in
  (iframe s' = Some {| src := "https://demo.aventora.app/autoconnect?token=t1&lang=en";
                       contentWindow := true |} /\
   chatbotOrigin s' = "https://demo.aventora.app"%string) /\
  iframe removed = Some {| src := "https://demo.aventora.app/autoconnect?token=t1&lang=en";
                           contentWindow := false |}.
Proof.
  cbv zeta.
  pose proof (token_success_creates_iframe lenient (mounted demo_config)
                (VObj [("token", VStr "t1"); ("expires_at", VStr "2025-01-01T00:00:00Z")])
                "t1" config_ok example_location) as T.
  pose proof (token_success_creates_iframe lenient (disconnectedCallback (mounted demo_config))
                (VObj [("token", VStr "t1"); ("expires_at", VStr "2025-01-01T00:00:00Z")])
                "t1" config_ok example_location) as T'.
  cbv zeta in T, T'.
  assert (N : iframeContainer (mounted demo_config) <> None) by discriminate.
  assert (N' : iframeContainer (disconnectedCallback (mounted demo_config)) <> None)
    by discriminate.
  assert (E : "t1"%string <> ""%string) by discriminate.
  destruct (T N eq_refl E) as [_ [[_ [I _]] [O _]]].
  destruct (T' N' eq_refl E) as [_ [[_ [I' _]] _]].
  split; [split; [exact I | exact O] | exact I'].
Defined.

(** X3.  When the token endpoint answers ok but the body carries no usable
    token (the property is missing, [null] or the empty string), no iframe
    is created and no error is recorded: the loading flag is cleared, yet
    the panel goes on showing [Loading chatbot...]; the config endpoint is
    not asked and no event is dispatched. *)
Theorem token_missing_leaves_panel_loading
        (pf : Platform) (s : State) (d t : value) (cfg : FetchOutcome) (loc : Location) :
  iframeContainer s <> None ->
  get d "token" = Some t ->
  truthy t = false ->
  let s' := fetchToken pf s (Response true (Json d)) cfg loc in
  (token s' = t /\ loading s' = false /\ error s' = None) /\
  (has_contentWindow s' = false /\
   iframeContainer s' = Some (Markup loading_state_html)) /\
  (fetches s' = fetches s ++ [tokenApiUrl (config s)] /\ events s' = events s /\
   pendingMessages s' = pendingMessages s /\ posted s' = posted s).
Proof.
  intros N G T. cbv zeta.
  unfold fetchToken, fetchToken_settle, fetchToken_begin, updateLoadingState.
  destruct s as [c tk ld er io im ifr rdy q org cp lb ic po ev fe rd tm cn].
  cbn in N |- *. destruct ic as [x|]; [|contradiction]. cbn. rewrite G. cbn.
  unfold createIframe. cbn [token set_loading set_token]. rewrite T. cbn.
  repeat split. unfold has_contentWindow. cbn. now destruct ifr.
Qed.

Lemma token_missing_leaves_panel_loading_witness :
  let s' := fetchToken lenient (construct demo_config)
              (Response true (Json (VObj [("expires_at", VStr "2025-01-01T00:00:00Z")])))
              config_ok example_location in
  error s' = None /\ loading s' = false /\
  iframeContainer s' = Some (Markup loading_state_html) /\ iframe s' = None.
Proof.
  cbv zeta.
  pose proof (token_missing_leaves_panel_loading lenient (construct demo_config)
                (VObj [("expires_at", VStr "2025-01-01T00:00:00Z")]) VUndefined
                config_ok example_location) as T.
  cbv zeta in T.
  assert (N : iframeContainer (construct demo_config) <> None) by discriminate.
  destruct (T N eq_refl eq_refl) as [[_ [L E]] [[_ C] _]].
  split; [exact E|]. split; [exact L|]. split; [exact C | reflexivity].
Defined.

(* ------------------------------------------------------------------ *)
(** ** The origin the bridge talks to *)

Lemma createIframe_origin (pf : Platform) (s : State) (cfg : FetchOutcome) (loc : Location) :
  truthy (token s) = true ->
  chatbotOrigin (createIframe pf s cfg loc)
  = match url_origin pf (toString (snd (getChatbotUrl s cfg loc))) with
    | Some o => o
    | None => "*"%string
    end.
Proof.
  intros T. unfold createIframe. rewrite T. cbn [negb]. unfold createIframe_resume.
  assert (G : iframeContainer (fst (getChatbotUrl s cfg loc)) = iframeContainer s).
  { unfold getChatbotUrl.
    destruct (negb (chatbotUrl (config s) =? "")%string); [|destruct (config_answer cfg)];
      reflexivity. }
  destruct (getChatbotUrl s cfg loc) as [s1 base]. cbn [fst snd] in *.
  destruct s1 as [c tk ld er io im ifr rdy q org cp lb ic po ev fe rd tm cn].
  cbn. now destruct ic.
Qed.

(** X4.  Once [createIframe] has run with a token, the bridge is pinned to
    the origin of the resolved base URL: a window message from any other
    origin leaves the component untouched, and everything [sendToIframe]
    posts from then on is addressed to that origin.  When the base URL does
    not parse, the origin is ["*"]: every window message with an object
    payload is handled, whatever its origin, and posts are addressed to
    ["*"]. *)
Theorem bridge_pinned_to_origin
        (pf : Platform) (s : State) (cfg : FetchOutcome) (loc : Location) :
  truthy (token s) = true ->
  let s' := createIframe pf s cfg loc in
  let base := toString (snd (getChatbotUrl s cfg loc)) in
  (forall o, url_origin pf base = Some o -> o <> "*"%string ->
     chatbotOrigin s' = o /\
     (forall event, origin event <> o -> messageHandler pf s' event = s') /\
     (forall m, exists delta,
        posted (fst (sendToIframe pf s' m)) = posted s' ++ delta /\
        forall sh target, In (sh, target) delta -> target = o)) /\
  (url_origin pf base = None ->
     chatbotOrigin s' = "*"%string /\
     (forall event, nonnull_object (data event) = true ->
        messageHandler pf s' event = handleIframeMessage pf s' (data event)) /\
     (forall m, exists delta,
        posted (fst (sendToIframe pf s' m)) = posted s' ++ delta /\
        forall sh target, In (sh, target) delta -> target = "*"%string)).
Proof.
  intros T. cbv zeta. pose proof (createIframe_origin pf s cfg loc T) as O.
  set (s' := createIframe pf s cfg loc) in *.
  assert (P : forall m, exists delta,
             posted (fst (sendToIframe pf s' m)) = posted s' ++ delta /\
             forall sh target, In (sh, target) delta -> target = chatbotOrigin s').
  { intros m. destruct (sendToIframe_posts_shapes pf s' m) as [delta [E I]].
    exists delta. split; [exact E|]. intros sh target H. now apply (I sh target). }
  split.
  - intros o U N. rewrite U in O. split; [exact O|]. split.
    + intros event D. unfold messageHandler. rewrite O.
      destruct (String.eqb_spec o "*"); [contradiction|].
      destruct (String.eqb_spec (origin event) o); [contradiction|]. reflexivity.
    + intros m. destruct (P m) as [delta [E I]]. exists delta. now rewrite <- O.
  - intros U. rewrite U in O. split; [exact O|]. split.
    + intros event D. unfold messageHandler. rewrite O. cbn.
      now rewrite nonnull_object_spec, D.
    + intros m. destruct (P m) as [delta [E I]]. exists delta. now rewrite <- O.
Qed.

Lemma bridge_pinned_to_origin_witness :
  let s := fst (fetchToken_settle (fetchToken_begin (construct demo_config)) token_ok) in
  let s' := createIframe lenient s config_ok example_location in
  chatbotOrigin s' = "https://demo.aventora.app"%string /\
  messageHandler lenient s' early_ready = s'.
Proof.
  cbv zeta.
  pose proof (bridge_pinned_to_origin lenient
                (fst (fetchToken_settle (fetchToken_begin (construct demo_config)) token_ok))
                config_ok example_location eq_refl) as T.
  cbv zeta in T. destruct T as [T _].
  destruct (T "https://demo.aventora.app"%string eq_refl) as [O [M _]]; [discriminate|].
  split; [exact O | apply M; discriminate].
Defined.

(* ------------------------------------------------------------------ *)
(** ** Commands issued between the creation of the iframe and its load *)

(** X5.  While the iframe is attached, commands are posted at once, even if
    the iframe has not loaded and earlier commands are still waiting in the
    queue; the waiting ones follow when the ready signal arrives.  The
    remote side therefore receives the later commands first. *)
Theorem late_commands_overtake_queue
        (pf : Platform) (s : State) (late : list Message) (sig : ReadySignal) :
  has_contentWindow s = true ->
  well_formed_signal sig ->
  Forall (accepted pf (chatbotOrigin s)) (pendingMessages s ++ late) ->
  let s1 := send_each pf s late in
  let s2 := ready_signal pf sig s1 in
  pendingMessages s1 = pendingMessages s /\
  posted s1 = posted s ++ deliveries (chatbotOrigin s) late /\
  posted s2 = posted s ++ deliveries (chatbotOrigin s) late
                       ++ deliveries (chatbotOrigin s) (pendingMessages s) /\
  pendingMessages s2 = [].
Proof.
  intros H W A. apply Forall_app in A as [Aq Al]. cbv zeta.
  rewrite (send_each_attached pf late s H Al).
  set (s1 := set_posted _ s).
  destruct (ready_signal_attached pf sig s1 W H Aq) as [P [Q _]].
  repeat split; try assumption. rewrite P. subst s1. cbn. now rewrite <- app_assoc.
Qed.

Lemma late_commands_overtake_queue_witness :
  let first := make_message "first" no_options in
  let second := make_message "second" no_options in
  let s := run lenient (construct demo_config)
             [TokenRequested; CallSendMessage "first" no_options;
              TokenAnswered token_ok; IframeRequested config_ok example_location] in
  pendingMessages s = [first] /\
  posted (ready_signal lenient FrameLoad (send_each lenient s [second]))
  = deliveries "https://demo.aventora.app" [second]
    ++ deliveries "https://demo.aventora.app" [first].
Proof.
  cbv zeta. split; [reflexivity|].
  refine (proj1 (proj2 (proj2
    (late_commands_overtake_queue lenient _ [make_message "second" no_options] FrameLoad
       _ _ _)))).
  - reflexivity.
  - exact I.
  - repeat constructor.
Defined.

(* ------------------------------------------------------------------ *)
(** ** [setQuestion] *)

Lemma remove_nth_last {A : Type} (l : list A) (x : A) :
  remove_nth (length l) (l ++ [x]) = l.
Proof. induction l as [|y l IH]; cbn; [reflexivity | now rewrite IH]. Qed.

Lemma nth_error_last {A : Type} (l : list A) (x : A) :
  nth_error (l ++ [x]) (length l) = Some x.
Proof. rewrite nth_error_app2 by lia. now rewrite Nat.sub_diag. Qed.

Lemma make_message_default (txt : string) (o : Options) :
  make_message txt (with_autoSend_default o) = make_message txt o.
Proof.
  unfold make_message, with_autoSend_default. cbn. f_equal.
  unfold or_else. destruct (truthy (opt_autoSend o)) eqn:T; [now rewrite T | reflexivity].
Qed.

(** X6.  [setQuestion] is [open] followed, when its timer fires, by
    [sendMessage] with the [autoSend] option defaulted: the panel is opened
    at the call, and the callback builds the very message that
    [sendMessage] builds from the caller's own options, so it queues,
    posts or starts a file read exactly as a direct [sendMessage] on the
    opened component does, and it leaves no timer behind. *)
Theorem setQuestion_is_open_then_sendMessage
        (pf : Platform) (s : State) (txt : string) (o : Options) :
  let armed := setQuestion s txt o in
  let fired := timer_fire pf armed (length (timers s)) in
  let direct := sendMessage pf (open s) txt o in
  (panel_view armed = panel_view (open s) /\
   pendingMessages armed = pendingMessages s /\ posted armed = posted s /\
   timers armed = timers s ++ [(txt, with_autoSend_default o)]) /\
  fired = sendMessage pf (open s) txt (with_autoSend_default o) /\
  (pendingMessages fired = pendingMessages direct /\ posted fired = posted direct /\
   readers fired = readers direct /\ timers fired = timers s /\
   panel_view fired = panel_view direct).
Proof.
  cbv zeta.
  assert (Tm : timers (open s) = timers s).
  { unfold open. destruct (chatPanel s); [|reflexivity]. cbn.
    now destruct (launcherButton s). }
  assert (QP : pendingMessages (open s) = pendingMessages s /\ posted (open s) = posted s).
  { unfold open. destruct (chatPanel s); [|auto]. cbn. now destruct (launcherButton s). }
  assert (F : timer_fire pf (setQuestion s txt o) (length (timers s))
              = sendMessage pf (open s) txt (with_autoSend_default o)).
  { unfold timer_fire, setQuestion. cbn [timers set_timers]. rewrite Tm.
    rewrite nth_error_last, remove_nth_last. f_equal.
    rewrite <- Tm. now destruct (open s). }
  split; [|split].
  - unfold setQuestion. cbn. rewrite Tm. destruct QP. auto.
  - exact F.
  - rewrite F. unfold sendMessage. rewrite make_message_default.
    destruct (instanceof_File (file (make_message txt o))).
    + cbn. now rewrite Tm.
    + cbn. destruct (sendToIframe_bridge_only pf (open s) (make_message txt o))
        as [q [p E]]. rewrite E. cbn. now rewrite Tm.
Qed.

(* ------------------------------------------------------------------ *)
(** ** [escapeHtml] on plain text *)

Lemma escapeHtml_growth : forall s,
  (plain_text s = true -> escapeHtml s = s) /\
  (plain_text s = false -> String.length s < String.length (escapeHtml s)) /\
  String.length s <= String.length (escapeHtml s).
Proof.
  assert (S : forall c rest,
             ((plain_text rest = true -> escapeHtml rest = rest) /\
              (plain_text rest = false ->
               String.length rest < String.length (escapeHtml rest)) /\
              String.length rest <= String.length (escapeHtml rest)) ->
             String.length (drop 1 rest) <= String.length (escapeHtml (drop 1 rest)) ->
             (plain_text (String c rest) = true ->
              escapeHtml (String c rest) = String c rest) /\
             (plain_text (String c rest) = false ->
              String.length (String c rest) < String.length (escapeHtml (String c rest))) /\
             String.length (String c rest) <= String.length (escapeHtml (String c rest))).
  { intros c rest [I1 [I2 I3]] I4. rewrite escapeHtml_step. cbn [plain_text].
    destruct (c =? "&")%char; [cbn; repeat split; try discriminate; lia|].
    destruct (c =? "<")%char; [cbn; repeat split; try discriminate; lia|].
    destruct (c =? ">")%char; [cbn; repeat split; try discriminate; lia|].
    destruct (nbsp_at c rest) eqn:Nb.
    - destruct rest as [|c2 rest2]; [discriminate|]. cbn in I4 |- *.
      repeat split; try discriminate; lia.
    - cbn. repeat split.
      + intros P. now rewrite I1.
      + intros P. apply I2 in P. lia.
      + lia. }
  refine (string_pair_ind _ _ _ _).
  - cbn. repeat split; [discriminate | lia].
  - intros c. apply S; cbn; repeat split; try discriminate; lia.
  - intros c1 c2 s IH1 IH2. apply S; [exact IH2 | apply IH1].
Qed.

(** X7.  [escapeHtml] returns its argument unchanged exactly when the text
    holds none of [&], [<], [>] and U+00A0; any other text comes back
    strictly longer.  It never shortens a text and never maps two texts to
    the same markup. *)
Theorem escapeHtml_identity_on_plain_text (a b : string) :
  (escapeHtml a = a <-> plain_text a = true) /\
  (plain_text a = false -> String.length a < String.length (escapeHtml a)) /\
  String.length a <= String.length (escapeHtml a) /\
  (escapeHtml a = escapeHtml b -> a = b).
Proof.
  destruct (escapeHtml_growth a) as [P1 [P2 P3]].
  repeat apply conj.
  - intros E. destruct (plain_text a); [reflexivity|].
    specialize (P2 eq_refl). rewrite E in P2. lia.
  - exact P1.
  - exact P2.
  - exact P3.
  - intros E.
    rewrite <- (decode_fuel_escapeHtml a (String.length (escapeHtml a))) by lia.
    rewrite E. apply decode_fuel_escapeHtml. lia.
Qed.

(* ------------------------------------------------------------------ *)
(** ** The labels of the host name *)

Lemma split_dot_nonempty (s : string) : split_dot s <> [].
Proof.
  destruct s as [|c rest]; cbn; [discriminate|].
  destruct (c =? ".")%char; [discriminate|]. destruct (split_dot rest); discriminate.
Qed.

(** [s.split('.').join('.')] is [s]. *)
Lemma join_split_dot : forall s, join_dot (split_dot s) = s.
Proof.
  unfold join_dot. induction s as [|c rest IH]; [reflexivity|].
  cbn [split_dot]. pose proof (split_dot_nonempty rest) as N.
  destruct (Ascii.eqb_spec c "."%char) as [E|E].
  - subst c. destruct (split_dot rest) as [|p ps]; [contradiction|].
    cbn [String.concat] in *. now rewrite IH.
  - destruct (split_dot rest) as [|p ps]; [contradiction|].
    cbn [String.concat] in *. destruct ps; cbn; now rewrite <- IH.
Qed.

Lemma split_dot_length : forall s, length (split_dot s) = S (count_char "." s).
Proof.
  induction s as [|c rest IH]; [reflexivity|].
  cbn [split_dot count_char]. pose proof (split_dot_nonempty rest) as N.
  destruct (c =? ".")%char; cbn.
  - now rewrite IH.
  - destruct (split_dot rest); [contradiction | exact IH].
Qed.

Lemma split_dot_labels : forall s, Forall (fun p => count_char "." p = 0) (split_dot s).
Proof.
  induction s as [|c rest IH]; [repeat constructor|].
  cbn [split_dot]. pose proof (split_dot_nonempty rest) as N.
  destruct (c =? ".")%char eqn:E.
  - now constructor.
  - destruct (split_dot rest) as [|p ps]; [contradiction|].
    inversion IH; subst. constructor; [|assumption]. cbn. now rewrite E.
Qed.

Lemma append_assoc3 (x y z : string) : ((x ++ y) ++ z = x ++ (y ++ z))%string.
Proof. induction x as [|c x IH]; cbn; [reflexivity | now rewrite IH]. Qed.

Lemma concat_dot_cons2 (x y : string) (l : list string) :
  String.concat "." (x :: y :: l) = (x ++ "." ++ String.concat "." (y :: l))%string.
Proof. reflexivity. Qed.

Lemma concat_dot_app (l : list string) (a b : string) :
  l <> [] ->
  String.concat "." (l ++ [a; b]) = (String.concat "." l ++ "." ++ a ++ "." ++ b)%string.
Proof.
  induction l as [|x l IH]; intros N; [contradiction|].
  destruct l as [|y l]; [reflexivity|].
  change ((x :: y :: l) ++ [a; b]) with (x :: (y :: l) ++ [a; b]).
  destruct ((y :: l) ++ [a; b]) as [|y' l'] eqn:E; [discriminate|].
  rewrite !concat_dot_cons2. rewrite IH by discriminate.
  rewrite !append_assoc3. reflexivity.
Qed.

Lemma list_last_two {A : Type} (l : list A) :
  2 <= length l -> exists init a b, l = init ++ [a; b].
Proof.
  induction l as [|x l IH]; cbn; intros H; [lia|].
  destruct l as [|y l]; [cbn in H; lia|].
  destruct l as [|z l].
  - exists [], x, y. reflexivity.
  - destruct IH as [init [a [b E]]]; [cbn; lia|].
    exists (x :: init), a, b. now rewrite E.
Qed.

(** X8.  On a host name that contains neither [localhost] nor [127.0.0.1]
    the derived URL keeps exactly the last two labels of the host name:
    without a dot the default domain is used, with one dot the tenant is
    put in front of the whole host name, and with more dots the leading
    labels are dropped, whatever they are. *)
Theorem fallback_keeps_last_two_labels (loc : Location) (t : string) :
  includes "localhost" (hostname loc) || includes "127.0.0.1" (hostname loc) = false ->
  (count_char "." (hostname loc) = 0 ->
   fallbackUrl loc t = ("https://" ++ t ++ ".aventora.app")%string) /\
  (count_char "." (hostname loc) = 1 ->
   fallbackUrl loc t = ("https://" ++ t ++ "." ++ hostname loc)%string) /\
  (2 <= count_char "." (hostname loc) ->
   exists dropped a b,
     hostname loc = (dropped ++ "." ++ a ++ "." ++ b)%string /\
     count_char "." a = 0 /\ count_char "." b = 0 /\
     fallbackUrl loc t = ("https://" ++ t ++ "." ++ a ++ "." ++ b)%string).
Proof.
  intros D. unfold fallbackUrl. rewrite D.
  pose proof (split_dot_length (hostname loc)) as L.
  pose proof (join_split_dot (hostname loc)) as J.
  pose proof (split_dot_labels (hostname loc)) as F.
  repeat apply conj.
  - intros Z. rewrite Z in L. rewrite L. reflexivity.
  - intros Z. rewrite Z in L. rewrite L. cbn [Nat.leb].
    destruct (split_dot (hostname loc)) as [|a [|b [|c l]]]; try discriminate.
    unfold slice_last2. cbn. unfold join_dot in J. cbn in J. now rewrite J.
  - intros Z.
    destruct (list_last_two (split_dot (hostname loc))) as [init [a [b E]]]; [lia|].
    rewrite E in *. rewrite slice_last2_spec.
    replace (2 <=? length (init ++ [a; b]))%nat with true
      by (symmetry; apply Nat.leb_le; rewrite length_app; cbn; lia).
    apply Forall_app in F as [_ F]. inversion F as [|? ? Fa F']; subst.
    inversion F' as [|? ? Fb _]; subst.
    assert (N : init <> []).
    { destruct init; [|discriminate]. cbn in L. lia. }
    exists (String.concat "." init), a, b.
    unfold join_dot in J. rewrite concat_dot_app in J by exact N.
    repeat split; auto.
Qed.

Lemma fallback_keeps_last_two_labels_witness :
  fallbackUrl {| hostname := "example.com"; port := "" |} "demo"
  = "https://demo.example.com"%string.
Proof.
  refine (proj1 (proj2 (fallback_keeps_last_two_labels
                          {| hostname := "example.com"; port := "" |} "demo" _)) _);
    reflexivity.
Defined.

(* ------------------------------------------------------------------ *)
(** ** The loader of the web component *)

(** Case analysis on the fields a handler branches on. *)
Ltac state_cases s :=
  unfold setQuestion, open, close;
  destruct s as [c tk ld er io im ifr rdy q org cp lb ic po ev fe rd tm cn];
  cbn;
  repeat match goal with
         | |- context [match ?x with _ => _ end] => destruct x; cbn
         end;
  repeat split; reflexivity.

Lemma invoke_keeps_config (pf : Platform) (s : State) (c : Loader.Call) :
  config (Loader.invoke pf s c) = config s /\
  fetches (Loader.invoke pf s c) = fetches s.
Proof.
  destruct c as [txt o|txt o| |]; cbn [Loader.invoke].
  - unfold sendMessage. destruct (instanceof_File (file (make_message txt o))).
    + split; reflexivity.
    + destruct (sendToIframe_bridge_only pf s (make_message txt o)) as [q [p E]].
      rewrite E. split; reflexivity.
  - state_cases s.
  - state_cases s.
  - state_cases s.
Qed.

Lemma replay_keeps_config (pf : Platform) (cs : list Loader.Call) :
  forall s, config (fold_left (Loader.invoke pf) cs s) = config s /\
            fetches (fold_left (Loader.invoke pf) cs s) = fetches s.
Proof.
  induction cs as [|c cs IH]; intros s; [split; reflexivity|].
  cbn [fold_left]. destruct (IH (Loader.invoke pf s c)) as [A B].
  destruct (invoke_keeps_config pf s c) as [A' B'].
  split; congruence.
Qed.

Lemma api_while_not_ready (pf : Platform) (cs : list Loader.Call) :
  forall p, Loader._ready p = false ->
    fold_left (Loader.api pf) cs p =
    {| Loader._ready := false; Loader._instance := Loader._instance p;
       Loader._queue := Loader._queue p ++ cs;
       Loader.scripts := Loader.scripts p; Loader.widget := Loader.widget p |}.
Proof.
  induction cs as [|c cs IH]; intros p R.
  - cbn. rewrite app_nil_r. destruct p; cbn in *; now subst.
  - cbn [fold_left]. unfold Loader.api at 2. rewrite R. cbn [andb].
    rewrite IH by reflexivity. cbn. now rewrite <- app_assoc.
Qed.

Lemma api_while_ready (pf : Platform) (cs : list Loader.Call) :
  forall p w, Loader._ready p = true -> Loader._instance p = true ->
    Loader.widget p = Some w ->
    fold_left (Loader.api pf) cs p =
    Loader.set_widget
      (Loader.set_component (fold_left (Loader.invoke pf) cs (Loader.component w)) w) p.
Proof.
  induction cs as [|c cs IH]; intros p w R I W.
  - cbn. destruct p, w; cbn in *; now subst.
  - cbn [fold_left]. unfold Loader.api at 2. rewrite R, I, W. cbn [andb].
    rewrite (IH _ (Loader.set_component (Loader.invoke pf (Loader.component w) c) w));
      [reflexivity | exact R | exact I | reflexivity].
Qed.

(** X9.  The component the loader creates never sees the loader's
    [tokenApiUrl] and [chatbotUrl]: the constructor runs before the
    attributes are set and neither attribute is observed.  The element
    carries the [token-api-url] attribute, yet the component keeps the
    default endpoint, asks it for the token, and has no explicit chatbot
    URL; the tenant and the language do arrive. *)
Theorem loader_urls_never_reach_component (pf : Platform) (lc : Loader.Config)
    (p : Loader.Page) :
  Loader.widget p = None ->
  exists w,
    Loader.widget (Loader.createWidget pf lc p) = Some w /\
    Loader.getAttribute (Loader.attributes w) "token-api-url"
      = Some (Loader.tokenApiUrl lc) /\
    tokenApiUrl (AventoraChat.config (Loader.component w)) = "/api/chatbot-token"%string /\
    chatbotUrl (AventoraChat.config (Loader.component w)) = ""%string /\
    tenant (AventoraChat.config (Loader.component w))
      = Loader.attr_string (Loader.tenant lc) /\
    language (AventoraChat.config (Loader.component w)) = Loader.language lc /\
    fetches (Loader.component w) = ["/api/chatbot-token"%string].
Proof.
  intros W. unfold Loader.createWidget. rewrite W.
  eexists. split; [reflexivity|].
  cbn [Loader.component Loader.attributes Loader.set_component].
  destruct (replay_keeps_config pf (Loader._queue p)
              (Loader.component (Loader.new_widget lc))) as [C F].
  assert (A : Loader.getAttribute (Loader.attributes (Loader.new_widget lc))
                "token-api-url" = Some (Loader.tokenApiUrl lc)).
  { destruct lc as [t b th po la tu cu wu]; destruct b as [[|? ?]|], cu as [[|? ?]|];
      reflexivity. }
  assert (K : config (Loader.component (Loader.new_widget lc))
              = {| tenant := Loader.attr_string (Loader.tenant lc);
                   language := Loader.language lc;
                   tokenApiUrl := "/api/chatbot-token";
                   chatbotUrl := "" |}).
  { destruct lc as [t b th po la tu cu wu]; destruct b as [[|? ?]|], cu as [[|? ?]|];
      reflexivity. }
  assert (G : fetches (Loader.component (Loader.new_widget lc))
              = ["/api/chatbot-token"%string]).
  { destruct lc as [t b th po la tu cu wu]; destruct b as [[|? ?]|], cu as [[|? ?]|];
      reflexivity. }
  split; [exact A|].
  change (config (dispatch "aventora:ready" DInstance
                    (fold_left (Loader.invoke pf) (Loader._queue p)
                       (Loader.component (Loader.new_widget lc)))))
    with (config (fold_left (Loader.invoke pf) (Loader._queue p)
                    (Loader.component (Loader.new_widget lc)))).
  change (fetches (dispatch "aventora:ready" DInstance
                    (fold_left (Loader.invoke pf) (Loader._queue p)
                       (Loader.component (Loader.new_widget lc)))))
    with (fetches (fold_left (Loader.invoke pf) (Loader._queue p)
                    (Loader.component (Loader.new_widget lc)))).
  rewrite C, F, K, G. cbn. repeat split; reflexivity.
Qed.

Lemma loader_urls_never_reach_component_witness :
  exists w,
    Loader.widget (Loader.createWidget lenient custom_loader_config fresh_page) = Some w /\
    fetches (Loader.component w) = ["/api/chatbot-token"%string].
Proof.
  destruct (loader_urls_never_reach_component lenient custom_loader_config fresh_page eq_refl)
    as [w [A [_ [_ [_ [_ [_ B]]]]]]].
  exists w. split; assumption.
Defined.

(** X10.  Calls made through [window.AventoraChatbot] before the widget
    exists are only queued; [createWidget] replays them on the component
    once, in the order they were made, before it announces
    [aventora:ready], and leaves the queue empty.  Calls made afterwards
    reach the component directly, behind the replayed ones. *)
Theorem queued_calls_replayed_once_in_order (pf : Platform) (lc : Loader.Config)
    (p : Loader.Page) (before after : list Loader.Call) :
  Loader._ready p = false ->
  let p1 := fold_left (Loader.api pf) before p in
  let p2 := fold_left (Loader.api pf) after (Loader.createWidget pf lc p1) in
  Loader._queue p1 = Loader._queue p ++ before /\
  Loader.widget p1 = Loader.widget p /\
  Loader._queue p2 = [] /\
  Loader.widget p2 =
    Some (Loader.set_component
            (fold_left (Loader.invoke pf) after
               (dispatch "aventora:ready" DInstance
                  (fold_left (Loader.invoke pf) (Loader._queue p ++ before)
                     (Loader.component (widget_of lc p)))))
            (widget_of lc p)).
Proof.
  intros R p1 p2. subst p1 p2. rewrite (api_while_not_ready pf before p R).
  split; [reflexivity|]. split; [reflexivity|].
  unfold Loader.createWidget. cbn [Loader._queue Loader.widget Loader.scripts].
  fold (widget_of lc p).
  erewrite api_while_ready; [|reflexivity|reflexivity|reflexivity].
  split; reflexivity.
Qed.

Lemma queued_calls_replayed_once_in_order_witness :
  exists w,
    Loader.widget
      (fold_left (Loader.api lenient) [Loader.Close]
         (Loader.createWidget lenient custom_loader_config
            (fold_left (Loader.api lenient)
               [Loader.Open; Loader.SendMessage "hello" no_options] fresh_page))) = Some w /\
    map fst (events (Loader.component w))
    = ["aventora:opened"; "aventora:message-sent"; "aventora:ready"; "aventora:closed"]%string.
Proof.
  destruct (queued_calls_replayed_once_in_order lenient custom_loader_config fresh_page
              [Loader.Open; Loader.SendMessage "hello" no_options] [Loader.Close] eq_refl)
    as [_ [_ [_ W]]].
  eexists. split; [exact W|]. vm_compute. reflexivity.
Defined.

(** X11.  A second run of [createWidget] creates no second element and
    replays nothing: it finds the element of the first run and an empty
    queue, and only dispatches [aventora:ready] once more. *)
Theorem second_createWidget_only_announces (pf : Platform) (lc : Loader.Config)
    (p : Loader.Page) :
  exists w,
    Loader.widget (Loader.createWidget pf lc p) = Some w /\
    Loader.createWidget pf lc (Loader.createWidget pf lc p) =
    Loader.set_widget
      (Loader.set_component (dispatch "aventora:ready" DInstance (Loader.component w)) w)
      (Loader.createWidget pf lc p) /\
    events (dispatch "aventora:ready" DInstance (Loader.component w))
    = events (Loader.component w) ++ [("aventora:ready"%string, DInstance)] /\
    posted (dispatch "aventora:ready" DInstance (Loader.component w))
    = posted (Loader.component w) /\
    pendingMessages (dispatch "aventora:ready" DInstance (Loader.component w))
    = pendingMessages (Loader.component w).
Proof.
  eexists. split; [reflexivity|]. repeat split.
Qed.

Lemma not_ready_stays (pf : Platform) (lc : Loader.Config) (es : list LoaderEvent) :
  forall p,
    existsb (includes "aventora-chat.js") (Loader.scripts p) = true ->
    Loader._ready p = false ->
    fold_left (loader_step pf lc) es p =
    {| Loader._ready := false; Loader._instance := Loader._instance p;
       Loader._queue := Loader._queue p ++ calls_of es;
       Loader.scripts := Loader.scripts p; Loader.widget := Loader.widget p |}.
Proof.
  induction es as [|e es IH]; intros p S R.
  - cbn. rewrite app_nil_r. destruct p; cbn in *; now subst.
  - cbn [fold_left]. destruct e as [|c]; cbn [loader_step calls_of].
    + unfold Loader.loadComponent. rewrite S. now apply IH.
    + unfold Loader.api. rewrite R. cbn [andb].
      rewrite IH by (cbn; first [assumption | reflexivity]). cbn. now rewrite <- app_assoc.
Qed.

(** X12.  On a page that already has a script whose [src] contains
    [aventora-chat.js], [loadComponent] returns before it loads or
    initialises anything.  Whatever the host then does through the loader,
    [window.AventoraChatbot] never becomes ready: every call is kept in the
    queue and none reaches a component. *)
Theorem loader_idle_beside_component_script (pf : Platform) (lc : Loader.Config)
    (p : Loader.Page) (es : list LoaderEvent) :
  existsb (includes "aventora-chat.js") (Loader.scripts p) = true ->
  Loader._ready p = false ->
  let p' := fold_left (loader_step pf lc) es p in
  Loader._ready p' = false /\
  Loader._queue p' = Loader._queue p ++ calls_of es /\
  Loader.scripts p' = Loader.scripts p /\
  Loader.widget p' = Loader.widget p.
Proof.
  intros S R p'. subst p'. rewrite (not_ready_stays pf lc es p S R).
  repeat split.
Qed.

Lemma loader_idle_beside_component_script_witness :
  Loader._queue
    (fold_left (loader_step lenient custom_loader_config)
       [LoadComponent; ApiCall Loader.Open; LoadComponent] page_with_component_script)
  = [Loader.Open].
Proof.
  exact (proj1 (proj2 (loader_idle_beside_component_script lenient custom_loader_config
                         page_with_component_script
                         [LoadComponent; ApiCall Loader.Open; LoadComponent]
                         eq_refl eq_refl))).
Defined.

Lemma starts_with_app (p x : string) : starts_with p (p ++ x) = true.
Proof.
  induction p as [|c p IH]; [reflexivity|]. cbn. now rewrite Ascii.eqb_refl.
Qed.

Lemma includes_prefix (rep y : string) : includes rep (rep ++ y) = true.
Proof.
  destruct rep as [|r rep].
  - destruct y; reflexivity.
  - cbn [append includes starts_with]. rewrite Ascii.eqb_refl, starts_with_app. reflexivity.
Qed.

Lemma includes_replace_first (pat rep : string) :
  forall s, includes pat s = true -> includes rep (Loader.replace_first pat rep s) = true.
Proof.
  induction s as [|c s IH]; intros H.
  - cbn in H. rewrite orb_false_r in H.
    cbn [Loader.replace_first]. rewrite H. apply includes_prefix.
  - cbn [Loader.replace_first].
    destruct (starts_with pat (String c s)) eqn:P.
    + apply includes_prefix.
    + cbn [includes] in H. rewrite P in H. cbn [orb] in H.
      cbn [includes]. rewrite (IH H). apply orb_true_r.
Qed.

(** X13.  [loadComponent] run twice adds the component script once exactly
    when the page already had such a script or the configured [widgetUrl]
    contains [aventora-chat.js]; otherwise the second run adds the script
    again.  A [widgetUrl] derived from a loader [src] that contains
    [widget.js] always contains [aventora-chat.js]. *)
Theorem loadComponent_twice (lc : Loader.Config) (p : Loader.Page) :
  (Loader.loadComponent lc (Loader.loadComponent lc p) = Loader.loadComponent lc p <->
   existsb (includes "aventora-chat.js") (Loader.scripts p)
   || includes "aventora-chat.js" (Loader.widgetUrl lc) = true) /\
  (forall data src,
     Loader.truthy_attr (data "data-widget-url"%string) = false ->
     includes "widget.js" src = true ->
     includes "aventora-chat.js" (Loader.widgetUrl (Loader.read_config data src)) = true).
Proof.
  split.
  - unfold Loader.loadComponent.
    destruct (existsb (includes "aventora-chat.js") (Loader.scripts p)) eqn:E.
    + rewrite E. cbn. split; reflexivity.
    + cbn [Loader.scripts orb]. rewrite existsb_app, E. cbn [existsb orb].
      rewrite orb_false_r.
      destruct (includes "aventora-chat.js" (Loader.widgetUrl lc)).
      * split; reflexivity.
      * split; [|discriminate]. intros H.
        apply (f_equal (fun q => length (Loader.scripts q))) in H. cbn in H.
        rewrite !length_app in H. cbn in H. lia.
  - intros data src D I. unfold Loader.read_config. cbn [Loader.widgetUrl].
    assert (A : Loader.attr_or (data "data-widget-url"%string)
                  (if (src =? "")%string then "https://cdn.aventora.ai/aventora-chat.js"%string
                   else Loader.replace_first "widget.js" "aventora-chat.js" src)
                = (if (src =? "")%string then "https://cdn.aventora.ai/aventora-chat.js"%string
                   else Loader.replace_first "widget.js" "aventora-chat.js" src)).
    { destruct (data "data-widget-url"%string) as [[|? ?]|]; try reflexivity; discriminate. }
    rewrite A. destruct (src =? "")%string; [reflexivity|].
    now apply includes_replace_first.
Qed.

(* ------------------------------------------------------------------ *)
(** ** The commands of the widget UI *)

Lemma send_all_detached (pf : Platform) (o : string) (shapes : list value) :
  forall s,
    (forall f, WidgetUI.iframe s = Some f -> contentWindow f = false) ->
    WidgetUI.send_all pf o s shapes = s.
Proof.
  unfold WidgetUI.send_all.
  induction shapes as [|sh rest IH]; intros s D; [reflexivity|].
  cbn [fold_left].
  assert (E : fst (WidgetUI.call_sendToFlutter pf o s sh) = s).
  { unfold WidgetUI.call_sendToFlutter.
    destruct (WidgetUI.iframe s) as [f|] eqn:F; [|reflexivity].
    now rewrite (D f eq_refl). }
  rewrite E. now apply IH.
Qed.

Lemma send_all_attached (pf : Platform) (o : string) (f : Iframe) (shapes : list value) :
  forall s,
    WidgetUI.iframe s = Some f -> contentWindow f = true ->
    Forall (fun sh => postMessage_accepts pf sh o = true) shapes ->
    WidgetUI.send_all pf o s shapes
    = WidgetUI.set_posted (WidgetUI.posted s ++ sent_to o shapes) s.
Proof.
  unfold WidgetUI.send_all.
  induction shapes as [|sh rest IH]; intros s F W A.
  - cbn. rewrite app_nil_r. now destruct s.
  - inversion A as [|? ? A1 A2]; subst. cbn [fold_left].
    assert (E : fst (WidgetUI.call_sendToFlutter pf o s sh)
                = WidgetUI.set_posted (WidgetUI.posted s ++ [(sh, o)]) s).
    { unfold WidgetUI.call_sendToFlutter. now rewrite F, W, A1. }
    rewrite E. rewrite IH; [|exact F|exact W|exact A2].
    cbn. now rewrite <- app_assoc.
Qed.

(** X14.  What the widget UI's [sendMessage] returns says whether
    [sendToFlutter] exists, not whether anything was delivered.  Without it
    the result is [false]; when there is also no iframe or no base URL the
    call changes nothing, so the command is dropped without a retry.  With
    it the result is [true] even when the iframe has no content window and
    nothing was posted.  [setQuestion] behaves the same way. *)
Theorem widget_result_is_not_delivery (pf : Platform) (s : WidgetUI.State)
    (text : string) (o : Options) :
  (snd (WidgetUI.sendMessage pf s text o) = true <-> WidgetUI.sendToFlutter s <> None) /\
  (snd (WidgetUI.setQuestion pf s text o) = true <-> WidgetUI.sendToFlutter s <> None) /\
  (WidgetUI.sendToFlutter s = None ->
   WidgetUI.iframe s = None \/ WidgetUI.chatbotBaseUrl s = None ->
   WidgetUI.sendMessage pf s text o = (s, false) /\
   WidgetUI.setQuestion pf s text o = (s, false)) /\
  (WidgetUI.sendToFlutter s <> None ->
   (forall f, WidgetUI.iframe s = Some f -> contentWindow f = false) ->
   WidgetUI.sendMessage pf s text o = (s, true) /\
   WidgetUI.setQuestion pf s text o = (s, true)).
Proof.
  assert (N : forall r, snd (WidgetUI.not_ready pf s r) = false).
  { intros r. unfold WidgetUI.not_ready.
    destruct (WidgetUI.iframe s); [|reflexivity].
    destruct (WidgetUI.chatbotBaseUrl s) as [b|]; [|reflexivity].
    destruct (negb (b =? "")%string); reflexivity. }
  unfold WidgetUI.sendMessage, WidgetUI.setQuestion.
  destruct (WidgetUI.sendToFlutter s) as [origin|] eqn:F.
  - split; [split; [discriminate | reflexivity]|].
    split; [split; [discriminate | reflexivity]|].
    split; [discriminate|]. intros _ D.
    now rewrite !send_all_detached.
  - rewrite !N.
    split; [split; [discriminate | intros H; now contradiction H]|].
    split; [split; [discriminate | intros H; now contradiction H]|].
    split; [|intros H; now contradiction H].
    intros _ [I|B]; unfold WidgetUI.not_ready; rewrite ?I, ?B.
    + split; reflexivity.
    + destruct (WidgetUI.iframe s); split; reflexivity.
Qed.

(** X15.  A [sendMessage] that finds an attached iframe and a base URL but
    no [sendToFlutter] sets the communication up, posts nothing itself and
    returns [false]; it arms the communication test and a retry.  When the
    retry fires, the command is posted to the origin of the base URL with
    exactly the shapes a direct call sends, and no timer of the call is
    left but the communication test. *)
Theorem widget_retry_delivers (pf : Platform) (s : WidgetUI.State) (f : Iframe)
    (base text : string) (o : Options) :
  WidgetUI.sendToFlutter s = None ->
  WidgetUI.iframe s = Some f ->
  contentWindow f = true ->
  WidgetUI.chatbotBaseUrl s = Some base ->
  base <> ""%string ->
  let origin := match url_origin pf base with Some x => x | None => "*"%string end in
  Forall (fun sh => postMessage_accepts pf sh origin = true)
         (WidgetUI.sendMessage_shapes text o) ->
  let s1 := fst (WidgetUI.sendMessage pf s text o) in
  let s2 := WidgetUI.timer_fire pf s1 (S (length (WidgetUI.timers s))) in
  snd (WidgetUI.sendMessage pf s text o) = false /\
  WidgetUI.posted s1 = WidgetUI.posted s /\
  WidgetUI.sendToFlutter s1 = Some origin /\
  WidgetUI.timers s1
  = WidgetUI.timers s ++ [WidgetUI.TFocusTest; WidgetUI.TRetrySendMessage text o] /\
  WidgetUI.posted s2
  = WidgetUI.posted s ++ sent_to origin (WidgetUI.sendMessage_shapes text o) /\
  WidgetUI.timers s2 = WidgetUI.timers s ++ [WidgetUI.TFocusTest].
Proof.
  intros F I W B NE origin A s1 s2.
  assert (E1 : WidgetUI.sendMessage pf s text o
               = (WidgetUI.set_timers
                    ((WidgetUI.timers s ++ [WidgetUI.TFocusTest])
                       ++ [WidgetUI.TRetrySendMessage text o])
                    (WidgetUI.setupIframeCommunication pf s base), false)).
  { unfold WidgetUI.sendMessage, WidgetUI.not_ready. rewrite F, I, B.
    destruct (base =? "")%string eqn:Q; [apply String.eqb_eq in Q; contradiction|].
    reflexivity. }
  subst s2 s1. rewrite E1. cbn [fst snd].
  split; [reflexivity|]. split; [reflexivity|]. split; [reflexivity|].
  split; [cbn; now rewrite <- app_assoc|].
  unfold WidgetUI.timer_fire. cbn [WidgetUI.timers WidgetUI.set_timers].
  replace (S (length (WidgetUI.timers s)))
    with (length (WidgetUI.timers s ++ [WidgetUI.TFocusTest]))
    by (rewrite length_app; cbn; lia).
  rewrite nth_error_last, remove_nth_last.
  cbn [WidgetUI.sendToFlutter WidgetUI.set_timers WidgetUI.setupIframeCommunication].
  unfold WidgetUI.sendMessage.
  cbn [WidgetUI.sendToFlutter WidgetUI.set_timers WidgetUI.setupIframeCommunication fst].
  fold origin.
  rewrite (send_all_attached pf origin f); [split; reflexivity|exact I|exact W|exact A].
Qed.

Lemma widget_retry_delivers_witness :
  WidgetUI.posted
    (WidgetUI.timer_fire lenient
       (fst (WidgetUI.sendMessage lenient framed_widget "hello" no_options)) 1)
  = sent_to "https://demo.aventora.app" (WidgetUI.sendMessage_shapes "hello" no_options).
Proof.
  refine (proj1 (proj2 (proj2 (proj2 (proj2
            (widget_retry_delivers lenient framed_widget _ "https://demo.aventora.app"
               "hello" no_options eq_refl eq_refl eq_refl eq_refl _ _)))))).
  - discriminate.
  - repeat constructor.
Defined.

(* ------------------------------------------------------------------ *)
(** ** Loading the chatbot in the widget UI *)

(** The handlers of the command part change nothing but that part. *)
Lemma setFile_only_ui (pf : Platform) (s : WidgetInstance.Instance) (fid : value)
    (o : Options) :
  exists u r, fst (WidgetInstance.setFile pf s fid o)
              = WidgetInstance.set_ui u (WidgetInstance.set_file_retries r s).
Proof.
  assert (I : s = WidgetInstance.set_ui (WidgetInstance.ui s)
                    (WidgetInstance.set_file_retries (WidgetInstance.file_retries s) s))
    by now destruct s.
  unfold WidgetInstance.setFile.
  destruct (WidgetUI.sendToFlutter (WidgetInstance.ui s)).
  - eexists. exists (WidgetInstance.file_retries s). cbn [fst]. now destruct s.
  - destruct (WidgetUI.iframe (WidgetInstance.ui s)); [|eexists; eexists; exact I].
    destruct (WidgetUI.chatbotBaseUrl (WidgetInstance.ui s)) as [b|];
      [|eexists; eexists; exact I].
    destruct (negb (b =? "")%string); [|eexists; eexists; exact I].
    eexists. eexists. cbn [fst]. reflexivity.
Qed.

Lemma command_steps_only_ui (pf : Platform) (s : WidgetInstance.Instance) (e : WidgetEvent) :
  match e with
  | WSendMessage _ _ | WSetQuestion _ _ | WFocusInput | WTimer _ =>
      exists u, widget_step pf s e = WidgetInstance.set_ui u s
  | WFocusTimer =>
      exists u k, widget_step pf s e
                  = WidgetInstance.set_ui u (WidgetInstance.set_focus_timers k s)
  | WSetFile _ _ | WFileRetry _ =>
      exists u r, widget_step pf s e
                  = WidgetInstance.set_ui u (WidgetInstance.set_file_retries r s)
  | _ => True
  end.
Proof.
  destruct e as [| | |t o|t o| |i| |cfg tok| | |fid o|i]; cbn [widget_step]; try exact I.
  - unfold WidgetInstance.sendMessage.
    destruct (WidgetUI.sendMessage pf (WidgetInstance.ui s) t o) as [u r]. now exists u.
  - unfold WidgetInstance.setQuestion.
    destruct (WidgetUI.setQuestion pf (WidgetInstance.ui s) t o) as [u r]. now exists u.
  - unfold WidgetInstance.focusInput.
    destruct (WidgetUI.sendToFlutter (WidgetInstance.ui s)).
    + eexists. reflexivity.
    + exists (WidgetInstance.ui s). now destruct s.
  - eexists. reflexivity.
  - unfold WidgetInstance.focus_timer_fire.
    destruct (WidgetInstance.focus_timers s) as [|k] eqn:K.
    + exists (WidgetInstance.ui s), 0. destruct s; cbn in *; now subst.
    + unfold WidgetInstance.focusInput. cbn [WidgetInstance.ui WidgetInstance.set_focus_timers].
      destruct (WidgetUI.sendToFlutter (WidgetInstance.ui s)).
      * eexists. exists k. reflexivity.
      * exists (WidgetInstance.ui s), k. now destruct s.
  - apply setFile_only_ui.
  - unfold WidgetInstance.file_retry_fire.
    destruct (nth_error (WidgetInstance.file_retries s) i) as [[fid o]|];
      [|exists (WidgetInstance.ui s), (WidgetInstance.file_retries s); now destruct s].
    cbn [WidgetInstance.ui WidgetInstance.set_file_retries].
    destruct (WidgetUI.sendToFlutter (WidgetInstance.ui s));
      [|exists (WidgetInstance.ui s), (remove_nth i (WidgetInstance.file_retries s));
        now destruct s].
    destruct (setFile_only_ui pf
                (WidgetInstance.set_file_retries
                   (remove_nth i (WidgetInstance.file_retries s)) s) fid o) as [u [r E]].
    rewrite E. exists u, r. reflexivity.
Qed.

(** The load flags and the request log after one step. *)
Lemma widget_step_loading (pf : Platform) (s : WidgetInstance.Instance) (e : WidgetEvent) :
  (WidgetInstance.flutterAppLoaded s = true ->
   WidgetInstance.flutterAppLoaded (widget_step pf s e) = true /\
   WidgetInstance.fetches (widget_step pf s e) = WidgetInstance.fetches s) /\
  (WidgetInstance.isLoading s = true -> ends_load e = false ->
   WidgetInstance.isLoading (widget_step pf s e) = true /\
   WidgetInstance.fetches (widget_step pf s e) = WidgetInstance.fetches s).
Proof.
  pose proof (command_steps_only_ui pf s e) as C.
  destruct e as [| | |t o|t o| |i| |cfg tok| | |fid o|i]; cbn [ends_load].
  - clear C. cbn [widget_step].
    unfold WidgetInstance.open, WidgetInstance.loadFlutterApp.
    cbn [WidgetInstance.flutterAppLoaded WidgetInstance.show WidgetInstance.isLoading].
    split; [intros L|intros L _]; rewrite L; cbn.
    + split; [exact L | reflexivity].
    + destruct (WidgetInstance.flutterAppLoaded s); cbn; split; (reflexivity || exact L).
  - clear C. cbn [widget_step]. split; [intros L|intros L _]; now split.
  - clear C. cbn [widget_step]. unfold WidgetInstance.escapeHandler.
    destruct (WidgetInstance.isOpen s); (split; [intros L|intros L _]; now split).
  - destruct C as [u C]; rewrite C; split; [intros L|intros L _]; now split.
  - destruct C as [u C]; rewrite C; split; [intros L|intros L _]; now split.
  - destruct C as [u C]; rewrite C; split; [intros L|intros L _]; now split.
  - destruct C as [u C]; rewrite C; split; [intros L|intros L _]; now split.
  - destruct C as [u [k C]]; rewrite C; split; [intros L|intros L _]; now split.
  - clear C. cbn [widget_step]. split; [|discriminate]. intros L.
    unfold WidgetInstance.loadFlutterApp_settle.
    destruct (WidgetInstance.load_pending s); cbn [negb]; [|now split].
    destruct (WidgetInstance.getChatbotBaseUrl cfg), (WidgetInstance.getToken tok);
      now split.
  - clear C. cbn [widget_step]. split; [|discriminate]. intros L.
    unfold WidgetInstance.iframe_onload.
    destruct (WidgetUI.iframe (WidgetInstance.ui s)) as [f|]; [|now split].
    destruct (WidgetUI.chatbotBaseUrl (WidgetInstance.ui s)); [|now split].
    destruct (contentWindow f); now split.
  - clear C. cbn [widget_step]. split; [|discriminate]. intros L. now split.
  - destruct C as [u [r C]]; rewrite C; split; [intros L|intros L _]; now split.
  - destruct C as [u [r C]]; rewrite C; split; [intros L|intros L _]; now split.
Qed.

(** X16.  The widget UI never has two loads in flight and never loads
    twice.  While [isLoading] holds, nothing but the end of the load (the
    promise settling, the iframe loading or failing) clears it, and no
    call sends a request.  Once [flutterAppLoaded] holds it holds for
    good and no request is ever sent again, whatever happens to the
    iframe. *)
Theorem widget_loads_at_most_once (pf : Platform) (s : WidgetInstance.Instance)
    (es : list WidgetEvent) :
  (WidgetInstance.isLoading s = true -> forallb (fun e => negb (ends_load e)) es = true ->
   WidgetInstance.isLoading (widget_run pf s es) = true /\
   WidgetInstance.fetches (widget_run pf s es) = WidgetInstance.fetches s) /\
  (WidgetInstance.flutterAppLoaded s = true ->
   WidgetInstance.flutterAppLoaded (widget_run pf s es) = true /\
   WidgetInstance.fetches (widget_run pf s es) = WidgetInstance.fetches s).
Proof.
  revert s. unfold widget_run.
  induction es as [|e es IH]; intros s; [split; intros; split; auto|].
  cbn [fold_left forallb].
  destruct (widget_step_loading pf s e) as [A B].
  destruct (IH (widget_step pf s e)) as [IH1 IH2].
  split.
  - intros L F. apply andb_prop in F as [F1 F2].
    apply negb_true_iff in F1. destruct (B L F1) as [B1 B2].
    destruct (IH1 B1 F2) as [C1 C2]. split; congruence.
  - intros L. destruct (A L) as [A1 A2].
    destruct (IH2 A1) as [C1 C2]. split; congruence.
Qed.

(** X17.  The widget UI frames the chatbot for whatever the token request
    yields.  The base URL is taken from the body of the config answer
    whatever its status, and the token from any JSON object of an ok
    answer, present or not: the iframe is created with the token's
    ToString in its [src], so a missing token gives [token=undefined].
    The web component, given the same falsy token, creates no iframe. *)
Theorem widget_frames_any_token (pf : Platform) (s : WidgetInstance.Instance)
    (status_ok : bool) (d d' u t : value) :
  WidgetInstance.load_pending s = true ->
  get d "chatbotBaseUrl" = Some u ->
  truthy u = true ->
  get d' "token" = Some t ->
  let s' := WidgetInstance.loadFlutterApp_settle pf s
              (Response status_ok (Json d)) (Response true (Json d')) in
  WidgetUI.iframe (WidgetInstance.ui s')
  = Some {| src := autoconnect_url pf (toString u) (toString t)
                     (toString (or_else (WidgetInstance.language s) (VStr "en")));
            contentWindow := true |} /\
  WidgetUI.chatbotBaseUrl (WidgetInstance.ui s') = Some (toString u) /\
  WidgetInstance.flutterContainer s' = WidgetInstance.FrameChild /\
  WidgetInstance.token s' = t /\
  WidgetInstance.isLoading s' = WidgetInstance.isLoading s /\
  (truthy t = false ->
   forall (c : State) (cfg : FetchOutcome) (loc : Location),
     token c = t -> createIframe pf c cfg loc = c).
Proof.
  intros P U T K s'. subst s'.
  unfold WidgetInstance.loadFlutterApp_settle. rewrite P. cbn [negb].
  unfold WidgetInstance.getChatbotBaseUrl, WidgetInstance.getToken. rewrite U, T, K.
  repeat apply conj; try reflexivity.
  intros F c cfg loc E. unfold createIframe. now rewrite E, F.
Qed.

Lemma widget_frames_any_token_witness :
  WidgetUI.iframe
    (WidgetInstance.ui
       (WidgetInstance.loadFlutterApp_settle lenient
          (WidgetInstance.open (WidgetInstance.new_instance VUndefined))
          (Response false (Json (VObj [("chatbotBaseUrl", VStr "https://demo.aventora.app")])))
          (Response true (Json (VObj [("expires_at", VStr "never")])))))
  = Some {| src := "https://demo.aventora.app/autoconnect?token=undefined&lang=en";
            contentWindow := true |}.
Proof.
  exact (proj1 (widget_frames_any_token lenient
                  (WidgetInstance.open (WidgetInstance.new_instance VUndefined)) false
                  (VObj [("chatbotBaseUrl", VStr "https://demo.aventora.app")])
                  (VObj [("expires_at", VStr "never")])
                  (VStr "https://demo.aventora.app") VUndefined
                  eq_refl eq_refl eq_refl eq_refl)).
Defined.

(** X18.  When either request of a load fails (the config answer has no
    usable base URL, or the token answer is not ok or not a JSON object),
    the widget UI shows its error text, keeps no attached iframe and clears
    [isLoading]; the next [open] then starts a new load with both
    requests. *)
Theorem widget_failed_load_is_retried (pf : Platform) (s : WidgetInstance.Instance)
    (cfg tok : FetchOutcome) :
  WidgetInstance.load_pending s = true ->
  WidgetInstance.flutterAppLoaded s = false ->
  WidgetInstance.getChatbotBaseUrl cfg = None \/ WidgetInstance.getToken tok = None ->
  let s' := WidgetInstance.loadFlutterApp_settle pf s cfg tok in
  WidgetInstance.flutterContainer s'
  = WidgetInstance.ErrorState "Failed to load chatbot. Please try again." /\
  WidgetInstance.isLoading s' = false /\
  (forall f, WidgetUI.iframe (WidgetInstance.ui s') = Some f -> contentWindow f = false) /\
  WidgetInstance.isLoading (WidgetInstance.open s') = true /\
  WidgetInstance.fetches (WidgetInstance.open s')
  = WidgetInstance.fetches s ++ ["/api/config"; "/api/chatbot-token"]%string.
Proof.
  intros P L F s'.
  assert (E : s' = WidgetInstance.set_isLoading false
                     (WidgetInstance.showError "Failed to load chatbot. Please try again."
                        (WidgetInstance.set_load_pending false s))).
  { subst s'. unfold WidgetInstance.loadFlutterApp_settle. rewrite P. cbn [negb].
    destruct F as [F|F]; rewrite F; [reflexivity|].
    destruct (WidgetInstance.getChatbotBaseUrl cfg); reflexivity. }
  rewrite E. clear E s'.
  split; [reflexivity|]. split; [reflexivity|]. split.
  - cbn. intros f. destruct (WidgetUI.iframe (WidgetInstance.ui s)) as [g|]; cbn;
      [|discriminate]. intros H. now inversion H.
  - unfold WidgetInstance.open, WidgetInstance.loadFlutterApp. cbn. rewrite L. cbn.
    split; reflexivity.
Qed.

Lemma widget_failed_load_is_retried_witness :
  WidgetInstance.fetches
    (WidgetInstance.open
       (WidgetInstance.loadFlutterApp_settle lenient
          (WidgetInstance.open (WidgetInstance.new_instance VUndefined))
          config_ok (Response false (BadJson "Unexpected token"))))
  = ["/api/config"; "/api/chatbot-token"; "/api/config"; "/api/chatbot-token"]%string.
Proof.
  exact (proj2 (proj2 (proj2 (proj2
           (widget_failed_load_is_retried lenient
              (WidgetInstance.open (WidgetInstance.new_instance VUndefined))
              config_ok (Response false (BadJson "Unexpected token"))
              eq_refl eq_refl (or_intror eq_refl)))))).
Defined.

Lemma widget_step_before_load (pf : Platform) (lang : value)
    (s : WidgetInstance.Instance) (e : WidgetEvent) :
  is_settled e = false ->
  WidgetInstance.ui s = WidgetInstance.ui (WidgetInstance.new_instance lang) ->
  WidgetInstance.ui (widget_step pf s e) = WidgetInstance.ui (WidgetInstance.new_instance lang).
Proof.
  intros N U.
  destruct e as [| | |t o|t o| |i| |cfg tok| | |fid o|i]; try discriminate; cbn [widget_step].
  - unfold WidgetInstance.open, WidgetInstance.loadFlutterApp. cbn.
    destruct (WidgetInstance.flutterAppLoaded s), (WidgetInstance.isLoading s); exact U.
  - exact U.
  - unfold WidgetInstance.escapeHandler. destruct (WidgetInstance.isOpen s); exact U.
  - unfold WidgetInstance.sendMessage. rewrite U. reflexivity.
  - unfold WidgetInstance.setQuestion. rewrite U. reflexivity.
  - unfold WidgetInstance.focusInput. rewrite U. cbn. exact U.
  - unfold WidgetInstance.timer_fire. rewrite U. cbn. now destruct i.
  - unfold WidgetInstance.focus_timer_fire, WidgetInstance.focusInput.
    destruct (WidgetInstance.focus_timers s); [exact U|]. cbn. rewrite U. cbn. exact U.
  - unfold WidgetInstance.iframe_onload. rewrite U. cbn. exact U.
  - unfold WidgetInstance.iframe_onerror, WidgetInstance.showError. rewrite U. reflexivity.
  - unfold WidgetInstance.setFile. rewrite U. cbn. exact U.
  - unfold WidgetInstance.file_retry_fire.
    destruct (nth_error (WidgetInstance.file_retries s) i) as [[fid o]|]; [|exact U].
    cbn [WidgetInstance.ui WidgetInstance.set_file_retries]. rewrite U. cbn. exact U.
Qed.

(** X19.  Until the promise of [loadFlutterApp] has settled the widget UI
    has no iframe, so every command is dropped: whatever was called or has
    fired since the instance was made, nothing is posted and no retry is
    armed, and a further [sendMessage], [setQuestion] or [setFile] returns
    [false] and changes nothing.  Nothing is kept for later, unlike the queue of the
    web component. *)
Theorem widget_commands_before_load_are_dropped (pf : Platform) (lang : value)
    (es : list WidgetEvent) (text : string) (o : Options) :
  forallb (fun e => negb (is_settled e)) es = true ->
  let s := widget_run pf (WidgetInstance.new_instance lang) es in
  WidgetUI.posted (WidgetInstance.ui s) = [] /\
  WidgetUI.timers (WidgetInstance.ui s) = [] /\
  WidgetInstance.sendMessage pf s text o = (s, false) /\
  WidgetInstance.setQuestion pf s text o = (s, false) /\
  (forall fileId, WidgetInstance.setFile pf s fileId o = (s, false)).
Proof.
  intros F s.
  assert (U : WidgetInstance.ui s = WidgetInstance.ui (WidgetInstance.new_instance lang)).
  { subst s. unfold widget_run.
    assert (G : forall s0,
               WidgetInstance.ui s0 = WidgetInstance.ui (WidgetInstance.new_instance lang) ->
               WidgetInstance.ui (fold_left (widget_step pf) es s0)
               = WidgetInstance.ui (WidgetInstance.new_instance lang)).
    { induction es as [|e es IH]; intros s0 U0; [exact U0|].
      cbn [forallb] in F. apply andb_prop in F as [F1 F2].
      apply negb_true_iff in F1. cbn [fold_left].
      apply (IH F2). now apply widget_step_before_load. }
    now apply G. }
  assert (I : WidgetInstance.set_ui (WidgetInstance.ui s) s = s) by now destruct s.
  assert (S1 : WidgetUI.sendMessage pf (WidgetInstance.ui s) text o
               = (WidgetInstance.ui s, false)) by (rewrite U; reflexivity).
  assert (S2 : WidgetUI.setQuestion pf (WidgetInstance.ui s) text o
               = (WidgetInstance.ui s, false)) by (rewrite U; reflexivity).
  unfold WidgetInstance.sendMessage, WidgetInstance.setQuestion, WidgetInstance.setFile.
  rewrite S1, S2, I, U. repeat split.
Qed.

Lemma widget_commands_before_load_are_dropped_witness :
  WidgetInstance.sendMessage lenient
    (widget_run lenient (WidgetInstance.new_instance VUndefined)
       [WOpen; WSendMessage "first" no_options]) "second" no_options
  = (widget_run lenient (WidgetInstance.new_instance VUndefined)
       [WOpen; WSendMessage "first" no_options], false).
Proof.
  exact (proj1 (proj2 (proj2
           (widget_commands_before_load_are_dropped lenient VUndefined
              [WOpen; WSendMessage "first" no_options] "second" no_options eq_refl)))).
Defined.

Lemma widget_step_panel (pf : Platform) (s : WidgetInstance.Instance) (e : WidgetEvent) :
  widget_panel_consistent s -> widget_panel_consistent (widget_step pf s e).
Proof.
  intros C. pose proof (command_steps_only_ui pf s e) as K.
  destruct e as [| | |t o|t o| |i| |cfg tok| | |fid o|i].
  - clear K. cbn [widget_step]. unfold WidgetInstance.open, WidgetInstance.loadFlutterApp.
    cbn. destruct (WidgetInstance.flutterAppLoaded s), (WidgetInstance.isLoading s);
      cbn; (split; [reflexivity | split; [reflexivity | discriminate]]).
  - clear K. cbn. split; [reflexivity | split; [discriminate | intros _; discriminate]].
  - clear K. cbn [widget_step]. unfold WidgetInstance.escapeHandler.
    destruct (WidgetInstance.isOpen s); [|exact C].
    cbn. split; [reflexivity | split; [discriminate | intros _; discriminate]].
  - destruct K as [u K]. rewrite K. exact C.
  - destruct K as [u K]. rewrite K. exact C.
  - destruct K as [u K]. rewrite K. exact C.
  - destruct K as [u K]. rewrite K. exact C.
  - destruct K as [u [k K]]. rewrite K. exact C.
  - clear K. cbn [widget_step]. unfold WidgetInstance.loadFlutterApp_settle.
    destruct (WidgetInstance.load_pending s); cbn [negb]; [|exact C].
    destruct (WidgetInstance.getChatbotBaseUrl cfg), (WidgetInstance.getToken tok); exact C.
  - clear K. cbn [widget_step]. unfold WidgetInstance.iframe_onload.
    destruct (WidgetUI.iframe (WidgetInstance.ui s)) as [f|]; [|exact C].
    destruct (WidgetUI.chatbotBaseUrl (WidgetInstance.ui s)); [|exact C].
    destruct (contentWindow f); exact C.
  - exact C.
  - destruct K as [u [r K]]. rewrite K. exact C.
  - destruct K as [u [r K]]. rewrite K. exact C.
Qed.

(** X20.  At every moment of the life of a widget UI instance the panel
    carries class [open] exactly when [isOpen] holds and the launcher is
    hidden exactly while the panel is open; loading, failing and the
    commands never touch them. *)
Theorem widget_panel_stays_consistent (pf : Platform) (lang : value)
    (es : list WidgetEvent) :
  widget_panel_consistent (widget_run pf (WidgetInstance.new_instance lang) es).
Proof.
  unfold widget_run.
  assert (G : forall s, widget_panel_consistent s ->
                        widget_panel_consistent (fold_left (widget_step pf) es s)).
  { induction es as [|e es IH]; intros s C; [exact C|].
    cbn [fold_left]. apply IH. now apply widget_step_panel. }
  apply G. split; [reflexivity | split; [discriminate | intros _; discriminate]].
Qed.

(* ------------------------------------------------------------------ *)
(** ** The loader of the widget UI *)

Lemma append_inj_r (p x y : string) : (p ++ x = p ++ y)%string -> x = y.
Proof.
  induction p as [|c p IH]; cbn; intros H; [exact H|]. inversion H. now apply IH.
Qed.

Lemma decimal_inj (m n : nat) : WidgetLoader.decimal m = WidgetLoader.decimal n -> m = n.
Proof.
  unfold WidgetLoader.decimal. intros H.
  apply DecimalNat.Unsigned.to_uint_inj.
  apply (f_equal DecimalString.NilEmpty.uint_of_string) in H.
  rewrite !DecimalString.NilEmpty.usu in H. now inversion H.
Qed.

Lemma root_candidate_inj (m n : nat) : root_candidate m = root_candidate n -> m = n.
Proof.
  destruct m as [|m], n as [|n]; cbn [root_candidate]; intros H.
  - reflexivity.
  - apply (f_equal String.length) in H. cbn in H. discriminate.
  - apply (f_equal String.length) in H. cbn in H. discriminate.
  - apply decimal_inj. now apply (append_inj_r "aventora-widget-root-").
Qed.

Lemma root_candidates_bounded (ids : list string) (c : nat) :
  (forall m, m < c -> In (root_candidate m) ids) -> c <= length ids.
Proof.
  intros H.
  assert (N : NoDup (map root_candidate (seq 0 c))).
  { apply NoDup_map_NoDup_ForallPairs; [|apply seq_NoDup].
    intros a b _ _. apply root_candidate_inj. }
  apply NoDup_incl_length with (l' := ids) in N.
  - now rewrite length_map, length_seq in N.
  - intros x I. apply in_map_iff in I as [m [E I]]. subst x.
    apply in_seq in I. apply H. lia.
Qed.

Lemma rootId_loop_spec (ids : list string) :
  forall fuel c,
    length ids < c + fuel ->
    (forall m, m < c -> In (root_candidate m) ids) ->
    exists n,
      WidgetLoader.rootId_loop fuel ids (root_candidate c) c = Some (root_candidate n) /\
      c <= n /\ ~ In (root_candidate n) ids /\
      (forall m, m < n -> In (root_candidate m) ids).
Proof.
  induction fuel as [|k IH]; intros c L H.
  - pose proof (root_candidates_bounded ids c H). lia.
  - cbn [WidgetLoader.rootId_loop].
    destruct (existsb (String.eqb (root_candidate c)) ids) eqn:E.
    + apply existsb_exists in E as [x [I Q]]. apply String.eqb_eq in Q. subst x.
      destruct (IH (S c)) as [n [R [Le [Fr Al]]]].
      * lia.
      * intros m Lt. destruct (Nat.eq_dec m c) as [->|Ne]; [exact I | apply H; lia].
      * exists n. split; [exact R|]. split; [lia|]. split; assumption.
    + exists c. split; [reflexivity|]. split; [lia|]. split; [|exact H].
      intros I. assert (X : existsb (String.eqb (root_candidate c)) ids = true).
      { apply existsb_exists. exists (root_candidate c). split; [exact I|].
        apply String.eqb_refl. }
      congruence.
Qed.

(** X21.  The loop that names the root of the widget UI ends within one
    test more than the document has ids, and the id it returns is borne by
    no element: it is the first free one of [aventora-widget-root],
    [aventora-widget-root-1], [aventora-widget-root-2], ... *)
Theorem rootId_is_first_free (ids : list string) :
  exists n,
    WidgetLoader.rootId ids = Some (root_candidate n) /\
    n <= length ids /\
    ~ In (root_candidate n) ids /\
    (forall m, m < n -> In (root_candidate m) ids).
Proof.
  destruct (rootId_loop_spec ids (S (length ids)) 0) as [n [R [_ [Fr Al]]]].
  - lia.
  - intros m Lt. lia.
  - exists n. split; [exact R|]. split; [|split; assumption].
    now apply root_candidates_bounded.
Qed.

(** X22.  [loadConfig] always ends with an API base: whatever the config
    endpoint answers, afterwards [configLoaded] holds, [apiBase] is truthy
    and a further [loadConfig] sends no request.  A truthy [apiBaseUrl] of
    an ok answer replaces the [data-api-base] of the script tag; without
    one the attribute is kept, and the default is used when there is
    neither. *)
Theorem loadConfig_yields_api_base (s : WidgetLoader.State) (cfg : FetchOutcome) :
  let s' := WidgetLoader.loadConfig_settle s cfg in
  WidgetLoader.configLoaded s' = true /\
  truthy (WidgetLoader.apiBase s') = true /\
  WidgetLoader.loadConfig s' = s' /\
  (forall data a,
     cfg = Response true (Json data) ->
     get data "apiBaseUrl" = Some a -> truthy a = true ->
     WidgetLoader.apiBase s' = a) /\
  ((forall data a, cfg = Response true (Json data) ->
                   get data "apiBaseUrl" = Some a -> truthy a = false) ->
   WidgetLoader.apiBase s'
   = if truthy (WidgetLoader.apiBase s) then WidgetLoader.apiBase s
     else VStr "https://api.aventora.ai").
Proof.
  intros s'. subst s'.
  assert (F : forall a b, truthy (WidgetLoader.apiBase (WidgetLoader.finish a b s)) = true).
  { intros a b. cbn. destruct (truthy a) eqn:T; [exact T | reflexivity]. }
  unfold WidgetLoader.loadConfig_settle.
  destruct cfg as [m|[|] [m|data]];
    try (split; [reflexivity|]; split; [apply F|]; split; [reflexivity|];
         split; [intros ? ? E; discriminate E | intros _; reflexivity]).
  destruct (get data "apiBaseUrl") as [a|] eqn:A.
  - assert (B : exists b, get data "chatbotBaseUrl" = Some b).
    { destruct data; try discriminate; cbn; eauto. }
    destruct B as [b B]. rewrite B.
    split; [reflexivity|]. split; [apply F|]. split; [reflexivity|]. split.
    + intros data' a' E A' T. inversion E; subst data'. rewrite A in A'.
      inversion A'; subst a'. cbn. now rewrite T, T.
    + intros H. specialize (H data a eq_refl A). cbn. now rewrite H.
  - split; [reflexivity|]. split; [apply F|]. split; [reflexivity|]. split.
    + intros data' a' E A'. inversion E; subst data'. congruence.
    + intros _. reflexivity.
Qed.

(* ------------------------------------------------------------------ *)
(** ** The endpoints of the server and their clients *)

Lemma env_or_nonempty (x : option string) (d : string) :
  d <> ""%string -> Server.env_or x d <> ""%string.
Proof. intros D. destruct x as [[|c v]|]; cbn; [exact D | discriminate | exact D]. Qed.

(** X23.  What [GET /api/config] answers, and what its three clients make
    of it.  With [CHATBOT_BASE_URL] set, the web component and the widget UI
    both use it as it is; without it the web component derives the URL from
    the page's host name while the widget UI's load fails.  The loader of
    the widget UI always takes the server's [apiBaseUrl], so against this
    endpoint its [data-api-base] attribute has no effect. *)
Theorem config_endpoint_clients (env : Server.Env) :
  (forall s loc,
     chatbotUrl (config s) = ""%string ->
     snd (getChatbotUrl s (config_reply env) loc)
     = match configured_base env with
       | Some u => VStr u
       | None => VStr (fallbackUrl loc (tenant (config s)))
       end) /\
  WidgetInstance.getChatbotBaseUrl (config_reply env)
  = option_map VStr (configured_base env) /\
  (forall s,
     WidgetLoader.apiBase (WidgetLoader.loadConfig_settle s (config_reply env))
     = VStr (Server.domainChatbotApiUrl env)).
Proof.
  assert (N : truthy (VStr (Server.domainChatbotApiUrl env)) = true).
  { cbn. apply negb_true_iff. apply String.eqb_neq.
    apply env_or_nonempty. discriminate. }
  split; [|split].
  - intros s loc E. unfold getChatbotUrl. rewrite E. cbn [String.eqb negb].
    unfold config_reply, config_answer, Server.api_config, configured_base.
    destruct (Server.CHATBOT_BASE_URL env) as [[|c u]|]; reflexivity.
  - unfold config_reply, Server.api_config, configured_base.
    destruct (Server.CHATBOT_BASE_URL env) as [[|c u]|]; reflexivity.
  - intros s. unfold config_reply, WidgetLoader.loadConfig_settle, Server.api_config.
    cbn [get lookup String.eqb Ascii.eqb Bool.eqb].
    rewrite N. unfold WidgetLoader.finish. cbn [WidgetLoader.apiBase]. now rewrite N.
Qed.

Lemma app_inj_same_length {A : Type} (l1 l2 r1 r2 : list A) :
  length l1 = length l2 -> l1 ++ r1 = l2 ++ r2 -> l1 = l2 /\ r1 = r2.
Proof.
  revert l2. induction l1 as [|x l1 IH]; intros [|y l2] L E; try discriminate.
  - now split.
  - cbn in L, E. inversion E; subst. destruct (IH l2) as [-> ->]; [lia | assumption |].
    now split.
Qed.

Lemma first8_length (k : Server.units) : 12 < length k -> length (Server.first8 k) = 8.
Proof. intros L. unfold Server.first8. rewrite length_firstn. lia. Qed.

Lemma last4_length (k : Server.units) : 12 < length k -> length (Server.last4 k) = 4.
Proof. intros L. unfold Server.last4. rewrite length_skipn. lia. Qed.

Lemma apiKeyPrefix_length (k : Server.units) :
  length (Server.apiKeyPrefix k) = if (12 <? length k)%nat then 15 else 3.
Proof.
  unfold Server.apiKeyPrefix. destruct (12 <? length k)%nat eqn:L; [|reflexivity].
  apply Nat.ltb_lt in L. rewrite !length_app, first8_length, last4_length by exact L.
  reflexivity.
Qed.

(** X24.  The token endpoint gives away at most twelve code units of the
    key, counted as JavaScript counts them.  The mask is never longer than
    fifteen code units.  Two trimmed keys get the same mask exactly when
    both have at most twelve code units, or both have more and agree on
    their first eight and last four; two such keys get the same answer to
    the same request under the same answer of the Domain Chatbot API.  A
    key that trims to nothing counts as configured: the request is sent
    with an empty bearer. *)
Theorem key_mask_reveals_twelve_characters (trim : Server.units -> Server.units)
    (env : Server.Env) (k k' : Server.units) (body : value) (up : Server.Upstream) :
  k <> [] -> k' <> [] ->
  (Server.apiKeyPrefix (trim k) = Server.apiKeyPrefix (trim k') <->
   same_mask (trim k) (trim k')) /\
  (same_mask (trim k) (trim k') ->
   Server.chatbot_token trim (with_key k env) body up
   = Server.chatbot_token trim (with_key k' env) body up) /\
  length (Server.apiKeyPrefix (trim k)) <= 15 /\
  (trim k = [] ->
   forall l, get body "language" = Some l ->
   exists request,
     Server.token_request trim (with_key k env) body = inr request /\
     Server.authorization request = Server.units_of "Bearer ").
Proof.
  intros K K'.
  assert (P : same_mask (trim k) (trim k') ->
              Server.apiKeyPrefix (trim k) = Server.apiKeyPrefix (trim k')).
  { intros M. unfold Server.apiKeyPrefix.
    destruct M as [[A B]|[A [B [C D]]]].
    - apply Nat.ltb_ge in A, B. now rewrite A, B.
    - apply Nat.ltb_lt in A, B. now rewrite A, B, C, D. }
  split; [|split; [|split]].
  - split; [|exact P]. intros E.
    pose proof (f_equal (@length nat) E) as L. rewrite !apiKeyPrefix_length in L.
    unfold Server.apiKeyPrefix in E.
    destruct (12 <? length (trim k))%nat eqn:A, (12 <? length (trim k'))%nat eqn:B;
      try discriminate.
    + apply Nat.ltb_lt in A, B. right.
      apply app_inj_same_length in E as [E1 E2];
        [|now rewrite !first8_length].
      apply app_inv_head in E2. auto.
    + apply Nat.ltb_ge in A, B. left. split; assumption.
  - intros M. apply P in M.
    unfold Server.chatbot_token, Server.token_request.
    destruct (get body "language") as [l|]; [|reflexivity].
    cbn [with_key Server.DOMAIN_CHATBOT_API_KEY].
    destruct k as [|c k]; [now contradiction K|].
    destruct k' as [|c' k']; [now contradiction K'|].
    cbn [Server.domainApiKey]. unfold Server.token_response.
    destruct up as [m|st text parsed]; [reflexivity|].
    destruct (Server.ok st); [reflexivity|].
    now rewrite M.
  - rewrite apiKeyPrefix_length. destruct (12 <? length (trim k))%nat; lia.
  - intros T l L. unfold Server.token_request. rewrite L.
    cbn [with_key Server.DOMAIN_CHATBOT_API_KEY].
    destruct k as [|c k]; [now contradiction K|].
    eexists. split; [reflexivity|]. cbn [Server.authorization]. rewrite T.
    apply app_nil_r.
Qed.

Lemma key_mask_reveals_twelve_characters_witness :
  Server.chatbot_token (fun x => x) (with_key long_key no_key_env)
    (VObj []) (Server.UpResponse 401 "unauthorized" (BadJson "Unexpected token"))
  = Server.chatbot_token (fun x => x) (with_key other_long_key no_key_env)
      (VObj []) (Server.UpResponse 401 "unauthorized" (BadJson "Unexpected token")) /\
  Server.apiKeyPrefix twelve_unit_key = Server.units_of "***".
Proof.
  split; [|reflexivity].
  refine (proj1 (proj2 (key_mask_reveals_twelve_characters (fun x => x) no_key_env
                          long_key other_long_key (VObj []) _ _ _)) _).
  - discriminate.
  - discriminate.
  - right. cbn. repeat split; lia.
Defined.

Lemma reply_status_ok (trim : Server.units -> Server.units) (env : Server.Env) (body : value)
    (up : Server.Upstream) :
  Server.ok (Server.status_of (Server.chatbot_token trim env body up))
  = match Server.chatbot_token trim env body up with
    | Server.Generated _ _ => true
    | _ => false
    end.
Proof.
  unfold Server.chatbot_token, Server.token_request.
  destruct (get body "language"); [|reflexivity].
  destruct (Server.DOMAIN_CHATBOT_API_KEY env) as [[|c k]|]; try reflexivity.
  cbn [Server.domainApiKey]. unfold Server.token_response.
  destruct up as [m|st text parsed]; [reflexivity|].
  destruct (Server.ok st) eqn:O.
  - destruct parsed as [m|d]; [reflexivity|].
    destruct (get d "token"); [|reflexivity].
    destruct (get d "expires_at"); reflexivity.
  - cbn. exact O.
Qed.

(** X25.  What the web component makes of every answer of the token
    endpoint.  The answer is ok exactly when it carries a token, and the
    component then stores that token and goes on to create the iframe.
    Every other answer (no key, a refusal of the Domain Chatbot API, an
    exception) makes [fetchToken] fail with the [error] text of the body,
    one of three fixed texts; the upstream's own text, the hint and the
    masked key travel in the body but are never shown. *)
Theorem token_endpoint_seen_by_component (trim : Server.units -> Server.units)
    (env : Server.Env)
    (body : value) (up : Server.Upstream) (d : value) (s : State) :
  let r := Server.chatbot_token trim env body up in
  client_reads r d ->
  fetchToken_settle s (token_reply r d)
  = match r with
    | Server.Generated t _ => (set_loading false (set_token t s), true)
    | _ => (fetchToken_catch (reply_error r) s, false)
    end.
Proof.
  intros r C. unfold token_reply. subst r. rewrite reply_status_ok.
  destruct (Server.chatbot_token trim env body up) as [|st de hi au kp|t e|m];
    cbn [fetchToken_settle reply_error].
  - pose proof (C "error"%string _ eq_refl) as E.
    pose proof (C "details"%string _ eq_refl) as D.
    unfold error_response_message. now rewrite E, D.
  - pose proof (C "error"%string _ eq_refl) as E.
    pose proof (C "details"%string _ eq_refl) as D.
    unfold error_response_message. now rewrite E, D.
  - pose proof (C "token"%string _ eq_refl) as T. now rewrite T.
  - pose proof (C "error"%string _ eq_refl) as E.
    pose proof (C "details"%string _ eq_refl) as D.
    unfold error_response_message. now rewrite E, D.
Qed.

Lemma token_endpoint_seen_by_component_witness :
  error (fst (fetchToken_settle (construct demo_config)
                (token_reply
                   (Server.chatbot_token (fun x => x) (with_key long_key no_key_env)
                      (VObj []) (Server.UpResponse 401 "key revoked" (BadJson "")))
                   (VObj [("error", VStr "Failed to generate chatbot token");
                          ("details", VStr "key revoked");
                          ("hint", VStr (Server.hint_for 401))]))))
  = Some "Failed to generate chatbot token"%string.
Proof.
  rewrite (token_endpoint_seen_by_component (fun x => x) (with_key long_key no_key_env)
             (VObj []) (Server.UpResponse 401 "key revoked" (BadJson ""))
             (VObj [("error", VStr "Failed to generate chatbot token");
                    ("details", VStr "key revoked");
                    ("hint", VStr (Server.hint_for 401))])
             (construct demo_config)).
  - reflexivity.
  - intros k v. cbn.
    destruct (k =? "error")%string eqn:E1; [intros H; now inversion H|].
    destruct (k =? "details")%string eqn:E2; [intros H; now inversion H|].
    destruct (k =? "hint")%string eqn:E3; [intros H; now inversion H|].
    destruct (k =? "debug")%string; [discriminate|].
    intros H; now inversion H.
Defined.

(* ------------------------------------------------------------------ *)
(** ** The [autoSend] option, whatever its value *)

(** X26.  Whatever value the caller passes as [autoSend], only the boolean
    [true] makes a shape ask for submission, in the web component and in
    the widget UI alike.  The widget UI always sends a boolean, [true]
    exactly for [true]; the web component forwards a truthy value as it is
    and sends [false] for a falsy one. *)
Theorem only_true_asks_for_submission (txt : string) (v f fileId : value) :
  let options := {| opt_autoSend := v; opt_file := f |} in
  (forall sh,
     In sh (WidgetUI.sendMessage_shapes txt options
            ++ WidgetUI.setQuestion_shapes txt options
            ++ [WidgetInstance.setFile_shape fileId options]) ->
     get sh "autoSend" = Some (VBool (is_true v)) /\ instructs_submit sh = is_true v) /\
  (forall sh,
     In sh (message_shapes (make_message txt options)
            ++ message_shapes (make_message txt (with_autoSend_default options))) ->
     get sh "autoSend" = Some (if truthy v then v else VBool false) /\
     instructs_submit sh = is_true v).
Proof.
  intros options. split.
  - intros sh H. unfold WidgetUI.sendMessage_shapes, WidgetUI.setQuestion_shapes,
      WidgetInstance.setFile_shape in H. cbn [opt_autoSend options] in H.
    unfold instructs_submit.
    destruct (is_true v) eqn:T; cbn in H;
      repeat (destruct H as [<-|H]; [split; reflexivity|]); contradiction.
  - intros sh H. rewrite make_message_default in H.
    apply in_app_or in H.
    assert (H' : In sh (message_shapes (make_message txt options))) by (destruct H; assumption).
    clear H. unfold message_shapes, make_message, or_else in H'.
    cbn [opt_autoSend opt_file options text autoSend file] in H'.
    unfold instructs_submit.
    assert (Q : is_true (if truthy v then v else VBool false) = is_true v).
    { destruct v as [| |[|]|x| |]; try reflexivity. cbn. destruct (x =? "")%string; reflexivity. }
    cbn in H'.
    repeat (destruct H' as [<-|H']; [cbn; rewrite Q; split; reflexivity|]).
    contradiction.
Qed.
